(** * Job orchestration and progress tracking of the music-analysis API

    A shallow embedding of the orchestration layer of the service:

    - [api/services/progress_tracker.py]  (module [Tracker])
    - [api/utils/memory_file_handler.py]  (module [TempFiles])
    - [api/services/analysis_service.py]  (module [Service])
    - [api/endpoints/analysis_sync.py]    (module [Sync])
    - [api/endpoints/analysis_async.py]   (module [Async])
    - [api/endpoints/analysis_batch.py]   (module [Batch])

    Numbers.  The progress tracker is embedded twice.  Module [Tracker]
    computes with exact rationals ([Q]), [round(x, 1)] being rounding to
    the nearest tenth, ties to even; it carries the order properties and
    the concrete runs, on which binary floating point gives the same
    values.  Module [FloatTracker] computes as the interpreter does, with
    IEEE 754 binary64 numbers (module [Binary64]); it carries the formula
    of the overall progress, where the two differ at decimal ties.
    Wall-clock reads ([time.time()]) are explicit arguments.

    Exceptions.  Python exceptions are values of type [exn]; a computation
    that may raise returns a [result]. *)

From Stdlib Require Import ZArith QArith Qround String List Bool Lia Lqa.
From Stdlib Require Import SpecFloat.
From stdpp Require Import gmap strings pretty.
Import ListNotations.

Local Open Scope string_scope.
Local Open Scope Z_scope.

(* ===================================================================== *)
(** ** Python preliminaries *)
(* ===================================================================== *)

Module Py.

(** [round(x)] to an integer, ties to even. *)
Definition round_half_even (x : Q) : Z :=
  let f := Qfloor x in
  match Qcompare (x - inject_Z f) (1 # 2) with
  | Lt => f
  | Gt => f + 1
  | Eq => if Z.even f then f else f + 1
  end.

(** [round(x, 1)]. *)
Definition round1 (x : Q) : Q :=
  inject_Z (round_half_even (x * 10)) / 10.

(** [max(0, min(100, x))], with Python's first-argument-wins tie rule. *)
Definition pymin (a b : Q) : Q := if Qlt_le_dec b a then b else a.
Definition pymax (a b : Q) : Q := if Qlt_le_dec a b then b else a.
Definition clamp_0_100 (x : Q) : Q := pymax 0 (pymin 100 x).

(** [int(x)] for a float: truncation toward zero. *)
Definition int_of (x : Q) : Z :=
  if Qlt_le_dec x 0 then - Qfloor (- x) else Qfloor x.

(** [x // y] and [x % y] on floats, [y > 0]. *)
Definition floordiv (x y : Q) : Q := inject_Z (Qfloor (x / y)).
Definition pymod (x y : Q) : Q := x - y * floordiv x y.

(** The exceptions that occur in the modelled code.  [Wrapped p e] stands
    for the text [f"{p}{str(e)}"]: the rendering of [str(e)] belongs to the
    interpreter and the web framework and is kept symbolic. *)
Inductive exn : Type :=
| NameError (name : string)
| UnboundLocalError (name : string)
| TypeError (callee : string) (takes given : nat)
| HTTPException (status_code : Z) (detail : text)
| EngineError (msg : string)
| TimeoutError
with text : Type :=
| Lit (s : string)
| Wrapped (prefix : string) (e : exn).

Inductive result (A : Type) : Type :=
| Ok (a : A)
| Raise (e : exn).
Arguments Ok {A} a.
Arguments Raise {A} e.

Definition bind {A B} (r : result A) (k : A -> result B) : result B :=
  match r with
  | Ok a => k a
  | Raise e => Raise e
  end.

Definition is_HTTPException (e : exn) : bool :=
  match e with HTTPException _ _ => true | _ => false end.

(** Truthiness of an [Optional[str]]: [None] and [""] are false. *)
Definition truthy (s : option string) : bool :=
  match s with
  | None => false
  | Some s => negb (String.eqb s "")
  end.

(** Name resolution at module level: a name that is neither a local nor
    bound in the module's globals raises [NameError]. *)
Definition resolve (globals : list string) (name : string) : result unit :=
  if existsb (String.eqb name) globals then Ok tt else Raise (NameError name).

(** Calling a function that declares [takes] positional parameters with
    [given] positional arguments (both counts include [self]). *)
Definition call {A} (callee : string) (takes given : nat) (body : result A)
  : result A :=
  if Nat.eqb takes given then body else Raise (TypeError callee takes given).

End Py.

Notation "x <- r ;; k" := (Py.bind r (fun x => k))
  (at level 100, r at next level, right associativity, only parsing).

(* ===================================================================== *)
(** ** [api/services/progress_tracker.py] *)
(* ===================================================================== *)

(** The tracker in exact arithmetic.  Lemma [embeddings_agree_off_ties]
    relates it to the tracker in binary64 of module [FloatTracker]. *)
Module Tracker.
Import Py.

(** [class AnalysisStep(str, Enum)], members in definition order. *)
Inductive AnalysisStep : Type :=
| INITIALIZING
| LOADING_MODEL
| AUDIO_SEPARATION
| SPECTROGRAM_EXTRACTION
| FEATURE_EXTRACTION
| BEAT_TRACKING
| SEGMENT_ANALYSIS
| GENERATING_RESULTS
| SAVING_OUTPUTS
| COMPLETED.

(** [step.value] *)
Definition value (s : AnalysisStep) : string :=
  match s with
  | INITIALIZING => "initializing"
  | LOADING_MODEL => "loading_model"
  | AUDIO_SEPARATION => "audio_separation"
  | SPECTROGRAM_EXTRACTION => "spectrogram_extraction"
  | FEATURE_EXTRACTION => "feature_extraction"
  | BEAT_TRACKING => "beat_tracking"
  | SEGMENT_ANALYSIS => "segment_analysis"
  | GENERATING_RESULTS => "generating_results"
  | SAVING_OUTPUTS => "saving_outputs"
  | COMPLETED => "completed"
  end.

(** Iteration order of [for step in AnalysisStep]. *)
Definition members : list AnalysisStep :=
  [INITIALIZING; LOADING_MODEL; AUDIO_SEPARATION; SPECTROGRAM_EXTRACTION;
   FEATURE_EXTRACTION; BEAT_TRACKING; SEGMENT_ANALYSIS; GENERATING_RESULTS;
   SAVING_OUTPUTS; COMPLETED].

Definition step_eqb (a b : AnalysisStep) : bool :=
  match a, b with
  | INITIALIZING, INITIALIZING
  | LOADING_MODEL, LOADING_MODEL
  | AUDIO_SEPARATION, AUDIO_SEPARATION
  | SPECTROGRAM_EXTRACTION, SPECTROGRAM_EXTRACTION
  | FEATURE_EXTRACTION, FEATURE_EXTRACTION
  | BEAT_TRACKING, BEAT_TRACKING
  | SEGMENT_ANALYSIS, SEGMENT_ANALYSIS
  | GENERATING_RESULTS, GENERATING_RESULTS
  | SAVING_OUTPUTS, SAVING_OUTPUTS
  | COMPLETED, COMPLETED => true
  | _, _ => false
  end.

(** Position of a member in the definition order of the enum. *)
Definition index (s : AnalysisStep) : nat :=
  match s with
  | INITIALIZING => 0
  | LOADING_MODEL => 1
  | AUDIO_SEPARATION => 2
  | SPECTROGRAM_EXTRACTION => 3
  | FEATURE_EXTRACTION => 4
  | BEAT_TRACKING => 5
  | SEGMENT_ANALYSIS => 6
  | GENERATING_RESULTS => 7
  | SAVING_OUTPUTS => 8
  | COMPLETED => 9
  end%nat.

(** [self.step_estimates.get(step, (0, 0))]: [COMPLETED] has no entry. *)
Definition step_estimates (s : AnalysisStep) : Q * Q :=
  match s with
  | INITIALIZING => (1, 2)
  | LOADING_MODEL => (5, 15)
  | AUDIO_SEPARATION => (10, 30)
  | SPECTROGRAM_EXTRACTION => (5, 15)
  | FEATURE_EXTRACTION => (3, 8)
  | BEAT_TRACKING => (5, 12)
  | SEGMENT_ANALYSIS => (8, 20)
  | GENERATING_RESULTS => (2, 5)
  | SAVING_OUTPUTS => (1, 3)
  | COMPLETED => (0, 0)
  end%Q.

(** The dict literal [step_weights] of [_calculate_overall_progress], in
    insertion order. *)
Definition step_weights : list (AnalysisStep * Q) :=
  [(INITIALIZING, 2 # 100);
   (LOADING_MODEL, 15 # 100);
   (AUDIO_SEPARATION, 25 # 100);
   (SPECTROGRAM_EXTRACTION, 15 # 100);
   (FEATURE_EXTRACTION, 8 # 100);
   (BEAT_TRACKING, 15 # 100);
   (SEGMENT_ANALYSIS, 15 # 100);
   (GENERATING_RESULTS, 3 # 100);
   (SAVING_OUTPUTS, 2 # 100);
   (COMPLETED, 1)]%Q.

Record ProgressTracker : Type := {
  request_id : string;
  start_time : Q;
  current_step : AnalysisStep;
  step_progress : Q;
  overall_progress : Q;
  step_start_time : Q
}.

(** [ProgressTracker.__init__]; [now] is the value of [time.time()]. *)
Definition init (rid : string) (now : Q) : ProgressTracker :=
  {| request_id := rid;
     start_time := now;
     current_step := INITIALIZING;
     step_progress := 0;
     overall_progress := 0;
     step_start_time := now |}.

(** The [for step, weight in step_weights.items()] loop with its [break]:
    [acc] is [completed_weight].  The [elif] compares the string values of
    the two members. *)
Fixpoint weight_loop (items : list (AnalysisStep * Q)) (cur : AnalysisStep)
    (sp : Q) (acc : Q) : Q :=
  match items with
  | [] => acc
  | (step, weight) :: rest =>
      if step_eqb step cur then acc + weight * (sp / 100)
      else if String.ltb (value step) (value cur)
           then weight_loop rest cur sp (acc + weight)
           else weight_loop rest cur sp acc
  end%Q.

Definition calculate (cur : AnalysisStep) (sp : Q) : Q :=
  round1 (weight_loop step_weights cur sp 0 * 100).

Definition _calculate_overall_progress (t : ProgressTracker) : Q :=
  calculate (current_step t) (step_progress t).

Definition update_step (t : ProgressTracker) (step : AnalysisStep)
    (sp : Q) (now : Q) : ProgressTracker :=
  let t1 := {| request_id := request_id t;
               start_time := start_time t;
               current_step := step;
               step_progress := clamp_0_100 sp;
               overall_progress := overall_progress t;
               step_start_time := now |} in
  {| request_id := request_id t1;
     start_time := start_time t1;
     current_step := current_step t1;
     step_progress := step_progress t1;
     overall_progress := _calculate_overall_progress t1;
     step_start_time := step_start_time t1 |}.

Definition update_step_progress (t : ProgressTracker) (progress : Q)
  : ProgressTracker :=
  let t1 := {| request_id := request_id t;
               start_time := start_time t;
               current_step := current_step t;
               step_progress := clamp_0_100 progress;
               overall_progress := overall_progress t;
               step_start_time := step_start_time t |} in
  {| request_id := request_id t1;
     start_time := start_time t1;
     current_step := current_step t1;
     step_progress := step_progress t1;
     overall_progress := _calculate_overall_progress t1;
     step_start_time := step_start_time t1 |}.

Definition complete (t : ProgressTracker) (now : Q) : ProgressTracker :=
  update_step t COMPLETED 100 now.

(** [remaining_steps_time]: the loop [for step in AnalysisStep] keeps the
    members whose string value is greater than the current one's. *)
Fixpoint remaining_steps_time (steps : list AnalysisStep)
    (cur : AnalysisStep) : Q :=
  match steps with
  | [] => 0
  | step :: rest =>
      if String.ltb (value cur) (value step)
      then (let '(min_t, max_t) := step_estimates step in
            (min_t + max_t) / 2) + remaining_steps_time rest cur
      else remaining_steps_time rest cur
  end%Q.

Definition total_remaining (t : ProgressTracker) (now : Q) : Q :=
  (let '(min_time, max_time) := step_estimates (current_step t) in
   let step_elapsed := now - step_start_time t in
   let step_remaining := pymax 0 ((min_time + max_time) / 2 - step_elapsed) in
   step_remaining + remaining_steps_time members (current_step t))%Q.

(** The two output formats, [f"{s}秒"] and [f"{m}分{s}秒"]. *)
Inductive remaining_text : Type :=
| Seconds (s : Z)
| MinutesSeconds (m s : Z).

Definition _estimate_remaining_time (t : ProgressTracker) (now : Q)
  : option remaining_text :=
  if step_eqb (current_step t) COMPLETED then None
  else
    let total := total_remaining t now in
    if Qlt_le_dec 0 total then
      if Qlt_le_dec total 60 then Some (Seconds (int_of total))
      else Some (MinutesSeconds (int_of (floordiv total 60))
                                (int_of (pymod total 60)))
    else None.

End Tracker.

(* ===================================================================== *)
(** ** Python numbers in binary floating point *)
(* ===================================================================== *)

Module Binary64.
Import Py.

(** A Python [float] is an IEEE 754 binary64 number.  The operations are
    those of [SpecFloat] at precision 53 and maximal exponent 1024: each
    gives the binary64 number nearest to the exact result, ties to even. *)
Definition float : Type := spec_float.

Definition of_Z (z : Z) : float := binary_normalize 53 1024 z 0 false.
Definition add : float -> float -> float := SFadd 53 1024.
Definition mul : float -> float -> float := SFmul 53 1024.
Definition div : float -> float -> float := SFdiv 53 1024.

(** The decimal literal with numerator [n] over the power of ten [d], as
    in [0.15]: the binary64 number nearest to it.  Both integers are exact
    in binary64 and the division rounds once. *)
Definition lit (n d : Z) : float := div (of_Z n) (of_Z d).

(** The rational a float stands for (0 for what is not finite). *)
Definition to_Q (x : float) : Q :=
  match x with
  | S754_finite s m e =>
      let v := inject_Z (if s then Z.neg m else Z.pos m) in
      match e with
      | Z0 => v
      | Zpos p => v * inject_Z (2 ^ Zpos p)
      | Zneg p => v / inject_Z (2 ^ Zpos p)
      end%Q
  | _ => 0%Q
  end.

(** The float written with one decimal as [d/10]. *)
Definition tenth (d : Z) : float := lit d 10.

(** [round(x, 1)]: the value of [x] is rounded to the nearest decimal with
    one fractional digit, ties to even, and that decimal is read back as a
    float; a zero keeps the sign of [x]. *)
Definition round1 (x : float) : float :=
  match x with
  | S754_finite s _ _ =>
      let d := round_half_even (to_Q x * 10) in
      if d =? 0 then S754_zero s else tenth d
  | _ => x
  end.

(** A Python number: an [int] or a [float]. *)
Inductive num : Type :=
| PyInt (z : Z)
| PyFloat (x : float).

Definition to_float (n : num) : float :=
  match n with
  | PyInt z => of_Z z
  | PyFloat x => x
  end.

(** The value of a number, as a rational. *)
Definition num_value (n : num) : Q :=
  match n with
  | PyInt z => inject_Z z
  | PyFloat x => to_Q x
  end.

(** [a < b]: two ints and two floats are compared as such, an int and a
    float by their values. *)
Definition Qltb (a b : Q) : bool := negb (Qle_bool b a).

Definition num_ltb (a b : num) : bool :=
  match a, b with
  | PyInt x, PyInt y => x <? y
  | PyFloat x, PyFloat y => SFltb x y
  | PyInt x, PyFloat y =>
      match y with
      | S754_nan => false
      | S754_infinity s => negb s
      | _ => Qltb (inject_Z x) (to_Q y)
      end
  | PyFloat x, PyInt y =>
      match x with
      | S754_nan => false
      | S754_infinity s => s
      | _ => Qltb (to_Q x) (inject_Z y)
      end
  end.

(** [min(a, b)] and [max(a, b)]: the first argument stays unless the
    second is smaller, respectively greater. *)
Definition pymin (a b : num) : num := if num_ltb b a then b else a.
Definition pymax (a b : num) : num := if num_ltb a b then b else a.

(** [max(0, min(100, x))] *)
Definition clamp_0_100 (x : num) : num := pymax (PyInt 0) (pymin (PyInt 100) x).

(** [x / 100]: true division, for a float and for an int that binary64
    holds exactly. *)
Definition true_div (x : num) (d : Z) : float := div (to_float x) (of_Z d).

(** Equality test on floats, as data. *)
Definition float_eqb (x y : float) : bool :=
  match x, y with
  | S754_zero a, S754_zero b => Bool.eqb a b
  | S754_infinity a, S754_infinity b => Bool.eqb a b
  | S754_nan, S754_nan => true
  | S754_finite s m e, S754_finite s' m' e' =>
      Bool.eqb s s' && Pos.eqb m m' && Z.eqb e e'
  | _, _ => false
  end.

End Binary64.

(* ===================================================================== *)
(** ** [api/services/progress_tracker.py], in binary floating point *)
(* ===================================================================== *)

Module FloatTracker.
Import Py Binary64.
Import Tracker (AnalysisStep, INITIALIZING, LOADING_MODEL, AUDIO_SEPARATION,
                SPECTROGRAM_EXTRACTION, FEATURE_EXTRACTION, BEAT_TRACKING,
                SEGMENT_ANALYSIS, GENERATING_RESULTS, SAVING_OUTPUTS,
                COMPLETED, value, step_eqb).

(** The dict literal [step_weights], in insertion order. *)
Definition step_weights : list (AnalysisStep * float) :=
  [(INITIALIZING, lit 2 100);
   (LOADING_MODEL, lit 15 100);
   (AUDIO_SEPARATION, lit 25 100);
   (SPECTROGRAM_EXTRACTION, lit 15 100);
   (FEATURE_EXTRACTION, lit 8 100);
   (BEAT_TRACKING, lit 15 100);
   (SEGMENT_ANALYSIS, lit 15 100);
   (GENERATING_RESULTS, lit 3 100);
   (SAVING_OUTPUTS, lit 2 100);
   (COMPLETED, lit 10 10)].

Record ProgressTracker : Type := {
  request_id : string;
  start_time : float;
  current_step : AnalysisStep;
  step_progress : num;
  overall_progress : float;
  step_start_time : float
}.

(** [ProgressTracker.__init__]: both progress fields start as [0.0]. *)
Definition init (rid : string) (now : float) : ProgressTracker :=
  {| request_id := rid;
     start_time := now;
     current_step := INITIALIZING;
     step_progress := PyFloat (S754_zero false);
     overall_progress := S754_zero false;
     step_start_time := now |}.

(** The loop of [_calculate_overall_progress] with its [break]; [acc] is
    [completed_weight]. *)
Fixpoint weight_loop (items : list (AnalysisStep * float))
    (cur : AnalysisStep) (sp : num) (acc : float) : float :=
  match items with
  | [] => acc
  | (step, weight) :: rest =>
      if step_eqb step cur then add acc (mul weight (true_div sp 100))
      else if String.ltb (value step) (value cur)
           then weight_loop rest cur sp (add acc weight)
           else weight_loop rest cur sp acc
  end.

(** [round(completed_weight * 100, 1)], with [completed_weight] starting
    from [0.0]. *)
Definition calculate (cur : AnalysisStep) (sp : num) : float :=
  round1 (mul (weight_loop step_weights cur sp (S754_zero false)) (of_Z 100)).

Definition _calculate_overall_progress (t : ProgressTracker) : float :=
  calculate (current_step t) (step_progress t).

Definition update_step (t : ProgressTracker) (step : AnalysisStep)
    (sp : num) (now : float) : ProgressTracker :=
  let t1 := {| request_id := request_id t;
               start_time := start_time t;
               current_step := step;
               step_progress := clamp_0_100 sp;
               overall_progress := overall_progress t;
               step_start_time := now |} in
  {| request_id := request_id t1;
     start_time := start_time t1;
     current_step := current_step t1;
     step_progress := step_progress t1;
     overall_progress := _calculate_overall_progress t1;
     step_start_time := step_start_time t1 |}.

Definition update_step_progress (t : ProgressTracker) (progress : num)
  : ProgressTracker :=
  let t1 := {| request_id := request_id t;
               start_time := start_time t;
               current_step := current_step t;
               step_progress := clamp_0_100 progress;
               overall_progress := overall_progress t;
               step_start_time := step_start_time t |} in
  {| request_id := request_id t1;
     start_time := start_time t1;
     current_step := current_step t1;
     step_progress := step_progress t1;
     overall_progress := _calculate_overall_progress t1;
     step_start_time := step_start_time t1 |}.

(** [complete]: [self.update_step(AnalysisStep.COMPLETED, 100.0)]. *)
Definition complete (t : ProgressTracker) (now : float) : ProgressTracker :=
  update_step t COMPLETED (PyFloat (of_Z 100)) now.

End FloatTracker.

(* ===================================================================== *)
(** ** [api/utils/memory_file_handler.py] *)
(* ===================================================================== *)

Module TempFiles.
Import Py.

(** An entry of [MemoryFileHandler.temp_files]. *)
Record file_info : Type := {
  path : string;
  dir : string;
  created_at : Q
}.

(** The handler object: the dict [temp_files], keyed by file id. *)
Record MemoryFileHandler : Type := {
  temp_files : gmap string file_info
}.

(** What happens inside [save_to_temp]: the uuid drawn for the file and
    the entry recorded for it; or the exception raised while the directory
    or the file is written, before anything is recorded; or the exception
    raised after the entry has been recorded, by [logger.info] or by
    [upload_file.seek(0)], which sit in the same [try]. *)
Inductive save_outcome : Type :=
| Saved (file_id : string) (info : file_info)
| SaveFailed (e : exn)
| SavedThenFailed (file_id : string) (info : file_info) (e : exn).

(** [save_to_temp]: any exception of the body is re-raised as a 500.  The
    handler does not take back an entry it has recorded. *)
Definition save_to_temp (h : MemoryFileHandler) (o : save_outcome)
  : result (string * string) * MemoryFileHandler :=
  match o with
  | Saved file_id info =>
      (Ok (path info, file_id),
       {| temp_files := <[file_id := info]> (temp_files h) |})
  | SaveFailed e =>
      (Raise (HTTPException 500 (Wrapped "文件处理失败: " e)), h)
  | SavedThenFailed file_id info e =>
      (Raise (HTTPException 500 (Wrapped "文件处理失败: " e)),
       {| temp_files := <[file_id := info]> (temp_files h) |})
  end.

(** [cleanup_file]: [fs_ok file_id] tells whether removing the file and
    its directory goes through; when it raises, the handler answers
    [False] and keeps the entry. *)
Definition cleanup_file (fs_ok : string -> bool) (h : MemoryFileHandler)
    (file_id : string) : bool * MemoryFileHandler :=
  match temp_files h !! file_id with
  | None => (false, h)
  | Some _ =>
      if fs_ok file_id
      then (true, {| temp_files := delete file_id (temp_files h) |})
      else (false, h)
  end.

Definition get_file_count (h : MemoryFileHandler) : nat :=
  size (temp_files h).

End TempFiles.

(* ===================================================================== *)
(** ** [api/services/analysis_service.py] *)
(* ===================================================================== *)

Module Service.
Import Py Tracker.

(** What [allin1.analyze] does on one file: how long the call takes and
    whether it returns (the raw result is an opaque token) or raises. *)
Record engine_run : Type := {
  duration : Q;
  outcome : result string
}.

(** The pair [(analysis_result_data, file_links)] handed back on success:
    the converted result remembers the path it was computed for. *)
Record payload : Type := {
  data_path : string;
  data_raw : string;
  links_request_id : string
}.

(** One call on the tracker. *)
Inductive tracker_call : Type :=
| UpdateStep (step : AnalysisStep) (step_progress : Q)
| UpdateStepProgress (progress : Q)
| Complete.

Definition apply_call (t : ProgressTracker) (c : tracker_call)
  : ProgressTracker :=
  match c with
  | UpdateStep s p => update_step t s p (step_start_time t)
  | UpdateStepProgress p => update_step_progress t p
  | Complete => complete t (step_start_time t)
  end.

(** The states the tracker goes through under a list of calls. *)
Fixpoint run_calls (t : ProgressTracker) (cs : list tracker_call)
  : list ProgressTracker :=
  match cs with
  | [] => []
  | c :: cs' => let t' := apply_call t c in t' :: run_calls t' cs'
  end.

(** The tracker calls of [analyze_single_file_with_progress] on its
    successful path, in program order.  [ticks] are the updates of
    [update_progress_during_analysis] that fire before the engine returns
    (a prefix of [60, 70, 80, 90]). *)
Definition calls_before_engine : list tracker_call :=
  [UpdateStep INITIALIZING 0; UpdateStepProgress 100;
   UpdateStep INITIALIZING 50; UpdateStepProgress 100;
   UpdateStep LOADING_MODEL 0] ++
  map UpdateStepProgress [0; 10; 20; 30; 40; 50; 60; 70; 80; 90; 100]%Q ++
  [UpdateStep AUDIO_SEPARATION 0; UpdateStepProgress 50].

Definition calls_after_engine : list tracker_call :=
  [UpdateStepProgress 100;
   UpdateStep GENERATING_RESULTS 0; UpdateStepProgress 50;
   UpdateStepProgress 100;
   UpdateStep SAVING_OUTPUTS 0; UpdateStepProgress 100;
   Complete].

Definition successful_calls (ticks : list Q) : list tracker_call :=
  calls_before_engine ++ map UpdateStepProgress ticks ++ calls_after_engine.

(** Number of positional parameters of the method, [self] included:
    [(self, file_path, request, request_id)]. *)
Definition analyze_single_file_with_progress_params : nat := 4.

(** [analyze_single_file_with_progress], called with [given] positional
    arguments ([self] included).  The [except Exception: ... raise] of the
    body re-raises what the engine raised. *)
Definition analyze_single_file_with_progress (given : nat)
    (file_path request_id : string) (run : engine_run) : result payload :=
  call "AnalysisService.analyze_single_file_with_progress"
       analyze_single_file_with_progress_params given
       (raw <- outcome run ;;
        Ok {| data_path := file_path;
              data_raw := raw;
              links_request_id := request_id |}).

(** [analyze_single_file]: forwards its three arguments. *)
Definition analyze_single_file (given : nat) (file_path request_id : string)
    (run : engine_run) : result payload :=
  call "AnalysisService.analyze_single_file" 4 given
       (analyze_single_file_with_progress 4 file_path request_id run).

(** The time [analyze_single_file_with_progress] spends before it starts
    the engine: the [asyncio.sleep(0.1)] after the first tracker update
    and the eleven of the model-loading loop.  The statements between the
    sleeps are taken to need no time. *)
Definition preparation_time : Q := 12 # 10.

(** Where the coroutine stands [t] seconds after it was started: at one of
    the twelve sleeps, at [await loop.run_in_executor(...)], or past its
    last statement. *)
Inductive suspension : Type :=
| InPreparation
| InEngine
| Finished.

Definition suspended_at (run : engine_run) (t : Q) : suspension :=
  if Qlt_le_dec t preparation_time then InPreparation
  else if Qlt_le_dec t (preparation_time + duration run) then InEngine
  else Finished.

(** What becomes of the coroutine when it is cancelled where it stands;
    [r] is what it gives when left alone.  At a sleep the [CancelledError]
    leaves the coroutine, since [except Exception] does not catch it
    ([None]).  At the engine it is caught by [except asyncio.CancelledError:
    pass]; the coroutine goes on, reads the local [results], which was
    never bound, and the [UnboundLocalError] is re-raised by the outer
    handler. *)
Definition cancelled_at (pos : suspension) (r : result payload)
  : option (result payload) :=
  match pos with
  | InPreparation => None
  | InEngine => Some (Raise (UnboundLocalError "results"))
  | Finished => Some r
  end.

End Service.

(* ===================================================================== *)
(** ** [api/endpoints/analysis_sync.py] *)
(* ===================================================================== *)

Module Sync.
Import Py TempFiles Service.

(** The state the endpoint works on: the global handler, the local
    variable [file_id], and the record of the [cleanup_file] calls made,
    each with the value it returned. *)
Record frame : Type := {
  handler : MemoryFileHandler;
  file_id : option string;
  cleanups : list (string * bool)
}.

Definition M (A : Type) : Type := frame -> result A * frame.

Definition ret {A} (a : A) : M A := fun s => (Ok a, s).
Definition raise {A} (e : exn) : M A := fun s => (Raise e, s).
Definition mbind {A B} (m : M A) (k : A -> M B) : M B :=
  fun s => match m s with
           | (Ok a, s') => k a s'
           | (Raise e, s') => (Raise e, s')
           end.

(** [try: m except <filter> as e: h e]; other exceptions pass through. *)
Definition catch {A} (m : M A) (filter : exn -> bool) (h : exn -> M A) : M A :=
  fun s => match m s with
           | (Ok a, s') => (Ok a, s')
           | (Raise e, s') => if filter e then h e s' else (Raise e, s')
           end.

Definition is_TimeoutError (e : exn) : bool :=
  match e with TimeoutError => true | _ => false end.

Definition do_cleanup (fs_ok : string -> bool) (fid : string) : M unit :=
  fun s =>
    let '(b, h') := cleanup_file fs_ok (handler s) fid in
    (Ok tt, {| handler := h'; file_id := file_id s;
               cleanups := cleanups s ++ [(fid, b)] |}).

(** [await memory_file_handler.cleanup_file(file_id)] on the local variable,
    as written at the two places that do not test it first: with
    [file_id = None] the handler looks up [None] and answers [False]. *)
Definition cleanup_local (fs_ok : string -> bool) : M unit :=
  fun s => match file_id s with
           | Some fid => do_cleanup fs_ok fid s
           | None => (Ok tt, s)
           end.

(** [if file_id: await memory_file_handler.cleanup_file(file_id)] *)
Definition cleanup_if_set (fs_ok : string -> bool) : M unit :=
  fun s => if truthy (file_id s) then cleanup_local fs_ok s else (Ok tt, s).

Definition do_save (o : save_outcome) : M string :=
  fun s =>
    match save_to_temp (handler s) o with
    | (Ok (upload_path, fid), h') =>
        (Ok upload_path,
         {| handler := h'; file_id := Some fid; cleanups := cleanups s |})
    | (Raise e, h') =>
        (Raise e,
         {| handler := h'; file_id := file_id s; cleanups := cleanups s |})
    end.

(** [asyncio.wait_for(coro, timeout)] on the coroutine of
    [analyze_single_file_with_progress]: when the deadline passes the
    coroutine is cancelled where it stands.  If the cancellation leaves
    it, [TimeoutError] is raised; if the coroutine ends in another way,
    by a value or by an exception of its own, that is handed on. *)
Definition wait_for (run : engine_run) (r : result payload) (timeout : Z)
  : M payload :=
  fun s => match cancelled_at (suspended_at run (inject_Z timeout)) r with
           | None => (Raise TimeoutError, s)
           | Some r' => (r', s)
           end.

Record AnalysisResponse : Type := {
  success : bool;
  data : payload
}.

Notation "x <-- m ;;; k" := (mbind m (fun x => k))
  (at level 100, m at next level, right associativity, only parsing).

(** [analyze_audio_sync].  [validation] is the answer of
    [validate_audio_file], [save] the outcome of [save_to_temp], [run] the
    behaviour of the engine on the saved file. *)
Definition analyze_audio_sync (fs_ok : string -> bool) (request_id : string)
    (timeout : Z) (validation : bool * string) (save : save_outcome)
    (run : engine_run) : M AnalysisResponse :=
  catch
    (catch
       (_ <-- (if (timeout <=? 0) || (600 <? timeout)
               then raise (HTTPException 400
                             (Lit "timeout 必须在 1-600 秒之间"))
               else ret tt) ;;;
        let '(is_valid, error_msg) := validation in
        _ <-- (if negb is_valid
               then raise (HTTPException 422 (Lit error_msg))
               else ret tt) ;;;
        upload_path <-- do_save save ;;;
        result_data <--
          catch
            (wait_for run
               (analyze_single_file_with_progress 4 upload_path request_id run)
               timeout)
            is_TimeoutError
            (fun _ =>
               _ <-- cleanup_local fs_ok ;;;
               raise (HTTPException 504
                        (Lit ("分析超时（" ++ pretty timeout
                              ++ "秒），请尝试减少文件大小或增加超时时间")))) ;;;
        _ <-- cleanup_local fs_ok ;;;
        ret {| success := true; data := result_data |})
       is_HTTPException
       (fun e => _ <-- cleanup_if_set fs_ok ;;; raise e))
    (fun e => negb (is_HTTPException e))
    (fun e =>
       _ <-- cleanup_if_set fs_ok ;;;
       raise (HTTPException 500 (Wrapped "分析过程中发生错误: " e))).

(** A request enters with no local [file_id] and an empty call record. *)
Definition enter (h : MemoryFileHandler) : frame :=
  {| handler := h; file_id := None; cleanups := [] |}.

End Sync.

(* ===================================================================== *)
(** ** [api/endpoints/analysis_async.py] *)
(* ===================================================================== *)

Module Async.
Import Py TempFiles Service.

(** An entry of the registry [async_tasks]. *)
Record task_info : Type := {
  task_id : string;
  request_id : string;
  file_path : string;
  file_id : option string;
  status : string;
  progress : Q;
  current_step : string;
  message : text;
  result : option payload;
  error : option exn
}.

(** The process-wide state the two functions act on. *)
Record world : Type := {
  async_tasks : gmap string task_info;
  handler : MemoryFileHandler;
  cleanups : list (string * bool)
}.

Definition do_cleanup (fs_ok : string -> bool) (fid : string) (w : world)
  : world :=
  let '(b, h') := cleanup_file fs_ok (handler w) fid in
  {| async_tasks := async_tasks w; handler := h';
     cleanups := cleanups w ++ [(fid, b)] |}.

Definition cleanup_if_set (fs_ok : string -> bool) (fid : option string)
    (w : world) : world :=
  match fid with
  | Some f => if truthy fid then do_cleanup fs_ok f w else w
  | None => w
  end.

(** [submit_analysis_task]: returns the task id, or raises.  Every
    exception of the body, the 422 of a rejected file included, is
    re-raised as a 500 after cleaning up whatever was saved. *)
Definition submit_analysis_task (fs_ok : string -> bool)
    (tid rid : string) (validation : bool * string) (save : save_outcome)
    (w : world) : Py.result string * world :=
  let '(is_valid, error_msg) := validation in
  let fail (fid : option string) (e : exn) (w : world) :=
    (Raise (HTTPException 500 (Wrapped "创建任务失败: " e)),
     cleanup_if_set fs_ok fid w) in
  if negb is_valid then fail None (HTTPException 422 (Lit error_msg)) w
  else
    match save_to_temp (handler w) save with
    | (Raise e, h') =>
        fail None e {| async_tasks := async_tasks w; handler := h';
                       cleanups := cleanups w |}
    | (Ok (upload_path, fid), h') =>
        let info := {| task_id := tid; request_id := rid;
                       file_path := upload_path; file_id := Some fid;
                       status := "pending"; progress := 0;
                       current_step := "queued";
                       message := Lit "任务已创建，等待处理";
                       result := None; error := None |} in
        (Ok tid,
         {| async_tasks := <[tid := info]> (async_tasks w);
            handler := h'; cleanups := cleanups w |})
    end.

(** The call of the driver into the service passes [self] and four
    arguments: [file_path], [request], [request_id] and the progress
    callback. *)
Definition driver_call_args : nat := 5.

(** [_process_async_analysis_task]. *)
Definition _process_async_analysis_task (fs_ok : string -> bool)
    (tid : string) (run : engine_run) (w : world) : world :=
  match async_tasks w !! tid with
  | None => w
  | Some ti =>
      let started :=
        {| task_id := task_id ti; request_id := request_id ti;
           file_path := file_path ti; file_id := file_id ti;
           status := "processing"; progress := 5;
           current_step := "initializing";
           message := Lit "开始分析处理";
           result := result ti; error := error ti |} in
      let finished :=
        match analyze_single_file_with_progress driver_call_args
                (file_path started) (request_id started) run with
        | Ok p =>
            {| task_id := task_id started; request_id := request_id started;
               file_path := file_path started; file_id := file_id started;
               status := "completed"; progress := 100;
               current_step := "completed";
               message := Lit "分析完成";
               result := Some p; error := error started |}
        | Raise e =>
            {| task_id := task_id started; request_id := request_id started;
               file_path := file_path started; file_id := file_id started;
               status := "failed"; progress := progress started;
               current_step := "failed";
               message := Wrapped "分析失败: " e;
               result := result started; error := Some e |}
        end in
      cleanup_if_set fs_ok (file_id finished)
        {| async_tasks := <[tid := finished]> (async_tasks w);
           handler := handler w; cleanups := cleanups w |}
  end.

End Async.

(* ===================================================================== *)
(** ** [api/endpoints/analysis_batch.py] *)
(* ===================================================================== *)

Module Batch.
Import Py TempFiles Service.

(** The names bound at module level: the imports, the module variables
    and the functions of the file. *)
Definition module_globals : list string :=
  ["time"; "uuid"; "List"; "Dict"; "Any"; "Optional"; "datetime";
   "APIRouter"; "UploadFile"; "File"; "Form"; "HTTPException";
   "BackgroundTasks"; "structlog";
   "BatchAnalysisRequest"; "BatchAnalysisResponse"; "TaskStatus";
   "ErrorResponse"; "ModelType";
   "AnalysisService"; "validate_audio_file"; "get_audio_duration";
   "memory_file_handler";
   "logger"; "router"; "analysis_service"; "batch_tasks";
   "submit_batch_analysis"; "_process_batch_analysis_task";
   "get_batch_analysis_status"; "get_batch_analysis_result";
   "cancel_or_delete_batch_task"; "list_batch_tasks"].

(** An uploaded file as the submission sees it: its name, the answer of
    [validate_audio_file], and what reading and saving it produce. *)
Record upload : Type := {
  up_filename : string;
  up_validation : bool * string;
  up_read : Py.result nat;
  up_save : save_outcome
}.

(** An entry of [validated_files] / [valid_files]. *)
Record file_entry : Type := {
  filename : string;
  original_index : nat;
  temp_path : string;
  entry_file_id : string
}.

(** An entry of [invalid_files]. *)
Record invalid_entry : Type := {
  inv_filename : string;
  inv_index : nat;
  inv_error : text
}.

(** A value of the dict [progress["results"]]. *)
Inductive item_outcome : Type :=
| ItemSuccess (data : payload)
| ItemFailure (error : exn).

(** The scalar slots of one progress dict. *)
Record progress_dict : Type := {
  current_file : option string;
  completed_count : nat;
  failed_count : nat;
  overall_progress : option Q
}.

(** A batch record.  [progress] is the dict made at submission, the one
    the driver binds to its local [progress].  [published] is what
    [task["progress"]] holds when that is a separate dict (the copy
    [{**progress, ...}] made at each item); [None] means [task["progress"]]
    is [progress] itself.  Both dicts refer to the same two lists and the
    same [results] dict, which are therefore kept once. *)
Record batch_task : Type := {
  status : string;
  priority : Z;
  file_count : nat;
  valid_files : list file_entry;
  invalid_files : list invalid_entry;
  file_ids : list string;
  continue_on_error : bool;
  progress : progress_dict;
  published : option progress_dict;
  completed_files : list string;
  failed_files : list string;
  results : gmap string item_outcome
}.

(** The dict read through [task["progress"]]. *)
Definition task_progress (t : batch_task) : progress_dict :=
  match published t with
  | Some d => d
  | None => progress t
  end.

Record world : Type := {
  batch_tasks : gmap string batch_task;
  handler : MemoryFileHandler;
  cleanups : list (string * bool);
  started_log : list string
}.

Definition set_status (s : string) (t : batch_task) : batch_task :=
  {| status := s; priority := priority t; file_count := file_count t;
     valid_files := valid_files t; invalid_files := invalid_files t;
     file_ids := file_ids t; continue_on_error := continue_on_error t;
     progress := progress t; published := published t;
     completed_files := completed_files t; failed_files := failed_files t;
     results := results t |}.

(** The effect of a cancel request on the record it finds. *)
Definition mark_cancelled (t : batch_task) : batch_task :=
  if existsb (String.eqb (status t)) ["pending"; "processing"]
  then set_status "cancelled" t
  else t.

Inductive delete_response : Type :=
| Cancelled
| Deleted.

(** [cancel_or_delete_batch_task] *)
Definition cancel_or_delete_batch_task (tid : string) (w : world)
  : Py.result delete_response * world :=
  match batch_tasks w !! tid with
  | None => (Raise (HTTPException 404 (Lit "批量任务不存在")), w)
  | Some task =>
      if existsb (String.eqb (status task)) ["pending"; "processing"] then
        (Ok Cancelled,
         {| batch_tasks := <[tid := set_status "cancelled" task]> (batch_tasks w);
            handler := handler w; cleanups := cleanups w;
            started_log := started_log w |})
      else if existsb (String.eqb (status task))
                ["completed"; "failed"; "cancelled"] then
        (Ok Deleted,
         {| batch_tasks := delete tid (batch_tasks w);
            handler := handler w; cleanups := cleanups w;
            started_log := started_log w |})
      else (Raise (HTTPException 400 (Lit "无法操作当前状态的任务")), w)
  end.

(** *** The driver, [_process_batch_analysis_task] *)

(** The head of the per-item [try]: the slots of [progress] are refreshed
    and a copy carrying the position-based progress is stored under
    [task["progress"]]. *)
Definition begin_item (i total : nat) (f : file_entry) (t : batch_task)
  : batch_task :=
  let p := {| current_file := Some (filename f);
              completed_count := length (completed_files t);
              failed_count := length (failed_files t);
              overall_progress := overall_progress (progress t) |} in
  let copy := {| current_file := current_file p;
                 completed_count := completed_count p;
                 failed_count := failed_count p;
                 overall_progress :=
                   Some (inject_Z (Z.of_nat i) / inject_Z (Z.of_nat total)
                         * 100)%Q |} in
  {| status := status t; priority := priority t; file_count := file_count t;
     valid_files := valid_files t; invalid_files := invalid_files t;
     file_ids := file_ids t; continue_on_error := continue_on_error t;
     progress := p; published := Some copy;
     completed_files := completed_files t; failed_files := failed_files t;
     results := results t |}.

(** The rest of the [try] body: the request is built from names imported
    inside the function, then [Path(file_info["temp_path"])] is evaluated,
    then the service is awaited. *)
Definition analyze_item (engine : string -> engine_run) (tid : string)
    (i : nat) (f : file_entry) : Py.result payload :=
  _ <- resolve module_globals "Path" ;;
  analyze_single_file 4 (temp_path f) (tid ++ "_" ++ pretty i)
    (engine (temp_path f)).

Definition record_success (f : file_entry) (p : payload) (t : batch_task)
  : batch_task :=
  {| status := status t; priority := priority t; file_count := file_count t;
     valid_files := valid_files t; invalid_files := invalid_files t;
     file_ids := file_ids t; continue_on_error := continue_on_error t;
     progress := progress t; published := published t;
     completed_files := completed_files t ++ [filename f];
     failed_files := failed_files t;
     results := <[filename f := ItemSuccess p]> (results t) |}.

Definition record_failure (f : file_entry) (e : exn) (t : batch_task)
  : batch_task :=
  {| status := status t; priority := priority t; file_count := file_count t;
     valid_files := valid_files t; invalid_files := invalid_files t;
     file_ids := file_ids t; continue_on_error := continue_on_error t;
     progress := progress t; published := published t;
     completed_files := completed_files t;
     failed_files := failed_files t ++ [filename f];
     results := <[filename f := ItemFailure e]> (results t) |}.

(** The [for i, file_info in enumerate(valid_files)] loop.  [log] collects
    the file names of the items started (the [logger.info] at the head of
    each item).  [cancels i] tells whether a cancel request is served just
    before item [i] starts. *)
Fixpoint process_items (engine : string -> engine_run)
    (cancels : nat -> bool) (tid : string) (total i : nat)
    (items : list file_entry) (t : batch_task) (log : list string)
  : batch_task * list string :=
  match items with
  | [] => (t, log)
  | f :: rest =>
      let t0 := if cancels i then mark_cancelled t else t in
      let t1 := begin_item i total f t0 in
      let log1 := (log ++ [filename f])%list in
      match analyze_item engine tid i f with
      | Ok p =>
          process_items engine cancels tid total (S i) rest
            (record_success f p t1) log1
      | Raise e =>
          let t2 := record_failure f e t1 in
          if negb (continue_on_error t2) then (t2, log1)
          else process_items engine cancels tid total (S i) rest t2 log1
      end
  end.

(** The statements after the loop. *)
Definition finish (t : batch_task) : batch_task :=
  let p := {| current_file := None;
              completed_count := completed_count (progress t);
              failed_count := failed_count (progress t);
              overall_progress := Some 100%Q |} in
  {| status := "completed"; priority := priority t;
     file_count := file_count t;
     valid_files := valid_files t; invalid_files := invalid_files t;
     file_ids := file_ids t; continue_on_error := continue_on_error t;
     progress := p; published := None;
     completed_files := completed_files t; failed_files := failed_files t;
     results := results t |}.

(** What the driver does to the record it was started on.  Every
    statement of the loop body sits in the per-item [try], so nothing here
    reaches the outer [except Exception] that would set the status to
    "failed". *)
Definition drive (engine : string -> engine_run) (cancels : nat -> bool)
    (tid : string) (task : batch_task) : batch_task * list string :=
  let t1 := set_status "processing" task in
  let '(t2, log) :=
    process_items engine cancels tid (length (valid_files t1)) 0
      (valid_files t1) t1 [] in
  (finish t2, log).

(** The [finally] clause: every file id of the record is cleaned up. *)
Fixpoint cleanup_all (fs_ok : string -> bool) (ids : list string)
    (h : MemoryFileHandler) (log : list (string * bool))
  : MemoryFileHandler * list (string * bool) :=
  match ids with
  | [] => (h, log)
  | fid :: rest =>
      let '(b, h') := cleanup_file fs_ok h fid in
      cleanup_all fs_ok rest h' (log ++ [(fid, b)])%list
  end.

(** *** The submission, [submit_batch_analysis] *)

Record BatchAnalysisResponse : Type := {
  resp_task_id : string;
  resp_file_count : nat;
  resp_priority : Z
}.

(** The loop [for i, file in enumerate(files)]: a rejected file, or one
    whose content cannot be read, goes to [invalid_files]; the others go to
    [validated_files] with their index. *)
Fixpoint validate_files (i : nat) (files : list upload)
    (validated : list (nat * upload)) (invalid : list invalid_entry)
    (total_size : nat) : list (nat * upload) * list invalid_entry * nat :=
  match files with
  | [] => (validated, invalid, total_size)
  | file :: rest =>
      let '(is_valid, error_msg) := up_validation file in
      if negb is_valid then
        validate_files (S i) rest validated
          (invalid ++ [{| inv_filename := up_filename file; inv_index := i;
                          inv_error := Lit error_msg |}])%list
          total_size
      else
        match up_read file with
        | Ok size =>
            validate_files (S i) rest (validated ++ [(i, file)])%list invalid
              (total_size + size)%nat
        | Raise e =>
            validate_files (S i) rest validated
              (invalid ++ [{| inv_filename := up_filename file; inv_index := i;
                              inv_error := Wrapped "文件验证失败: " e |}])%list
              total_size
        end
  end.

(** The loop [for file_info in validated_files] that saves each accepted
    file; the second component is the local [file_ids] as it stands when
    the loop ends or raises. *)
Fixpoint save_files (validated : list (nat * upload)) (h : MemoryFileHandler)
    (ids : list string) (entries : list file_entry)
  : Py.result (list file_entry) * list string * MemoryFileHandler :=
  match validated with
  | [] => (Ok entries, ids, h)
  | (i, file) :: rest =>
      match save_to_temp h (up_save file) with
      | (Ok (upload_path, fid), h') =>
          save_files rest h' (ids ++ [fid])%list
            (entries ++ [{| filename := up_filename file;
                            original_index := i;
                            temp_path := upload_path;
                            entry_file_id := fid |}])%list
      | (Raise e, h') => (Raise e, ids, h')
      end
  end.

(** The record stored under [batch_tasks[task_id]]. *)
Definition new_task (priority : Z) (coe : bool) (entries : list file_entry)
    (invalid : list invalid_entry) (ids : list string) : batch_task :=
  {| status := "pending"; priority := priority;
     file_count := length entries;
     valid_files := entries; invalid_files := invalid;
     file_ids := ids; continue_on_error := coe;
     progress := {| current_file := None; completed_count := 0;
                    failed_count := 0; overall_progress := None |};
     published := None;
     completed_files := []; failed_files := []; results := ∅ |}.

(** [submit_batch_analysis].  The whole body sits in one [try] whose only
    handler is [except Exception]: it cleans up the ids in [file_ids] when
    that local is bound and re-raises as a 500.  The test for "no valid
    file" reads the name [validified_files]. *)
Definition submit_batch_analysis (fs_ok : string -> bool) (tid : string)
    (files : list upload) (priority : Z) (coe : bool) (w : world)
  : Py.result BatchAnalysisResponse * world :=
  let fail (ids : option (list string)) (e : exn) (h : MemoryFileHandler) :=
    let '(h', cl) :=
      match ids with
      | Some l => cleanup_all fs_ok l h (cleanups w)
      | None => (h, cleanups w)
      end in
    (Raise (HTTPException 500 (Wrapped "创建批量任务失败: " e)),
     {| batch_tasks := batch_tasks w; handler := h'; cleanups := cl;
        started_log := started_log w |}) in
  if Nat.eqb (length files) 0 then
    fail None (HTTPException 400 (Lit "至少需要上传一个文件")) (handler w)
  else if Nat.ltb 50 (length files) then
    fail None (HTTPException 400 (Lit "单次最多支持50个文件")) (handler w)
  else if negb (existsb (Z.eqb priority) [1; 2; 3]) then
    fail None (HTTPException 400 (Lit "priority 必须是 1、2 或 3")) (handler w)
  else
    let '(validated, invalid, total_size) := validate_files 0 files [] [] 0 in
    match resolve module_globals "validified_files" with
    | Raise e => fail None e (handler w)
    | Ok _ =>
        if Nat.eqb (length validated) 0 then
          fail None
            (HTTPException 400
               (Lit "没有有效的音频文件，请检查文件格式和大小"))
            (handler w)
        else
          match save_files validated (handler w) [] [] with
          | (Raise e, ids, h') => fail (Some ids) e h'
          | (Ok entries, ids, h') =>
              if Nat.eqb (length entries) 0 then
                fail (Some ids)
                  (HTTPException 400
                     (Lit "没有符合要求的音频文件（时长超过限制）")) h'
              else
                (Ok {| resp_task_id := tid;
                       resp_file_count := length entries;
                       resp_priority := priority |},
                 {| batch_tasks :=
                      <[tid := new_task priority coe entries invalid ids]>
                        (batch_tasks w);
                    handler := h'; cleanups := cleanups w;
                    started_log := started_log w |})
          end
    end.

Definition _process_batch_analysis_task (fs_ok : string -> bool)
    (engine : string -> engine_run) (cancels : nat -> bool)
    (tid : string) (w : world) : world :=
  match batch_tasks w !! tid with
  | None => w
  | Some task =>
      let '(task', log) := drive engine cancels tid task in
      let '(h', cl) :=
        cleanup_all fs_ok (file_ids task') (handler w) (cleanups w) in
      {| batch_tasks := <[tid := task']> (batch_tasks w);
         handler := h'; cleanups := cl;
         started_log := started_log w ++ log |}
  end.

End Batch.

(* ===================================================================== *)
(** ** The properties under study, in the words of the specification *)
(* ===================================================================== *)

Module Spec.
Import Py Tracker.

(** Weight the code declares for a phase. *)
Definition weight_of (s : AnalysisStep) : Q :=
  match find (fun sw => step_eqb (fst sw) s) step_weights with
  | Some (_, w) => w
  | None => 0
  end.

Definition sum_weights (ws : list (AnalysisStep * Q)) : Q :=
  fold_right (fun sw acc => snd sw + acc)%Q 0%Q ws.

(** The phases strictly before [cur] in the declared order. *)
Definition declared_before (cur : AnalysisStep) : list (AnalysisStep * Q) :=
  filter (fun sw => Nat.ltb (index (fst sw)) (index cur)) step_weights.

(** Overall progress as the specification words it: the weights of all
    earlier phases, plus the share of the current one, as a percentage
    rounded to one decimal. *)
Definition declared_overall_progress (cur : AnalysisStep) (sp : Q) : Q :=
  round1 ((sum_weights (declared_before cur) + weight_of cur * (sp / 100))
          * 100)%Q.

(** The phase list the specification prints, mapped on the members of the
    enum that carry these names. *)
Definition printed_weights : list (AnalysisStep * Q) :=
  [(INITIALIZING, 2 # 100);
   (LOADING_MODEL, 15 # 100);
   (AUDIO_SEPARATION, 25 # 100);
   (FEATURE_EXTRACTION, 15 # 100);
   (BEAT_TRACKING, 15 # 100);
   (SEGMENT_ANALYSIS, 15 # 100);
   (GENERATING_RESULTS, 3 # 100);
   (SAVING_OUTPUTS, 2 # 100)]%Q.

(** Overall progress computed from the printed list. *)
Definition printed_overall_progress (cur : AnalysisStep) (sp : Q) : Q :=
  let before :=
    filter (fun sw => Nat.ltb (index (fst sw)) (index cur)) printed_weights in
  let w := match find (fun sw => step_eqb (fst sw) cur) printed_weights with
           | Some (_, w) => w
           | None => 0%Q
           end in
  round1 ((sum_weights before + w * (sp / 100)) * 100)%Q.

(** A list of updates that never moves to an earlier phase and keeps the
    phase-local progress within [0, 100]. *)
Fixpoint follows_declared_order (cur : AnalysisStep)
    (ups : list (AnalysisStep * Q)) : Prop :=
  match ups with
  | [] => True
  | (s, p) :: rest =>
      (index cur <= index s)%nat /\ (0 <= p)%Q /\ (p <= 100)%Q /\
      follows_declared_order s rest
  end.

(** The trackers obtained by applying the updates one after the other. *)
Fixpoint apply_updates (t : ProgressTracker) (ups : list (AnalysisStep * Q))
  : list ProgressTracker :=
  match ups with
  | [] => []
  | (s, p) :: rest =>
      let t' := update_step t s p (step_start_time t) in
      t' :: apply_updates t' rest
  end.

(** The overall progress never decreases from one tracker to the next,
    as long as the trackers are not in [COMPLETED]. *)
Fixpoint non_decreasing_while_running (prev : Q) (ts : list ProgressTracker)
  : Prop :=
  match ts with
  | [] => True
  | t :: rest =>
      if step_eqb (current_step t) COMPLETED then True
      else (prev <= overall_progress t)%Q /\
           non_decreasing_while_running (overall_progress t) rest
  end.

(** The invariant of the job data model: along every such list of updates
    of a new tracker the overall progress never decreases while the job is
    running, and it is 100 exactly in [COMPLETED]. *)
Definition progress_invariant : Prop :=
  forall (rid : string) (now : Q) (ups : list (AnalysisStep * Q)),
    follows_declared_order INITIALIZING ups ->
    let ts := apply_updates (init rid now) ups in
    non_decreasing_while_running 0 ts /\
    Forall (fun t => (overall_progress t == 100)%Q <->
                     current_step t = COMPLETED) ts.

(** The states a tracker can be in. *)
Inductive reachable : ProgressTracker -> Prop :=
| reach_init rid now : reachable (init rid now)
| reach_update_step t s sp now :
    reachable t -> reachable (update_step t s sp now)
| reach_update_step_progress t p :
    reachable t -> reachable (update_step_progress t p)
| reach_complete t now :
    reachable t -> reachable (complete t now).

(** The percentage of the specification's formula before it is rounded:
    the weights of all earlier phases, plus the share of the current
    one. *)
Definition declared_percentage (cur : AnalysisStep) (sp : Q) : Q :=
  ((sum_weights (declared_before cur) + weight_of cur * (sp / 100)) * 100)%Q.

(** [r] is the float of a decimal with one fractional digit that lies
    within half a tenth of [p]: [p] rounded to one decimal, to either side
    when [p] is halfway between two tenths. *)
Definition rounds_to_tenth (p : Q) (r : Binary64.float) : Prop :=
  exists d : Z,
    r = Binary64.tenth d /\
    (p - (1 # 20) <= inject_Z d / 10)%Q /\ (inject_Z d / 10 <= p + (1 # 20))%Q.

Definition rounds_to_tenthb (p : Q) (r : Binary64.float) : bool :=
  let d := round_half_even (Binary64.to_Q r * 10) in
  Binary64.float_eqb r (Binary64.tenth d)
  && Qle_bool (p - (1 # 20)) (inject_Z d / 10)
  && Qle_bool (inject_Z d / 10) (p + (1 # 20)).

(** [p] is halfway between two tenths. *)
Definition is_tie (p : Q) : bool :=
  Qeq_bool (p * 10 - inject_Z (Qfloor (p * 10))) (1 # 2).

(** The states of a tracker to which every phase-local progress was
    handed as a whole number, as in every call the analysis service
    makes. *)
Inductive reachable_whole : FloatTracker.ProgressTracker -> Prop :=
| whole_init rid now : reachable_whole (FloatTracker.init rid now)
| whole_update_step t s (p : Z) now :
    reachable_whole t ->
    reachable_whole (FloatTracker.update_step t s (Binary64.PyInt p) now)
| whole_update_step_progress t (p : Z) :
    reachable_whole t ->
    reachable_whole (FloatTracker.update_step_progress t (Binary64.PyInt p))
| whole_complete t now :
    reachable_whole t -> reachable_whole (FloatTracker.complete t now).

(** The values the phase-local progress of such a tracker can hold: the
    [0.0] of a new tracker and the whole numbers from 0 to 100. *)
Definition whole_values : list Binary64.num :=
  Binary64.PyFloat (S754_zero false)
  :: map (fun k => Binary64.PyInt (Z.of_nat k)) (seq 0 101).

(** The formula, checked on one phase for each of these values. *)
Definition formula_holds_on (s : AnalysisStep) : bool :=
  forallb
    (fun sp =>
       Qle_bool 0 (Binary64.num_value sp)
       && Qle_bool (Binary64.num_value sp) 100
       && rounds_to_tenthb (declared_percentage s (Binary64.num_value sp))
            (FloatTracker.calculate s sp))
    whole_values.

(** The two embeddings of the tracker give the same tenth for a whole
    phase-local progress, unless the exact percentage is halfway between
    two tenths. *)
Definition agree_or_tie (s : AnalysisStep) : bool :=
  forallb
    (fun k : nat =>
       let sp := inject_Z (Z.of_nat k) in
       Binary64.float_eqb
         (FloatTracker.calculate s (Binary64.PyInt (Z.of_nat k)))
         (Binary64.tenth (round_half_even (calculate s sp * 10)))
       || is_tie (weight_loop step_weights s sp 0 * 100))
    (seq 0 101).

(** Remaining time as the specification words it: what is left of the
    current phase, plus the mid-points of all phases after it in the
    declared order. *)
Definition declared_remaining_steps_time (cur : AnalysisStep) : Q :=
  fold_right
    (fun s acc => (let '(lo, hi) := step_estimates s in (lo + hi) / 2) + acc)%Q
    0%Q
    (filter (fun s => Nat.ltb (index cur) (index s)) members).

Definition declared_total_remaining (t : ProgressTracker) (now : Q) : Q :=
  (let '(lo, hi) := step_estimates (current_step t) in
   pymax 0 ((lo + hi) / 2 - (now - step_start_time t))
   + declared_remaining_steps_time (current_step t))%Q.

End Spec.


(* ===================================================================== *)
(** ** [api/services/progress_tracker.py]: the tracker registry *)
(* ===================================================================== *)

Module Registry.
Import Py Tracker.

(** [self.step_descriptions.get(step, "")] *)
Definition step_descriptions (s : AnalysisStep) : string :=
  match s with
  | INITIALIZING => "初始化分析环境"
  | LOADING_MODEL => "加载深度学习模型"
  | AUDIO_SEPARATION => "音轨分离处理"
  | SPECTROGRAM_EXTRACTION => "提取频谱图特征"
  | FEATURE_EXTRACTION => "提取音频特征"
  | BEAT_TRACKING => "节拍检测分析"
  | SEGMENT_ANALYSIS => "音乐段落分析"
  | GENERATING_RESULTS => "生成分析结果"
  | SAVING_OUTPUTS => "保存输出文件"
  | COMPLETED => "分析完成"
  end.

(** The dict returned by [get_status]; [now] and [now'] are the two reads
    of the clock, the second one inside [_estimate_remaining_time]. *)
Record status_dict : Type := {
  st_request_id : string;
  st_current_step : string;
  st_step_description : string;
  st_step_progress : Q;
  st_overall_progress : Q;
  st_elapsed_time : Q;
  st_estimated_remaining : option remaining_text;
  st_step_start_time : Q
}.

Definition get_status (t : ProgressTracker) (now now' : Q) : status_dict :=
  {| st_request_id := request_id t;
     st_current_step := value (current_step t);
     st_step_description := step_descriptions (current_step t);
     st_step_progress := round1 (step_progress t);
     st_overall_progress := overall_progress t;
     st_elapsed_time := round1 (now - start_time t);
     st_estimated_remaining := _estimate_remaining_time t now';
     st_step_start_time := step_start_time t |}.

(** The class attribute [_active_trackers]. *)
Abbreviation trackers := (gmap string ProgressTracker).

(** [ProgressTracker(request_id)]: the new tracker replaces whatever the
    registry held under that id. *)
Definition create (rid : string) (now : Q) (reg : trackers)
  : ProgressTracker * trackers :=
  let t := init rid now in (t, <[rid := t]> reg).

Definition get_tracker (rid : string) (reg : trackers)
  : option ProgressTracker :=
  reg !! rid.

Definition remove_tracker (rid : string) (reg : trackers) : bool * trackers :=
  match reg !! rid with
  | Some _ => (true, delete rid reg)
  | None => (false, reg)
  end.

(** The test of [cleanup_expired] on one tracker. *)
Definition expired (max_age_hours : Z) (current_time : Q)
    (t : ProgressTracker) : bool :=
  let age_seconds := (current_time - start_time t)%Q in
  let age_hours := (age_seconds / 3600)%Q in
  if Qlt_le_dec (inject_Z max_age_hours) age_hours then true else false.

(** [cleanup_expired]: the ids are collected first, then removed one by
    one; the answer is the number of ids collected. *)
Definition expired_ids (max_age_hours : Z) (current_time : Q) (reg : trackers)
  : list string :=
  map fst (filter (fun it => expired max_age_hours current_time (snd it) = true)
             (map_to_list reg)).

Definition cleanup_expired (max_age_hours : Z) (current_time : Q)
    (reg : trackers) : nat * trackers :=
  let ids := expired_ids max_age_hours current_time reg in
  (length ids, fold_left (fun r rid => snd (remove_tracker rid r)) ids reg).

(** [ProgressManager.get_progress_summary] *)
Record summary : Type := {
  total_active : nat;
  by_step : gmap string nat;
  average_progress : Q
}.

Definition summary_step (acc : gmap string nat * Q) (t : ProgressTracker)
  : gmap string nat * Q :=
  let step := value (current_step t) in
  (<[step := (default 0 (fst acc !! step) + 1)%nat]> (fst acc),
   (snd acc + overall_progress t)%Q).

Definition get_progress_summary (reg : trackers) : summary :=
  let total_count := size reg in
  if Nat.eqb total_count 0 then
    {| total_active := 0; by_step := ∅; average_progress := 0 |}
  else
    let '(counts, total_progress) :=
      fold_left summary_step (map snd (map_to_list reg)) (∅, 0%Q) in
    {| total_active := total_count;
       by_step := counts;
       average_progress :=
         round1 (total_progress / inject_Z (Z.of_nat total_count)) |}.

(** Number of trackers of a list that are in the step named [k]. *)
Definition in_step (k : string) (ts : list ProgressTracker) : nat :=
  length (List.filter (fun t => String.eqb (value (current_step t)) k) ts).

End Registry.

(* ===================================================================== *)
(** ** [api/endpoints/progress.py] *)
(* ===================================================================== *)

Module ProgressApi.
Import Py Tracker Registry.

(** [get_analysis_progress] *)
Definition get_analysis_progress (rid : string) (now now' : Q)
    (reg : trackers) : result status_dict :=
  match get_tracker rid reg with
  | None => Raise (HTTPException 404
                     (Lit "进度信息不存在，请求ID可能无效或已过期"))
  | Some tracker => Ok (get_status tracker now now')
  end.

(** [clear_progress] *)
Definition clear_progress (rid : string) (reg : trackers)
  : result unit * trackers :=
  let '(success, reg') := remove_tracker rid reg in
  if success then (Ok tt, reg')
  else (Raise (HTTPException 404 (Lit ("进度信息不存在: " ++ rid))), reg').

(** [cleanup_expired_progress]: the two range tests come before the
    [try]; the answer carries the number of trackers cleaned. *)
Definition cleanup_expired_progress (max_age_hours : Z) (current_time : Q)
    (reg : trackers) : result nat * trackers :=
  if max_age_hours <=? 0 then
    (Raise (HTTPException 400 (Lit "max_age_hours 必须大于 0")), reg)
  else if 168 <? max_age_hours then
    (Raise (HTTPException 400 (Lit "max_age_hours 不能超过 7 天")), reg)
  else
    let '(cleaned_count, reg') :=
      cleanup_expired max_age_hours current_time reg in
    (Ok cleaned_count, reg').

End ProgressApi.

(* ===================================================================== *)
(** ** [api/utils/memory_file_handler.py]: bulk cleanup *)
(* ===================================================================== *)

Module TempFilesOps.
Import Py TempFiles.

(** The loop [for file_id in file_ids: if await self.cleanup_file(file_id):
    cleaned_count += 1]. *)
Fixpoint cleanup_each (fs_ok : string -> bool) (ids : list string)
    (h : MemoryFileHandler) (cleaned_count : nat) : nat * MemoryFileHandler :=
  match ids with
  | [] => (cleaned_count, h)
  | fid :: rest =>
      let '(b, h') := cleanup_file fs_ok h fid in
      cleanup_each fs_ok rest h' (if b then S cleaned_count else cleaned_count)
  end.

(** [cleanup_all]: works on a copy of the key list. *)
Definition cleanup_all (fs_ok : string -> bool) (h : MemoryFileHandler)
  : nat * MemoryFileHandler :=
  cleanup_each fs_ok (map fst (map_to_list (temp_files h))) h 0.

(** The age test of [cleanup_expired_files]; [current_time] is
    [os.times()[4]]. *)
Definition too_old (max_age_minutes : Z) (current_time : Q) (info : file_info)
  : bool :=
  let age_minutes := ((current_time - created_at info) / 60)%Q in
  if Qlt_le_dec (inject_Z max_age_minutes) age_minutes then true else false.

Definition expired_files (max_age_minutes : Z) (current_time : Q)
    (h : MemoryFileHandler) : list string :=
  map fst (filter (fun it => too_old max_age_minutes current_time (snd it) = true)
             (map_to_list (temp_files h))).

(** [cleanup_expired_files]: the answers of [cleanup_file] are dropped. *)
Definition cleanup_expired_files (fs_ok : string -> bool)
    (max_age_minutes : Z) (current_time : Q) (h : MemoryFileHandler)
  : MemoryFileHandler :=
  snd (cleanup_each fs_ok (expired_files max_age_minutes current_time h) h 0).

(** [schedule_cleanup] *)
Definition schedule_cleanup (fs_ok : string -> bool) (current_time : Q)
    (h : MemoryFileHandler) : MemoryFileHandler :=
  snd (cleanup_all fs_ok (cleanup_expired_files fs_ok 30 current_time h)).

End TempFilesOps.

(* ===================================================================== *)
(** ** [api/endpoints/storage_monitor.py] *)
(* ===================================================================== *)

Module StorageApi.
Import Py TempFiles TempFilesOps.

(** [cleanup_temp_files]: the count answered is that of the first
    [cleanup_all]; [schedule_cleanup] runs afterwards. *)
Definition cleanup_temp_files (fs_ok : string -> bool) (current_time : Q)
    (h : MemoryFileHandler) : result nat * MemoryFileHandler :=
  let '(cleaned_count, h1) := cleanup_all fs_ok h in
  (Ok cleaned_count, schedule_cleanup fs_ok current_time h1).

Record expired_report : Type := {
  cleaned_count : nat;
  before_count : nat;
  after_count : nat
}.

(** [cleanup_expired_temp_files]: the range tests sit inside the [try],
    whose [except HTTPException: raise] hands them through. *)
Definition cleanup_expired_temp_files (fs_ok : string -> bool)
    (max_age_minutes : Z) (current_time : Q) (h : MemoryFileHandler)
  : result expired_report * MemoryFileHandler :=
  if max_age_minutes <=? 0 then
    (Raise (HTTPException 400 (Lit "max_age_minutes 必须大于 0")), h)
  else if 1440 <? max_age_minutes then
    (Raise (HTTPException 400 (Lit "max_age_minutes 不能超过 24 小时")), h)
  else
    let before := get_file_count h in
    let h' := cleanup_expired_files fs_ok max_age_minutes current_time h in
    let after := get_file_count h' in
    (Ok {| cleaned_count := before - after;
           before_count := before;
           after_count := after |}, h').

End StorageApi.

(* ===================================================================== *)
(** ** [api/endpoints/analysis.py]: the plain single-file endpoint *)
(* ===================================================================== *)

Module Plain.
Import Py TempFiles Service Sync.

(** What [analyze_audio] answers: the response, and the maximal age in
    minutes handed to the [cleanup_expired_files] it schedules as a
    background task. *)
Record answer : Type := {
  response : AnalysisResponse;
  scheduled_max_age_minutes : Z
}.

(** [analyze_audio].  Its [except HTTPException] re-raises without
    touching the saved file; its [except Exception] cleans up first. *)
Definition analyze_audio (fs_ok : string -> bool) (request_id : string)
    (validation : bool * string) (save : save_outcome) (run : engine_run)
  : M answer :=
  catch
    (mbind
       (let '(is_valid, error_msg) := validation in
        if negb is_valid
        then raise (HTTPException 422 (Lit error_msg))
        else ret tt)
       (fun _ =>
        mbind (do_save save) (fun upload_path =>
        mbind (fun s =>
                 (analyze_single_file 4 upload_path request_id run, s))
          (fun result_data =>
        mbind (cleanup_local fs_ok) (fun _ =>
        ret {| response := {| success := true; data := result_data |};
               scheduled_max_age_minutes := 30 |})))))
    (fun e => negb (is_HTTPException e))
    (fun e =>
       mbind (cleanup_if_set fs_ok) (fun _ =>
       raise (HTTPException 500 (Wrapped "分析过程中发生错误: " e)))).

End Plain.

(* ===================================================================== *)
(** ** [api/endpoints/analysis_async.py]: result and deletion *)
(* ===================================================================== *)

Module AsyncOps.
Import Py TempFiles Service Async.

(** The fields of [AsyncAnalysisResult] that come from the record (the
    processing time is read off the clock fields, which the record model
    leaves out). *)
Record AsyncAnalysisResult : Type := {
  res_data : payload;
  res_request_id : string;
  res_task_id : string
}.

(** [get_task_result] *)
Definition get_task_result (tid : string) (w : world)
  : Py.result AsyncAnalysisResult :=
  match async_tasks w !! tid with
  | None => Raise (HTTPException 404 (Lit ("任务不存在: " ++ tid)))
  | Some ti =>
      if negb (String.eqb (status ti) "completed") then
        Raise (HTTPException 400
                 (Lit ("任务未完成或失败，当前状态: " ++ status ti
                       ++ "。请先调用 /api/analyze/task/" ++ tid
                       ++ "/status 查看状态")))
      else
        match result ti with
        | None => Raise (HTTPException 500 (Lit "任务已完成但结果数据丢失"))
        | Some p =>
            Ok {| res_data := p;
                  res_request_id := request_id ti;
                  res_task_id := tid |}
        end
  end.

(** [delete_task] *)
Definition delete_task (tid : string) (w : world) : Py.result unit * world :=
  match async_tasks w !! tid with
  | None => (Raise (HTTPException 404 (Lit ("任务不存在: " ++ tid))), w)
  | Some ti =>
      if String.eqb (status ti) "processing" then
        (Raise (HTTPException 400
                  (Lit "正在处理的任务无法删除，请等待完成后删除")), w)
      else
        (Ok tt,
         {| async_tasks := delete tid (async_tasks w);
            handler := handler w; cleanups := cleanups w |})
  end.

End AsyncOps.

(* ===================================================================== *)
(** ** [api/endpoints/analysis_batch.py]: the status endpoint *)
(* ===================================================================== *)

Module BatchOps.
Import Py TempFiles Service Batch.

Record status_report : Type := {
  rep_status : string;
  rep_priority : Z;
  rep_overall_progress : Q;
  rep_current_file : option string;
  rep_completed_files : list string;
  rep_failed_files : list string;
  rep_file_count : nat;
  rep_completed_count : nat;
  rep_failed_count : nat;
  rep_estimated_remaining : option (Z * Z);
  rep_valid_files : nat;
  rep_invalid_files : nat
}.

(** Number of outcomes written into the two lists of a record, and the
    number shown by the two counters of the dict the driver works on. *)
Definition recorded (t : batch_task) : nat :=
  length (completed_files t) + length (failed_files t).
Definition counted (t : batch_task) : nat :=
  completed_count (progress t) + failed_count (progress t).

(** The estimate [f"{int(s // 60)}-{int((s // 60) + 1)}分钟"], made only
    while processing with at least one file counted as completed;
    [elapsed_time] is the time since the batch started. *)
Definition estimate (t : batch_task) (elapsed_time : Q) : option (Z * Z) :=
  let p := task_progress t in
  if String.eqb (status t) "processing" && Nat.ltb 0 (completed_count p) then
    let avg_time_per_file :=
      (elapsed_time / inject_Z (Z.of_nat (completed_count p)))%Q in
    let remaining_files :=
      (Z.of_nat (file_count t) - Z.of_nat (completed_count p))%Z in
    let estimated_seconds := (inject_Z remaining_files * avg_time_per_file)%Q in
    if Qlt_le_dec 0 estimated_seconds then
      Some (int_of (floordiv estimated_seconds 60),
            int_of (floordiv estimated_seconds 60 + 1)%Q)
    else None
  else None.

(** [get_batch_analysis_status]: everything is read through
    [task["progress"]]. *)
Definition get_batch_analysis_status (tid : string) (elapsed_time : Q)
    (w : world) : Py.result status_report :=
  match batch_tasks w !! tid with
  | None => Raise (HTTPException 404 (Lit ("批量任务不存在: " ++ tid)))
  | Some t =>
      let p := task_progress t in
      Ok {| rep_status := status t;
            rep_priority := priority t;
            rep_overall_progress := default 0%Q (overall_progress p);
            rep_current_file := current_file p;
            rep_completed_files := completed_files t;
            rep_failed_files := failed_files t;
            rep_file_count := file_count t;
            rep_completed_count := completed_count p;
            rep_failed_count := failed_count p;
            rep_estimated_remaining := estimate t elapsed_time;
            rep_valid_files := length (valid_files t);
            rep_invalid_files := length (invalid_files t) |}
  end.

(** What holds of an entry of [validated_files] and of an entry of
    [invalid_files], with respect to the list of files submitted. *)
Definition accepted (files : list upload) (v : nat * upload) : Prop :=
  files !! fst v = Some (snd v) /\
  fst (up_validation (snd v)) = true /\
  exists size, up_read (snd v) = Ok size.

Definition turned_down (files : list upload) (e : invalid_entry) : Prop :=
  exists f, files !! inv_index e = Some f /\
            inv_filename e = up_filename f /\
            (fst (up_validation f) = false \/ exists ex, up_read f = Raise ex).

End BatchOps.

(* ===================================================================== *)
(** ** [api/services/analysis_service.py]: the service's own batches *)
(* ===================================================================== *)

Module ServiceBatch.
Import Py Service.

(** The names bound at module level in [analysis_service.py]. *)
Definition module_globals : list string :=
  ["os"; "sys"; "time"; "asyncio"; "uuid"; "Path";
   "List"; "Dict"; "Optional"; "Tuple"; "Any"; "datetime"; "json";
   "project_root"; "allin1"; "structlog";
   "AnalysisRequest"; "AnalysisResult"; "BatchAnalysisRequest"; "FileLinks";
   "BatchResultResponse"; "TaskStatus";
   "generate_unique_filename"; "ensure_directory";
   "ProgressTracker"; "AnalysisStep"; "logger"; "AnalysisService"].

(** An entry of [file_paths]: the path and its last component. *)
Record upload_path : Type := {
  full_path : string;
  name : string
}.

(** An entry of [self.batch_tasks]. *)
Record task : Type := {
  status : string;
  progress : Q;
  current_file : option string;
  completed_files : list string;
  failed_files : list string;
  total_files : nat;
  file_paths : list upload_path;
  results : gmap string payload
}.

(** The per-file [try] body after the three assignments: the single-file
    request is built, naming [DeviceType], then the file is analysed. *)
Definition analyze_one (engine : string -> engine_run) (tid : string)
    (i : nat) (f : upload_path) : result payload :=
  _ <- resolve module_globals "DeviceType" ;;
  analyze_single_file 4 (full_path f) (tid ++ "_" ++ pretty i)
    (engine (full_path f)).

(** The loop of [_process_batch_task]: a failure is recorded by name and
    the loop goes on. *)
Fixpoint process_files (engine : string -> engine_run) (tid : string)
    (total i : nat) (files : list upload_path) (t : task) : task :=
  match files with
  | [] => t
  | f :: rest =>
      let t1 :=
        {| status := status t;
           progress := (inject_Z (Z.of_nat i) / inject_Z (Z.of_nat total)
                        * 100)%Q;
           current_file := Some (name f);
           completed_files := completed_files t;
           failed_files := failed_files t;
           total_files := total_files t; file_paths := file_paths t;
           results := results t |} in
      let t2 :=
        match analyze_one engine tid i f with
        | Ok p =>
            {| status := status t1; progress := progress t1;
               current_file := current_file t1;
               completed_files := (completed_files t1 ++ [name f])%list;
               failed_files := failed_files t1;
               total_files := total_files t1; file_paths := file_paths t1;
               results := <[name f := p]> (results t1) |}
        | Raise _ =>
            {| status := status t1; progress := progress t1;
               current_file := current_file t1;
               completed_files := completed_files t1;
               failed_files := (failed_files t1 ++ [name f])%list;
               total_files := total_files t1; file_paths := file_paths t1;
               results := results t1 |}
        end in
      process_files engine tid total (S i) rest t2
  end.

(** [_process_batch_task] *)
Definition _process_batch_task (engine : string -> engine_run)
    (tid : string) (reg : gmap string task) : gmap string task :=
  match reg !! tid with
  | None => reg
  | Some t =>
      let t1 := {| status := "processing"; progress := progress t;
                   current_file := current_file t;
                   completed_files := completed_files t;
                   failed_files := failed_files t;
                   total_files := total_files t; file_paths := file_paths t;
                   results := results t |} in
      let t2 := process_files engine tid (length (file_paths t1)) 0
                  (file_paths t1) t1 in
      <[tid := {| status := "completed"; progress := 100;
                  current_file := None;
                  completed_files := completed_files t2;
                  failed_files := failed_files t2;
                  total_files := total_files t2; file_paths := file_paths t2;
                  results := results t2 |}]> reg
  end.

(** [cancel_batch_task] *)
Definition cancel_batch_task (tid : string) (reg : gmap string task)
  : bool * gmap string task :=
  match reg !! tid with
  | None => (false, reg)
  | Some t =>
      if existsb (String.eqb (status t)) ["pending"; "processing"] then
        (true,
         <[tid := {| status := "cancelled"; progress := progress t;
                     current_file := current_file t;
                     completed_files := completed_files t;
                     failed_files := failed_files t;
                     total_files := total_files t;
                     file_paths := file_paths t;
                     results := results t |}]> reg)
      else (false, reg)
  end.

End ServiceBatch.

(* ===================================================================== *)
(** ** Further sample inputs *)
(* ===================================================================== *)

Module MoreSamples.
Import Py Tracker TempFiles Service.

(** Three trackers, started 0, 3600 and 7200 seconds after the epoch. *)
Definition sample_trackers : gmap string ProgressTracker :=
  snd (Registry.create "late" 7200
         (snd (Registry.create "edge" 3600
                 (snd (Registry.create "early" 0 ∅))))).

(** A store with a file saved at time 0 and one saved at time 3000. *)
Definition sample_store : MemoryFileHandler :=
  {| temp_files :=
       <["f-old" := {| path := "/tmp/music_analysis/f-old/a.wav";
                       dir := "/tmp/music_analysis/f-old";
                       created_at := 0 |}]>
         (<["f-new" := {| path := "/tmp/music_analysis/f-new/b.wav";
                          dir := "/tmp/music_analysis/f-new";
                          created_at := 3000 |}]> ∅) |}.

(** A file system on which the removal of one file fails. *)
Definition stuck_on (bad : string) (fid : string) : bool :=
  negb (String.eqb fid bad).

(** A registered async job that is being processed. *)
Definition processing_job : Async.task_info :=
  {| Async.task_id := "t1"; Async.request_id := "r1";
     Async.file_path := "/tmp/music_analysis/u1/song_u1.wav";
     Async.file_id := Some "u1";
     Async.status := "processing"; Async.progress := 5;
     Async.current_step := "initializing";
     Async.message := Lit "开始分析处理";
     Async.result := None; Async.error := None |}.

Definition async_world (ti : Async.task_info) : Async.world :=
  {| Async.async_tasks := {[ "t1" := ti ]};
     Async.handler := {| temp_files := ∅ |};
     Async.cleanups := [] |}.

(** A batch world holding one record, whose three files are in the
    store. *)
Definition batch_store : MemoryFileHandler :=
  {| temp_files :=
       list_to_map
         (map (fun n => ("id-" ++ n,
                         {| path := "/tmp/music_analysis/" ++ n;
                            dir := "/tmp/music_analysis";
                            created_at := 0 |}))
              ["A"; "B"; "C"]) |}.

Definition batch_world (t : Batch.batch_task) : Batch.world :=
  {| Batch.batch_tasks := {[ "batch_1" := t ]};
     Batch.handler := batch_store;
     Batch.cleanups := []; Batch.started_log := [] |}.

(** A batch of the analysis service with two files. *)
Definition service_task : ServiceBatch.task :=
  {| ServiceBatch.status := "pending"; ServiceBatch.progress := 0;
     ServiceBatch.current_file := None;
     ServiceBatch.completed_files := []; ServiceBatch.failed_files := [];
     ServiceBatch.total_files := 2;
     ServiceBatch.file_paths :=
       [{| ServiceBatch.full_path := "api/static/uploads/a_1.wav";
           ServiceBatch.name := "a_1.wav" |};
        {| ServiceBatch.full_path := "api/static/uploads/b_2.wav";
           ServiceBatch.name := "b_2.wav" |}];
     ServiceBatch.results := ∅ |}.

End MoreSamples.

(* ===================================================================== *)
(** ** Sample inputs *)
(* ===================================================================== *)

Module Samples.
Import Py TempFiles Service Batch.

(** The sample handle and engine runs used for the concrete instances. *)
Definition sample_info : file_info :=
  {| path := "/tmp/music_analysis/u1/song_u1.wav";
     dir := "/tmp/music_analysis/u1"; created_at := 0 |}.
Definition empty_handler : MemoryFileHandler := {| temp_files := ∅ |}.
Definition returns_in_time : engine_run :=
  {| duration := 30; outcome := Ok "raw" |}.
Definition returns_late : engine_run :=
  {| duration := 601; outcome := Ok "raw" |}.
Definition removal_ok (_ : string) : bool := true.

Definition no_cancel (_ : nat) : bool := false.

Definition entry (name : string) : file_entry :=
  {| filename := name; original_index := 0;
     temp_path := "/tmp/music_analysis/" ++ name;
     entry_file_id := "id-" ++ name |}.

(** The engine returns on every file except [B]. *)
Definition engine_fails_on_B (p : string) : engine_run :=
  if String.eqb p "/tmp/music_analysis/B"
  then {| duration := 1; outcome := Raise (EngineError "engine failure") |}
  else {| duration := 1; outcome := Ok "raw" |}.

Definition abc_task (coe : bool) : batch_task :=
  new_task 2 coe [entry "A"; entry "B"; entry "C"] []
    ["id-A"; "id-B"; "id-C"].

Definition empty_world : world :=
  {| batch_tasks := ∅; handler := {| temp_files := ∅ |};
     cleanups := []; started_log := [] |}.

Definition rejected_upload (name : string) : upload :=
  {| up_filename := name;
     up_validation := (false, "不支持的文件格式: text/plain");
     up_read := Ok 10%nat;
     up_save := SaveFailed (EngineError "unused") |}.

End Samples.

(* ===================================================================== *)
(** ** Progress tracker: overall progress and remaining time *)
(* ===================================================================== *)

Module TrackerFacts.
Import Py Tracker Spec.

Local Open Scope Q_scope.

(** Rounding does not see the representation of a rational. *)
Lemma round_half_even_proper (x y : Q) :
  x == y -> round_half_even x = round_half_even y.
Proof.
  intros E. unfold round_half_even.
  rewrite (Qfloor_comp _ _ E).
  assert (E' : x - inject_Z (Qfloor y) == y - inject_Z (Qfloor y))
    by (rewrite E; reflexivity).
  rewrite (Qcompare_comp _ _ E' _ _ (Qeq_refl (1 # 2))).
  reflexivity.
Qed.

Lemma round1_proper (x y : Q) : x == y -> round1 x = round1 y.
Proof.
  intros E. unfold round1.
  rewrite (round_half_even_proper (x * 10) (y * 10)); [reflexivity|].
  rewrite E. reflexivity.
Qed.

Lemma clamp_0_100_bounds (x : Q) : 0 <= clamp_0_100 x /\ clamp_0_100 x <= 100.
Proof.
  unfold clamp_0_100, pymax, pymin.
  destruct (Qlt_le_dec x 100) as [H1|H1];
    destruct (Qlt_le_dec 0 _) as [H2|H2]; split;
    try apply Qle_refl; try (apply Qlt_le_weak; assumption);
    try discriminate.
Qed.

(** Every reachable tracker carries the progress computed from its phase
    and phase-local progress, and the latter lies in [0, 100]. *)
Lemma reachable_inv (t : ProgressTracker) :
  reachable t ->
  overall_progress t == calculate (current_step t) (step_progress t) /\
  0 <= step_progress t /\ step_progress t <= 100.
Proof.
  induction 1 as [rid now | t s sp now _ _ | t p _ _ | t now _ _]; cbn.
  - repeat split; try discriminate.
  - split; [reflexivity | apply clamp_0_100_bounds].
  - split; [reflexivity | apply clamp_0_100_bounds].
  - split; [reflexivity | apply clamp_0_100_bounds].
Qed.

(** The three-phase instance used below is a real run of the tracker. *)
Lemma reachable_after_update (rid : string) (s : AnalysisStep) (sp : Q) :
  reachable (update_step (init rid 0) s sp 0).
Proof. apply reach_update_step, reach_init. Qed.

(** The invariant of the job data model does not hold of the tracker. *)
Lemma progress_invariant_fails : ~ progress_invariant.
Proof.
  intros H.
  destruct (H "job" 0 [(LOADING_MODEL, 100); (AUDIO_SEPARATION, 0)])
    as [Hmono _].
  - repeat split; try (cbn; lia); discriminate.
  - destruct Hmono as [_ [Hle _]]. apply Hle. reflexivity.
Qed.

(** C1 (fails on the code).  A run that only moves forward in the declared
    order, with phase-local progress in [0, 100]: LoadingModel at 100, then
    AudioSeparation at 0, then completion.  The overall progress goes from
    17 down to 0 while the job is running, and completion leaves it at
    140, not 100.  Hence the invariant fails. *)
Theorem C1_overall_progress_regresses :
  let t0 := init "job" 0 in
  let t1 := update_step t0 LOADING_MODEL 100 0 in
  let t2 := update_step t1 AUDIO_SEPARATION 0 0 in
  let t3 := complete t2 0 in
  follows_declared_order INITIALIZING
    [(LOADING_MODEL, 100); (AUDIO_SEPARATION, 0); (COMPLETED, 100)] /\
  overall_progress t1 == 17 /\
  overall_progress t2 == 0 /\
  overall_progress t2 < overall_progress t1 /\
  current_step t3 = COMPLETED /\
  overall_progress t3 == 140 /\
  ~ progress_invariant.
Proof.
  cbn zeta.
  repeat split; try (cbn; lia); try discriminate.
  exact progress_invariant_fails.
Qed.

(** The calls the analysis service itself makes on its tracker show both
    defects: after model loading the progress falls from 17 to 0, and the
    last call leaves 140. *)
Lemma service_calls_regress :
  let ts := Service.run_calls (init "job" 0) (Service.successful_calls []) in
  option_map (fun t => (current_step t, Qred (overall_progress t)))
    (nth_error ts 15) = Some (LOADING_MODEL, 17) /\
  option_map (fun t => (current_step t, Qred (overall_progress t)))
    (nth_error ts 16) = Some (AUDIO_SEPARATION, 0) /\
  option_map (fun t => (current_step t, Qred (overall_progress t)))
    (nth_error ts 24) = Some (COMPLETED, 140) /\
  length ts = 25%nat.
Proof. vm_compute. repeat split. Qed.

(** *** The formula of the overall progress, in binary floating point *)

Lemma float_eqb_eq (x y : Binary64.float) :
  Binary64.float_eqb x y = true -> x = y.
Proof.
  destruct x as [a|a| |a m e], y as [b|b| |b m' e']; cbn; try discriminate.
  - intros H. apply Bool.eqb_prop in H. congruence.
  - intros H. apply Bool.eqb_prop in H. congruence.
  - reflexivity.
  - intros H. apply andb_true_iff in H. destruct H as [H He].
    apply andb_true_iff in H. destruct H as [Hs Hm].
    apply Bool.eqb_prop in Hs. apply Pos.eqb_eq in Hm. apply Z.eqb_eq in He.
    congruence.
Qed.

Lemma rounds_to_tenthb_sound (p : Q) (r : Binary64.float) :
  rounds_to_tenthb p r = true -> rounds_to_tenth p r.
Proof.
  unfold rounds_to_tenthb. intros H.
  apply andb_true_iff in H. destruct H as [H Hhi].
  apply andb_true_iff in H. destruct H as [Heq Hlo].
  exists (round_half_even (Binary64.to_Q r * 10)).
  split; [apply float_eqb_eq; exact Heq|].
  split; apply Qle_bool_iff; assumption.
Qed.

Lemma whole_in (k : Z) :
  (0 <= k <= 100)%Z -> In (Binary64.PyInt k) whole_values.
Proof.
  intros Hk. right.
  replace k with (Z.of_nat (Z.to_nat k)) by lia.
  apply (in_map (fun n => Binary64.PyInt (Z.of_nat n))).
  apply in_seq. lia.
Qed.

(** Clamping a whole number gives a whole number from 0 to 100. *)
Lemma clamp_whole (p : Z) :
  In (Binary64.clamp_0_100 (Binary64.PyInt p)) whole_values.
Proof.
  unfold Binary64.clamp_0_100, Binary64.pymin, Binary64.pymax.
  cbn [Binary64.num_ltb].
  destruct (Z.ltb_spec p 100); cbn [Binary64.num_ltb].
  - destruct (Z.ltb_spec 0 p); apply whole_in; lia.
  - apply whole_in; lia.
Qed.

Lemma reachable_whole_inv (t : FloatTracker.ProgressTracker) :
  reachable_whole t ->
  FloatTracker.overall_progress t
  = FloatTracker.calculate (FloatTracker.current_step t)
      (FloatTracker.step_progress t) /\
  (In (FloatTracker.step_progress t) whole_values).
Proof.
  induction 1 as [rid now | t s p now _ _ | t p _ _ | t now _ _].
  - split; [reflexivity | left; reflexivity].
  - split; [reflexivity | apply clamp_whole].
  - split; [reflexivity | apply clamp_whole].
  - split; [reflexivity | apply (whole_in 100); lia].
Qed.

Lemma formula_checked :
  forallb formula_holds_on
    [INITIALIZING; LOADING_MODEL; SPECTROGRAM_EXTRACTION] = true.
Proof. vm_compute. reflexivity. Qed.

(** On whole phase-local progress the embedding in exact arithmetic and
    the one in binary64 give the same tenth in every phase, except where
    the exact percentage is halfway between two tenths. *)
Lemma embeddings_agree_off_ties (s : AnalysisStep) (k : Z) :
  (0 <= k <= 100)%Z ->
  FloatTracker.calculate s (Binary64.PyInt k)
  = Binary64.tenth (round_half_even (calculate s (inject_Z k) * 10))
  \/ is_tie (weight_loop step_weights s (inject_Z k) 0 * 100) = true.
Proof.
  intros Hk.
  assert (Hall : forallb agree_or_tie members = true)
    by (vm_compute; reflexivity).
  assert (Hs : In s members) by (destruct s; cbn; tauto).
  pose proof (proj1 (forallb_forall _ _) Hall s Hs) as H.
  unfold agree_or_tie in H.
  assert (Hin : In (Z.to_nat k) (seq 0 101)) by (apply in_seq; lia).
  pose proof (proj1 (forallb_forall _ _) H _ Hin) as Hk'.
  cbn beta zeta in Hk'. rewrite Z2Nat.id in Hk' by lia.
  apply orb_true_iff in Hk'. destruct Hk' as [He | Ht]; [left | right].
  - apply float_eqb_eq. exact He.
  - exact Ht.
Qed.

(** C4 (as stated, fails).  The weight table of the code is not the
    printed list: it has a SpectrogramExtraction phase the list lacks and
    gives FeatureExtraction 0.08, not 0.15; the printed weights sum to
    0.92.  At the end of SpectrogramExtraction, a phase in which the
    order of the string values plays no part, the tracker reports 57.0,
    as its own table says; the printed list gives 42.  And where the exact
    percentage is halfway between two tenths the float decides: at
    LoadingModel with phase-local progress 17 the tracker reports 4.5,
    the formula rounded in exact arithmetic 4.6. *)
Lemma C4_counterexample :
  weight_of FEATURE_EXTRACTION == 8 # 100 /\
  In (FEATURE_EXTRACTION, 15 # 100) printed_weights /\
  In SPECTROGRAM_EXTRACTION (map fst step_weights) /\
  ~ In SPECTROGRAM_EXTRACTION (map fst printed_weights) /\
  sum_weights printed_weights == 92 # 100 /\
  (let t := FloatTracker.update_step (FloatTracker.init "job" (S754_zero false))
              SPECTROGRAM_EXTRACTION (Binary64.PyInt 100) (S754_zero false) in
   reachable_whole t /\
   FloatTracker.overall_progress t = Binary64.tenth 570 /\
   Binary64.to_Q (FloatTracker.overall_progress t) == 57 /\
   declared_percentage SPECTROGRAM_EXTRACTION 100 == 57 /\
   printed_overall_progress SPECTROGRAM_EXTRACTION 100 == 42 /\
   ~ Binary64.to_Q (FloatTracker.overall_progress t)
     == printed_overall_progress SPECTROGRAM_EXTRACTION 100) /\
  (let t := FloatTracker.update_step (FloatTracker.init "job" (S754_zero false))
              LOADING_MODEL (Binary64.PyInt 17) (S754_zero false) in
   reachable_whole t /\
   FloatTracker.overall_progress t = Binary64.tenth 45 /\
   declared_overall_progress LOADING_MODEL 17 == 46 # 10).
Proof.
  split; [reflexivity|].
  split; [cbn; tauto|].
  split; [cbn; tauto|].
  split; [cbn; intuition discriminate|].
  split; [reflexivity|].
  split; cbn zeta.
  - split; [apply whole_update_step, whole_init|].
    split; [vm_compute; reflexivity|].
    split; [vm_compute; reflexivity|].
    split; [vm_compute; reflexivity|].
    split; [vm_compute; reflexivity|].
    vm_compute. discriminate.
  - split; [apply whole_update_step, whole_init|].
    split; vm_compute; reflexivity.
Qed.

(** C4 (amended).  The declared phases and weights are Initializing 0.02,
    LoadingModel 0.15, AudioSeparation 0.25, SpectrogramExtraction 0.15,
    FeatureExtraction 0.08, BeatTracking 0.15, SegmentAnalysis 0.15,
    GeneratingResults 0.03, SavingOutputs 0.02 (summing to 1) and
    Completed 1, each held as the nearest binary64 number.  Take a
    tracker to which every phase-local progress was handed as a whole
    number, in a state whose current phase is Initializing, LoadingModel
    or SpectrogramExtraction.  Its phase-local progress lies in [0, 100],
    and its overall progress is the float of a decimal with one
    fractional digit within 0.05 of the exact percentage: the sum of the
    weights of all phases strictly before the current one in the declared
    order, plus the current weight times the phase-local progress over
    100, times 100. *)
Theorem C4_overall_progress_formula (t : FloatTracker.ProgressTracker) :
  reachable_whole t ->
  In (FloatTracker.current_step t)
     [INITIALIZING; LOADING_MODEL; SPECTROGRAM_EXTRACTION] ->
  let sp := Binary64.num_value (FloatTracker.step_progress t) in
  rounds_to_tenth (declared_percentage (FloatTracker.current_step t) sp)
    (FloatTracker.overall_progress t) /\
  0 <= sp /\ sp <= 100 /\
  FloatTracker.step_weights
  = map (fun sw => (fst sw,
                    Binary64.lit (Qnum (snd sw)) (Zpos (Qden (snd sw)))))
      step_weights /\
  map (fun sw => (value (fst sw), snd sw)) step_weights
  = [("initializing", 2 # 100); ("loading_model", 15 # 100);
     ("audio_separation", 25 # 100); ("spectrogram_extraction", 15 # 100);
     ("feature_extraction", 8 # 100); ("beat_tracking", 15 # 100);
     ("segment_analysis", 15 # 100); ("generating_results", 3 # 100);
     ("saving_outputs", 2 # 100); ("completed", 1)]%string /\
  sum_weights (removelast step_weights) == 1.
Proof.
  intros Hr Hin. cbn zeta.
  destruct (reachable_whole_inv t Hr) as [Hov Hsp].
  pose proof (proj1 (forallb_forall _ _) formula_checked _ Hin) as Hs.
  unfold formula_holds_on in Hs.
  pose proof (proj1 (forallb_forall _ _) Hs _ Hsp) as H.
  cbn beta in H.
  apply andb_true_iff in H. destruct H as [H Hf].
  apply andb_true_iff in H. destruct H as [H0 H100].
  split; [rewrite Hov; apply rounds_to_tenthb_sound; exact Hf|].
  split; [apply Qle_bool_iff; exact H0|].
  split; [apply Qle_bool_iff; exact H100|].
  split; [vm_compute; reflexivity|].
  split; reflexivity.
Qed.

(** The formula at LoadingModel with phase-local progress 17: the exact
    percentage is 4.55, the tracker reports 4.5. *)
Lemma C4_overall_progress_formula_witness :
  let t := FloatTracker.update_step (FloatTracker.init "job" (S754_zero false))
             LOADING_MODEL (Binary64.PyInt 17) (S754_zero false) in
  reachable_whole t /\
  In (FloatTracker.current_step t)
     [INITIALIZING; LOADING_MODEL; SPECTROGRAM_EXTRACTION] /\
  rounds_to_tenth
    (declared_percentage (FloatTracker.current_step t)
       (Binary64.num_value (FloatTracker.step_progress t)))
    (FloatTracker.overall_progress t) /\
  declared_percentage LOADING_MODEL 17 == 455 # 100 /\
  FloatTracker.overall_progress t = Binary64.tenth 45.
Proof.
  cbn zeta.
  assert (Hr : reachable_whole
                 (FloatTracker.update_step
                    (FloatTracker.init "job" (S754_zero false))
                    LOADING_MODEL (Binary64.PyInt 17) (S754_zero false)))
    by apply whole_update_step, whole_init.
  assert (Hin : In (FloatTracker.current_step
                      (FloatTracker.update_step
                         (FloatTracker.init "job" (S754_zero false))
                         LOADING_MODEL (Binary64.PyInt 17) (S754_zero false)))
                   [INITIALIZING; LOADING_MODEL; SPECTROGRAM_EXTRACTION])
    by (simpl; tauto).
  split; [exact Hr|]. split; [exact Hin|].
  split; [exact (proj1 (C4_overall_progress_formula _ Hr Hin))|].
  split; vm_compute; reflexivity.
Defined.

(** C8 (as stated, fails).  From LoadingModel at 100 an update to the
    earlier phase Initializing is taken: the phase moves back and the
    overall progress falls from 17 to 0. *)
Lemma C8_counterexample :
  let t := update_step (init "job" 0) LOADING_MODEL 100 0 in
  let t' := update_step t INITIALIZING 0 0 in
  (index INITIALIZING < index (current_step t))%nat /\
  current_step t' = INITIALIZING /\
  overall_progress t == 17 /\
  overall_progress t' == 0 /\
  overall_progress t' < overall_progress t.
Proof. cbn zeta. repeat split. cbn. lia. Qed.

(** C8 (amended).  [update_step] takes whatever phase it is given, an
    earlier one included: the current phase becomes that phase, the
    phase-local progress the given value clamped to [0, 100], and the
    overall progress is recomputed from these two alone, whatever the
    tracker held before.  In particular any tracker can be sent back to
    Initializing with overall progress 0. *)
Theorem C8_update_step_accepts_any_phase
    (t t' : ProgressTracker) (s : AnalysisStep) (sp now now' : Q) :
  current_step (update_step t s sp now) = s /\
  step_progress (update_step t s sp now) = clamp_0_100 sp /\
  overall_progress (update_step t s sp now) = calculate s (clamp_0_100 sp) /\
  overall_progress (update_step t s sp now)
  = overall_progress (update_step t' s sp now') /\
  current_step (update_step t INITIALIZING 0 now) = INITIALIZING /\
  overall_progress (update_step t INITIALIZING 0 now) == 0.
Proof. repeat split. Qed.

(** C9 (fails on the code).  For a fresh tracker, asked at the instant its
    first phase starts, the code estimates 37.5 seconds: it adds the
    mid-points of the phases whose string value is greater than
    "initializing" only.  The phases after Initializing in the declared
    order add up, with the 1.5 seconds of the current one, to 75 seconds.
    In Completed the estimate is absent. *)
Theorem C9_remaining_time_follows_string_order :
  let t := init "job" 0 in
  total_remaining t 0 == 75 # 2 /\
  _estimate_remaining_time t 0 = Some (Seconds 37) /\
  declared_total_remaining t 0 == 75 /\
  (forall (t' : ProgressTracker) (now now' : Q),
      _estimate_remaining_time (complete t' now) now' = None).
Proof. cbn zeta. repeat split. Qed.

End TrackerFacts.

(* ===================================================================== *)
(** ** Single-job flows: temp-file release and the async driver *)
(* ===================================================================== *)

Module JobFacts.
Import Py TempFiles Service Samples.

Local Arguments truthy : simpl never.

Lemma cleanup_file_tracked (fs_ok : string -> bool)
    (m : gmap string file_info) (fid : string) (info : file_info) :
  m !! fid = None -> fs_ok fid = true ->
  cleanup_file fs_ok {| temp_files := <[fid := info]> m |} fid
  = (true, {| temp_files := m |}).
Proof.
  intros Hm Hfs. unfold cleanup_file; cbn.
  rewrite lookup_insert_eq, Hfs, delete_insert_id by assumption.
  reflexivity.
Qed.

Lemma cleanup_file_unknown (fs_ok : string -> bool)
    (h : MemoryFileHandler) (fid : string) :
  temp_files h !! fid = None -> cleanup_file fs_ok h fid = (false, h).
Proof. intros Hm. unfold cleanup_file. rewrite Hm. reflexivity. Qed.

Lemma truthy_nonempty (fid : string) : fid <> "" -> truthy (Some fid) = true.
Proof.
  intros Hne. unfold truthy.
  destruct (String.eqb_spec fid ""); [contradiction | reflexivity].
Qed.

Lemma timeout_in_range (timeout : Z) :
  0 < timeout <= 600 -> (timeout <=? 0) || (600 <? timeout) = false.
Proof. intros [H1 H2]. apply orb_false_iff. split; lia. Qed.

Section SyncFlow.
Import Sync.
Local Arguments pretty : simpl never.
Variable fs_ok : string -> bool.
Variable h : MemoryFileHandler.
Variables fid rid msg : string.
Variable info : file_info.
Variable timeout : Z.
Variable run : engine_run.
Hypothesis fresh : temp_files h !! fid = None.
Hypothesis nonempty : fid <> "".
Hypothesis removable : fs_ok fid = true.
Hypothesis in_range : 0 < timeout <= 600.

Lemma sync_rejected (save : save_outcome) :
  analyze_audio_sync fs_ok rid timeout (false, msg) save run (enter h)
  = (Raise (HTTPException 422 (Lit msg)), enter h).
Proof.
  unfold analyze_audio_sync, catch, mbind, ret, raise, enter.
  rewrite (timeout_in_range _ in_range). cbn.
  reflexivity.
Qed.

(** The deadline falls after the coroutine has ended. *)
Lemma finished_by (t : Q) :
  (preparation_time <= t)%Q ->
  (preparation_time + duration run <= t)%Q ->
  suspended_at run t = Finished.
Proof.
  intros H1 H2. unfold suspended_at.
  destruct (Qlt_le_dec t preparation_time) as [Hlt|_].
  { exfalso. exact (Qlt_not_le _ _ Hlt H1). }
  destruct (Qlt_le_dec t (preparation_time + duration run)) as [Hlt|_].
  { exfalso. exact (Qlt_not_le _ _ Hlt H2). }
  reflexivity.
Qed.

Lemma sync_returns (raw : string) :
  outcome run = Ok raw ->
  (preparation_time <= inject_Z timeout)%Q ->
  (preparation_time + duration run <= inject_Z timeout)%Q ->
  analyze_audio_sync fs_ok rid timeout (true, msg) (Saved fid info) run
    (enter h)
  = (Ok {| success := true;
           data := {| data_path := path info; data_raw := raw;
                      links_request_id := rid |} |},
     {| handler := h; file_id := Some fid; cleanups := [(fid, true)] |}).
Proof.
  intros Hout Hprep Hdur.
  unfold analyze_audio_sync, catch, mbind, ret, raise, enter, do_save,
    wait_for, cleanup_local, do_cleanup.
  rewrite (timeout_in_range _ in_range). cbn.
  rewrite (finished_by _ Hprep Hdur). cbn.
  unfold analyze_single_file_with_progress, call. cbn. rewrite Hout. cbn.
  destruct h as [m]. cbn in *.
  rewrite (cleanup_file_tracked fs_ok m fid info fresh removable).
  reflexivity.
Qed.

Lemma sync_raises (e : exn) :
  outcome run = Raise e ->
  is_TimeoutError e = false ->
  (preparation_time <= inject_Z timeout)%Q ->
  (preparation_time + duration run <= inject_Z timeout)%Q ->
  analyze_audio_sync fs_ok rid timeout (true, msg) (Saved fid info) run
    (enter h)
  = (Raise (if is_HTTPException e then e
            else HTTPException 500 (Wrapped "分析过程中发生错误: " e)),
     {| handler := h; file_id := Some fid; cleanups := [(fid, true)] |}).
Proof.
  intros Hout Hnt Hprep Hdur.
  unfold analyze_audio_sync, catch, mbind, ret, raise, enter, do_save,
    wait_for, cleanup_if_set, cleanup_local, do_cleanup.
  rewrite (timeout_in_range _ in_range). cbn.
  rewrite (finished_by _ Hprep Hdur). cbn.
  unfold analyze_single_file_with_progress, call. cbn. rewrite Hout. cbn.
  rewrite Hnt.
  destruct h as [m]. cbn in *.
  destruct (is_HTTPException e) eqn:Hhttp; cbn;
    repeat (first
      [ rewrite Hhttp
      | rewrite (truthy_nonempty _ nonempty)
      | rewrite (cleanup_file_tracked fs_ok m fid info fresh removable) ];
      cbn);
    reflexivity.
Qed.

(** The engine itself raises [TimeoutError] before the deadline. *)
Lemma sync_engine_times_out :
  outcome run = Raise TimeoutError ->
  (preparation_time <= inject_Z timeout)%Q ->
  (preparation_time + duration run <= inject_Z timeout)%Q ->
  analyze_audio_sync fs_ok rid timeout (true, msg) (Saved fid info) run
    (enter h)
  = (Raise (HTTPException 504
              (Lit ("分析超时（" ++ pretty timeout
                    ++ "秒），请尝试减少文件大小或增加超时时间"))),
     {| handler := h; file_id := Some fid;
        cleanups := [(fid, true); (fid, false)] |}).
Proof.
  intros Hout Hprep Hdur.
  unfold analyze_audio_sync, catch, mbind, ret, raise, enter, do_save,
    wait_for, cleanup_if_set, cleanup_local, do_cleanup.
  rewrite (timeout_in_range _ in_range). cbn.
  rewrite (finished_by _ Hprep Hdur). cbn.
  unfold analyze_single_file_with_progress, call. cbn. rewrite Hout. cbn.
  destruct h as [m]. cbn in *.
  rewrite (cleanup_file_tracked fs_ok m fid info fresh removable). cbn.
  rewrite (truthy_nonempty _ nonempty).
  rewrite (cleanup_file_unknown fs_ok {| temp_files := m |} fid fresh).
  reflexivity.
Qed.

(** The deadline passes while the coroutine sleeps. *)
Lemma sync_cancelled_in_preparation :
  (inject_Z timeout < preparation_time)%Q ->
  analyze_audio_sync fs_ok rid timeout (true, msg) (Saved fid info) run
    (enter h)
  = (Raise (HTTPException 504
              (Lit ("分析超时（" ++ pretty timeout
                    ++ "秒），请尝试减少文件大小或增加超时时间"))),
     {| handler := h; file_id := Some fid;
        cleanups := [(fid, true); (fid, false)] |}).
Proof.
  intros Hearly.
  unfold analyze_audio_sync, catch, mbind, ret, raise, enter, do_save,
    wait_for, suspended_at, cleanup_if_set, cleanup_local, do_cleanup.
  rewrite (timeout_in_range _ in_range). cbn.
  destruct (Qlt_le_dec (inject_Z timeout) preparation_time) as [_|Hle].
  2: { exfalso. exact (Qlt_not_le _ _ Hearly Hle). }
  cbn.
  destruct h as [m]. cbn in *.
  rewrite (cleanup_file_tracked fs_ok m fid info fresh removable). cbn.
  rewrite (truthy_nonempty _ nonempty).
  rewrite (cleanup_file_unknown fs_ok {| temp_files := m |} fid fresh).
  reflexivity.
Qed.

(** The deadline passes while the engine runs. *)
Lemma sync_cancelled_in_engine :
  (preparation_time <= inject_Z timeout)%Q ->
  (inject_Z timeout < preparation_time + duration run)%Q ->
  analyze_audio_sync fs_ok rid timeout (true, msg) (Saved fid info) run
    (enter h)
  = (Raise (HTTPException 500
              (Wrapped "分析过程中发生错误: " (UnboundLocalError "results"))),
     {| handler := h; file_id := Some fid; cleanups := [(fid, true)] |}).
Proof.
  intros Hprep Hlate.
  unfold analyze_audio_sync, catch, mbind, ret, raise, enter, do_save,
    wait_for, suspended_at, cleanup_if_set, cleanup_local, do_cleanup.
  rewrite (timeout_in_range _ in_range). cbn.
  destruct (Qlt_le_dec (inject_Z timeout) preparation_time) as [Hlt|_].
  { exfalso. exact (Qlt_not_le _ _ Hlt Hprep). }
  destruct (Qlt_le_dec (inject_Z timeout) (preparation_time + duration run))
    as [_|Hle].
  2: { exfalso. exact (Qlt_not_le _ _ Hlate Hle). }
  cbn.
  rewrite (truthy_nonempty _ nonempty).
  destruct h as [m]. cbn in *.
  rewrite (cleanup_file_tracked fs_ok m fid info fresh removable).
  reflexivity.
Qed.
End SyncFlow.

Section AsyncFlow.
Import Async.
Variable fs_ok : string -> bool.
Variable w : world.
Variables fid tid rid msg : string.
Variable info : file_info.
Variable run : engine_run.
Hypothesis fresh : temp_files (handler w) !! fid = None.
Hypothesis nonempty : fid <> "".
Hypothesis removable : fs_ok fid = true.

Lemma async_rejected (save : save_outcome) :
  submit_analysis_task fs_ok tid rid (false, msg) save w
  = (Raise (HTTPException 500
              (Wrapped "创建任务失败: " (HTTPException 422 (Lit msg)))),
     w).
Proof. reflexivity. Qed.

Lemma async_job_releases_once :
  let '(r, w1) :=
    submit_analysis_task fs_ok tid rid (true, msg) (Saved fid info) w in
  let w2 := _process_async_analysis_task fs_ok tid run w1 in
  r = Ok tid /\
  handler w2 = handler w /\
  cleanups w2 = (cleanups w ++ [(fid, true)])%list.
Proof.
  unfold submit_analysis_task, _process_async_analysis_task. cbn.
  rewrite lookup_insert_eq. cbn.
  unfold cleanup_if_set.
  unfold analyze_single_file_with_progress, call; cbn.
  rewrite (truthy_nonempty _ nonempty). unfold do_cleanup; cbn.
  destruct (handler w) as [m]; cbn in *.
  rewrite (cleanup_file_tracked fs_ok m fid info fresh removable).
  auto.
Qed.
End AsyncFlow.

(** C2 (as stated, fails).  With a timeout of one second the deadline
    passes while the service is still in the 1.2 seconds of sleeps that
    precede the engine: the fire-and-wait flow answers 504 and has called
    [cleanup_file] twice for the handle.  On the validation failure path
    it is not called at all (no handle exists yet). *)
Lemma C2_counterexample :
  let late :=
    Sync.analyze_audio_sync removal_ok "rid" 1 (true, "")
      (Saved "u1" sample_info) returns_in_time (Sync.enter empty_handler) in
  let rejected :=
    Sync.analyze_audio_sync removal_ok "rid" 600 (false, "bad")
      (Saved "u1" sample_info) returns_in_time (Sync.enter empty_handler) in
  fst late
  = Raise (HTTPException 504
             (Lit "分析超时（1秒），请尝试减少文件大小或增加超时时间")) /\
  Sync.cleanups (snd late) = [("u1", true); ("u1", false)] /\
  length (Sync.cleanups (snd late)) <> 1%nat /\
  fst rejected = Raise (HTTPException 422 (Lit "bad")) /\
  Sync.cleanups (snd rejected) = [] /\
  length (Sync.cleanups (snd rejected)) <> 1%nat.
Proof. vm_compute. repeat split; discriminate. Qed.

(** C2 (amended).  Take a handler that does not track [fid] yet, a
    non-empty [fid], a file system that lets the file be removed, and a
    timeout in range.  In the fire-and-wait flow a file rejected by
    validation gets no handle and no [cleanup_file] call.  For a saved
    file [cleanup_file] is called for the handle exactly once when the
    engine returns before the deadline, when it raises anything but a
    [TimeoutError] before the deadline, and when the deadline passes
    while the engine runs (the service then fails on its unbound local
    [results] and the endpoint answers 500).  It is called twice, the
    second call finding nothing and answering false, when the endpoint
    answers 504: when the deadline passes during the 1.2 seconds of
    sleeps before the engine starts, and when the engine itself raises
    [TimeoutError].  In the submit-and-poll flow the driver calls it
    exactly once.  After each outcome the handle count is what it was
    before the job. *)
Theorem C2_release_accounting
    (fs_ok : string -> bool) (h : MemoryFileHandler)
    (fid rid tid msg : string) (info : file_info) (timeout : Z)
    (run : engine_run) :
  temp_files h !! fid = None ->
  fid <> "" ->
  fs_ok fid = true ->
  0 < timeout <= 600 ->
  let sync := Sync.analyze_audio_sync fs_ok rid timeout (true, msg)
                (Saved fid info) run (Sync.enter h) in
  let before_deadline :=
    (preparation_time <= inject_Z timeout)%Q /\
    (preparation_time + duration run <= inject_Z timeout)%Q in
  let answers_504 :=
    fst sync
    = Raise (HTTPException 504
               (Lit ("分析超时（" ++ pretty timeout
                     ++ "秒），请尝试减少文件大小或增加超时时间"))) in
  (let o := Sync.analyze_audio_sync fs_ok rid timeout (false, msg)
              (Saved fid info) run (Sync.enter h) in
   fst o = Raise (HTTPException 422 (Lit msg)) /\
   Sync.cleanups (snd o) = [] /\
   get_file_count (Sync.handler (snd o)) = get_file_count h) /\
  (forall raw : string,
     outcome run = Ok raw -> before_deadline ->
     (exists resp, fst sync = Ok resp) /\
     Sync.cleanups (snd sync) = [(fid, true)] /\
     get_file_count (Sync.handler (snd sync)) = get_file_count h) /\
  (forall e : exn,
     outcome run = Raise e -> Sync.is_TimeoutError e = false ->
     before_deadline ->
     (exists e', fst sync = Raise e') /\
     Sync.cleanups (snd sync) = [(fid, true)] /\
     get_file_count (Sync.handler (snd sync)) = get_file_count h) /\
  ((preparation_time <= inject_Z timeout)%Q ->
   (inject_Z timeout < preparation_time + duration run)%Q ->
     fst sync
     = Raise (HTTPException 500
                (Wrapped "分析过程中发生错误: "
                   (UnboundLocalError "results"))) /\
     Sync.cleanups (snd sync) = [(fid, true)] /\
     get_file_count (Sync.handler (snd sync)) = get_file_count h) /\
  ((inject_Z timeout < preparation_time)%Q ->
     answers_504 /\
     Sync.cleanups (snd sync) = [(fid, true); (fid, false)] /\
     get_file_count (Sync.handler (snd sync)) = get_file_count h) /\
  (outcome run = Raise TimeoutError -> before_deadline ->
     answers_504 /\
     Sync.cleanups (snd sync) = [(fid, true); (fid, false)] /\
     get_file_count (Sync.handler (snd sync)) = get_file_count h) /\
  (forall w : Async.world,
     Async.handler w = h ->
     let o := Async.submit_analysis_task fs_ok tid rid (true, msg)
                (Saved fid info) w in
     let w2 := Async._process_async_analysis_task fs_ok tid run (snd o) in
     fst o = Ok tid /\
     Async.cleanups w2 = (Async.cleanups w ++ [(fid, true)])%list /\
     get_file_count (Async.handler w2) = get_file_count h).
Proof.
  intros Hfresh Hne Hfs Hrange. cbn zeta.
  split; [|split; [|split; [|split; [|split; [|split]]]]].
  - rewrite (sync_rejected fs_ok h rid msg timeout run Hrange).
    repeat split.
  - intros raw Hout [Hprep Hdur].
    rewrite (sync_returns fs_ok h fid rid msg info timeout run
               Hfresh Hfs Hrange raw Hout Hprep Hdur).
    repeat split. eexists. reflexivity.
  - intros e Hout Hnt [Hprep Hdur].
    rewrite (sync_raises fs_ok h fid rid msg info timeout run
               Hfresh Hne Hfs Hrange e Hout Hnt Hprep Hdur).
    repeat split. eexists. reflexivity.
  - intros Hprep Hlate.
    rewrite (sync_cancelled_in_engine fs_ok h fid rid msg info timeout run
               Hfresh Hne Hfs Hrange Hprep Hlate).
    repeat split.
  - intros Hearly.
    rewrite (sync_cancelled_in_preparation fs_ok h fid rid msg info timeout
               run Hfresh Hne Hfs Hrange Hearly).
    repeat split.
  - intros Hout [Hprep Hdur].
    rewrite (sync_engine_times_out fs_ok h fid rid msg info timeout run
               Hfresh Hne Hfs Hrange Hout Hprep Hdur).
    repeat split.
  - intros w Hw. subst h.
    pose proof (async_job_releases_once fs_ok w fid tid rid msg info run
                  Hfresh Hne Hfs) as H.
    destruct (Async.submit_analysis_task fs_ok tid rid (true, msg)
                (Saved fid info) w) as [r w1].
    cbn [fst snd]. destruct H as (H1 & H2 & H3).
    rewrite H2. repeat split; assumption.
Qed.

(** A job whose engine needs 601 seconds under a deadline of 600: the
    deadline passes while the engine runs; one call, and the count is
    restored. *)
Lemma C2_release_accounting_witness :
  let o := Sync.analyze_audio_sync removal_ok "rid" 600 (true, "")
             (Saved "u1" sample_info) returns_late
             (Sync.enter empty_handler) in
  temp_files empty_handler !! "u1" = None /\
  "u1" <> "" /\
  (0 < 600 <= 600) /\
  fst o
  = Raise (HTTPException 500
             (Wrapped "分析过程中发生错误: " (UnboundLocalError "results"))) /\
  Sync.cleanups (snd o) = [("u1", true)] /\
  get_file_count (Sync.handler (snd o)) = get_file_count empty_handler.
Proof.
  assert (H1 : temp_files empty_handler !! "u1" = None) by reflexivity.
  assert (H2 : "u1" <> "") by discriminate.
  assert (H3 : 0 < 600 <= 600) by lia.
  destruct (C2_release_accounting removal_ok empty_handler "u1" "rid" "t1" ""
              sample_info 600 returns_late H1 H2 eq_refl H3)
    as (_ & _ & _ & Hlate & _).
  destruct Hlate as (Hr & Hc & Hn); [discriminate | reflexivity |].
  repeat split; try assumption; lia.
Defined.

(** No function of the async flow touches the registry when it cleans up. *)
Lemma cleanup_if_set_tasks (fs_ok : string -> bool) (fid : option string)
    (w : Async.world) :
  Async.async_tasks (Async.cleanup_if_set fs_ok fid w) = Async.async_tasks w.
Proof.
  unfold Async.cleanup_if_set, Async.do_cleanup.
  destruct fid as [f|]; [|reflexivity].
  destruct (truthy (Some f)); [|reflexivity].
  destruct (cleanup_file fs_ok (Async.handler w) f). reflexivity.
Qed.

(** C7 (fails on the code).  Whatever the engine would do, the driver of a
    registered async job ends with the job Failed: its call into the
    service passes one positional argument more than the method declares,
    so the call raises before the engine is reached.  No result is
    recorded and the progress stays at the 5 set on entry. *)
Theorem C7_async_driver_never_completes
    (fs_ok : string -> bool) (tid : string) (run : engine_run)
    (w : Async.world) (ti : Async.task_info) :
  Async.async_tasks w !! tid = Some ti ->
  exists ti' : Async.task_info,
    Async.async_tasks (Async._process_async_analysis_task fs_ok tid run w)
      !! tid = Some ti' /\
    Async.status ti' = "failed" /\
    Async.result ti' = Async.result ti /\
    Async.progress ti' = 5%Q /\
    Async.error ti'
    = Some (TypeError "AnalysisService.analyze_single_file_with_progress"
              4 5).
Proof.
  intros Hti. unfold Async._process_async_analysis_task. rewrite Hti.
  rewrite cleanup_if_set_tasks. cbn [Async.async_tasks].
  rewrite lookup_insert_eq. eexists. split; [reflexivity|].
  unfold analyze_single_file_with_progress, call. cbn. repeat split.
Qed.

(** A job submitted for a valid file on which the engine would return. *)
Lemma C7_async_driver_never_completes_witness :
  let w0 := {| Async.async_tasks := ∅; Async.handler := empty_handler;
               Async.cleanups := [] |} in
  let w1 := snd (Async.submit_analysis_task removal_ok "t1" "r1" (true, "")
                   (Saved "u1" sample_info) w0) in
  outcome returns_in_time = Ok "raw" /\
  exists ti ti' : Async.task_info,
    Async.async_tasks w1 !! "t1" = Some ti /\
    Async.status ti = "pending" /\
    Async.async_tasks
      (Async._process_async_analysis_task removal_ok "t1" returns_in_time w1)
      !! "t1" = Some ti' /\
    Async.status ti' = "failed" /\
    Async.result ti' = None.
Proof.
  cbn zeta. split; [reflexivity|].
  eexists.
  assert (Hti : Async.async_tasks
                  (snd (Async.submit_analysis_task removal_ok "t1" "r1"
                          (true, "") (Saved "u1" sample_info)
                          {| Async.async_tasks := ∅;
                             Async.handler := empty_handler;
                             Async.cleanups := [] |}))
                !! "t1"
                = Some {| Async.task_id := "t1"; Async.request_id := "r1";
                          Async.file_path := path sample_info;
                          Async.file_id := Some "u1";
                          Async.status := "pending"; Async.progress := 0;
                          Async.current_step := "queued";
                          Async.message := Lit "任务已创建，等待处理";
                          Async.result := None; Async.error := None |})
    by (vm_compute; reflexivity).
  destruct (C7_async_driver_never_completes removal_ok "t1" returns_in_time
              _ _ Hti) as (ti' & Hl & Hs & Hr & _).
  exists ti'. repeat split; assumption.
Defined.

End JobFacts.

(* ===================================================================== *)
(** ** Batches: submission, the driver, cancellation *)
(* ===================================================================== *)

Module BatchFacts.
Import Py TempFiles Service Batch Samples.

(** [Path] is not bound in the module: every item stops there. *)
Lemma analyze_item_raises (engine : string -> engine_run) (tid : string)
    (i : nat) (f : file_entry) :
  analyze_item engine tid i f = Raise (NameError "Path").
Proof. reflexivity. Qed.

(** *** The driver does not read the status *)

Lemma set_status_set_status (s s' : string) (t : batch_task) :
  set_status s (set_status s' t) = set_status s t.
Proof. reflexivity. Qed.

Lemma set_status_mark_cancelled (s : string) (t : batch_task) :
  set_status s (mark_cancelled t) = set_status s t.
Proof. unfold mark_cancelled. destruct (existsb _ _); reflexivity. Qed.

Lemma set_status_begin_item (s : string) (i total : nat) (f : file_entry)
    (t : batch_task) :
  set_status s (begin_item i total f t) = begin_item i total f (set_status s t).
Proof. reflexivity. Qed.

Lemma set_status_record_success (s : string) (f : file_entry) (p : payload)
    (t : batch_task) :
  set_status s (record_success f p t) = record_success f p (set_status s t).
Proof. reflexivity. Qed.

Lemma set_status_record_failure (s : string) (f : file_entry) (e : exn)
    (t : batch_task) :
  set_status s (record_failure f e t) = record_failure f e (set_status s t).
Proof. reflexivity. Qed.

Lemma finish_set_status (s : string) (t : batch_task) :
  finish (set_status s t) = finish t.
Proof. reflexivity. Qed.

(** Two runs of the loop from records that differ in their status only,
    under any two schedules of cancel requests, start the same items and
    end in records that again differ in their status only. *)
Lemma process_items_status_blind (engine : string -> engine_run)
    (cancels cancels' : nat -> bool) (tid : string) (total : nat)
    (items : list file_entry) :
  forall (i : nat) (t t' : batch_task) (log : list string),
    set_status "" t = set_status "" t' ->
    set_status "" (fst (process_items engine cancels tid total i items t log))
    = set_status "" (fst (process_items engine cancels' tid total i items t' log))
    /\ snd (process_items engine cancels tid total i items t log)
       = snd (process_items engine cancels' tid total i items t' log).
Proof.
  induction items as [|f rest IH]; intros i t t' log Heq; cbn [process_items].
  - split; [exact Heq | reflexivity].
  - set (t0 := if cancels i then mark_cancelled t else t).
    set (t0' := if cancels' i then mark_cancelled t' else t').
    assert (H0 : set_status "" t0 = set_status "" t0').
    { subst t0 t0'. destruct (cancels i), (cancels' i);
        rewrite ?set_status_mark_cancelled; exact Heq. }
    assert (H1 : set_status "" (begin_item i total f t0)
                 = set_status "" (begin_item i total f t0'))
      by (rewrite !set_status_begin_item, H0; reflexivity).
    destruct (analyze_item engine tid i f) as [p|e].
    + apply IH. rewrite !set_status_record_success, H1. reflexivity.
    + assert (H2 : set_status "" (record_failure f e (begin_item i total f t0))
                   = set_status "" (record_failure f e (begin_item i total f t0')))
        by (rewrite !set_status_record_failure, H1; reflexivity).
      assert (Hc : continue_on_error (record_failure f e (begin_item i total f t0))
                   = continue_on_error (record_failure f e (begin_item i total f t0')))
        by exact (f_equal continue_on_error H2).
      rewrite Hc.
      destruct (negb _).
      * split; [exact H2 | reflexivity].
      * apply IH. exact H2.
Qed.

Lemma drive_status_blind (engine : string -> engine_run)
    (cancels cancels' : nat -> bool) (tid s : string) (task : batch_task) :
  drive engine cancels tid (set_status s task)
  = drive engine cancels' tid task.
Proof.
  unfold drive.
  rewrite set_status_set_status.
  change (valid_files (set_status "processing" task)) with (valid_files task).
  destruct (process_items_status_blind engine cancels cancels' tid
              (length (valid_files task)) (valid_files task) 0
              (set_status "processing" task) (set_status "processing" task)
              [] eq_refl) as [Ht Hl].
  destruct (process_items engine cancels _ _ _ _ _ _) as [t2 log].
  destruct (process_items engine cancels' _ _ _ _ _ _) as [t2' log'].
  cbn [fst snd] in *. subst log'.
  rewrite <- (finish_set_status "" t2), <- (finish_set_status "" t2'), Ht.
  reflexivity.
Qed.

(** *** What the loop leaves in place *)

Lemma mark_cancelled_fields (t : batch_task) :
  completed_files (mark_cancelled t) = completed_files t /\
  failed_files (mark_cancelled t) = failed_files t /\
  results (mark_cancelled t) = results t /\
  continue_on_error (mark_cancelled t) = continue_on_error t.
Proof. unfold mark_cancelled. destruct (existsb _ _); repeat split. Qed.

Lemma interfered_fields (b : bool) (t : batch_task) :
  completed_files (if b then mark_cancelled t else t) = completed_files t /\
  failed_files (if b then mark_cancelled t else t) = failed_files t /\
  results (if b then mark_cancelled t else t) = results t /\
  continue_on_error (if b then mark_cancelled t else t) = continue_on_error t.
Proof. destruct b; [apply mark_cancelled_fields | repeat split]. Qed.

(** The loop only appends to the two lists, and only writes the results
    of the items it goes through. *)
Lemma process_items_keeps (engine : string -> engine_run)
    (cancels : nat -> bool) (tid : string) (total : nat)
    (items : list file_entry) :
  forall (i : nat) (t : batch_task) (log : list string),
    let t' := fst (process_items engine cancels tid total i items t log) in
    (exists l, completed_files t' = (completed_files t ++ l)%list) /\
    (exists l, failed_files t' = (failed_files t ++ l)%list) /\
    (forall name : string, ~ In name (map filename items) ->
       results t' !! name = results t !! name).
Proof.
  induction items as [|f rest IH]; intros i t log; cbn [process_items].
  - cbn. repeat split; try (exists []; rewrite app_nil_r; reflexivity).
  - destruct (interfered_fields (cancels i) t) as (Hc & Hf & Hr & _).
    set (t0 := if cancels i then mark_cancelled t else t) in *.
    destruct (analyze_item engine tid i f) as [p|e].
    + destruct (IH (S i) (record_success f p (begin_item i total f t0))
                  (log ++ [filename f])%list) as ([l Hl] & [l' Hl'] & Hres).
      cbn zeta. split; [|split].
      * exists ([filename f] ++ l)%list. rewrite Hl. cbn.
        rewrite Hc, <- app_assoc. reflexivity.
      * exists l'. rewrite Hl'. cbn. rewrite Hf. reflexivity.
      * intros name Hn. cbn in Hn. rewrite Hres by tauto. cbn.
        rewrite lookup_insert_ne by tauto. rewrite Hr. reflexivity.
    + assert (Hstop :
        let t2 := record_failure f e (begin_item i total f t0) in
        (exists l, completed_files t2 = (completed_files t ++ l)%list) /\
        (exists l, failed_files t2 = (failed_files t ++ l)%list) /\
        (forall name : string, ~ In name (map filename (f :: rest)) ->
           results t2 !! name = results t !! name)).
      { cbn zeta. split; [|split].
        - exists []. cbn. rewrite Hc, app_nil_r. reflexivity.
        - exists [filename f]. cbn. rewrite Hf. reflexivity.
        - intros name Hn. cbn in Hn. cbn.
          rewrite lookup_insert_ne by tauto. rewrite Hr. reflexivity. }
      destruct (negb _); [exact Hstop|].
      destruct Hstop as ([l0 Hl0] & [l0' Hl0'] & Hres0).
      destruct (IH (S i) (record_failure f e (begin_item i total f t0))
                  (log ++ [filename f])%list) as ([l Hl] & [l' Hl'] & Hres).
      cbn zeta. split; [|split].
      * exists (l0 ++ l)%list. rewrite Hl, Hl0, <- app_assoc. reflexivity.
      * exists (l0' ++ l')%list. rewrite Hl', Hl0', <- app_assoc. reflexivity.
      * intros name Hn. rewrite Hres by (cbn in Hn; tauto).
        apply Hres0. exact Hn.
Qed.

(** With [continue_on_error] set, every item is started. *)
Lemma process_items_starts_all (engine : string -> engine_run)
    (cancels : nat -> bool) (tid : string) (total : nat)
    (items : list file_entry) :
  forall (i : nat) (t : batch_task) (log : list string),
    continue_on_error t = true ->
    snd (process_items engine cancels tid total i items t log)
    = (log ++ map filename items)%list.
Proof.
  induction items as [|f rest IH]; intros i t log Hcoe; cbn [process_items].
  - cbn. rewrite app_nil_r. reflexivity.
  - destruct (interfered_fields (cancels i) t) as (_ & _ & _ & Hk).
    set (t0 := if cancels i then mark_cancelled t else t) in *.
    destruct (analyze_item engine tid i f) as [p|e].
    + rewrite IH by (cbn; rewrite Hk; exact Hcoe).
      cbn. rewrite <- app_assoc. reflexivity.
    + cbn [record_failure continue_on_error begin_item].
      rewrite Hk, Hcoe. cbn [negb].
      rewrite IH by (cbn; rewrite Hk; exact Hcoe).
      cbn. rewrite <- app_assoc. reflexivity.
Qed.

(** The submission never returns a response and never stores a record:
    every path through the body ends in the 500 of its handler. *)
Lemma submit_batch_analysis_never_succeeds (fs_ok : string -> bool)
    (tid : string) (files : list upload) (priority : Z) (coe : bool)
    (w : world) :
  exists e : exn,
    submit_batch_analysis fs_ok tid files priority coe w
    = (Raise (HTTPException 500 (Wrapped "创建批量任务失败: " e)), w).
Proof.
  unfold submit_batch_analysis.
  destruct w as [bt h cl sl]; cbn [batch_tasks handler cleanups started_log].
  destruct (Nat.eqb _ 0); [eexists; reflexivity|].
  destruct (Nat.ltb 50 _); [eexists; reflexivity|].
  destruct (negb _); [eexists; reflexivity|].
  destruct (validate_files 0 files [] [] 0) as [[validated invalid] total].
  eexists; reflexivity.
Qed.

(** C3 (fails on the code).  A submission whose only file is rejected by
    the validator does not get the 400 for "no valid file": the test that
    would raise it reads an unbound name, and the handler of the body turns
    the resulting error into a 500.  No record is stored. *)
Theorem C3_zero_valid_files_raises_500 :
  let files := [rejected_upload "notes.txt"] in
  validate_files 0 files [] [] 0
  = ([], [{| inv_filename := "notes.txt"; inv_index := 0;
             inv_error := Lit "不支持的文件格式: text/plain" |}], 0%nat) /\
  submit_batch_analysis removal_ok "batch_1" files 2 true empty_world
  = (Raise (HTTPException 500
              (Wrapped "创建批量任务失败: " (NameError "validified_files"))),
     empty_world).
Proof. split; reflexivity. Qed.

(** C5 (as stated, fails).  A pending batch of two files is marked
    Cancelled through the cancel endpoint; the driver, run afterwards,
    still starts both files and leaves the batch Completed. *)
Lemma C5_counterexample :
  let task := new_task 2 true [entry "A"; entry "B"] [] ["id-A"; "id-B"] in
  let w0 := {| batch_tasks := {[ "batch_1" := task ]};
               handler := {| temp_files := ∅ |};
               cleanups := []; started_log := [] |} in
  let o := cancel_or_delete_batch_task "batch_1" w0 in
  let w2 := _process_batch_analysis_task removal_ok engine_fails_on_B
              no_cancel "batch_1" (snd o) in
  status task = "pending" /\
  fst o = Ok Cancelled /\
  status <$> (batch_tasks (snd o) !! "batch_1") = Some "cancelled" /\
  started_log w2 = ["A"; "B"] /\
  status <$> (batch_tasks w2 !! "batch_1") = Some "completed".
Proof. vm_compute. repeat split. Qed.

(** C5 (amended).  Marking a batch Cancelled rewrites its status and
    nothing else, and the driver never reads the status: whatever status
    the record carries when the driver starts, and whenever cancel requests
    arrive between items, the driver starts the same items and leaves the
    same record as an undisturbed run.  With [continue_on_error] set it
    starts every accepted file.  Outcomes recorded before are kept: the two
    lists are only appended to, and the results of other files are not
    touched. *)
Theorem C5_cancel_does_not_stop_driver
    (engine : string -> engine_run) (cancels : nat -> bool)
    (tid s : string) (task : batch_task) :
  let run := drive engine cancels tid (set_status s task) in
  run = drive engine no_cancel tid task /\
  (continue_on_error task = true ->
   snd run = map filename (valid_files task)) /\
  (exists l, completed_files (fst run) = (completed_files task ++ l)%list) /\
  (exists l, failed_files (fst run) = (failed_files task ++ l)%list) /\
  (forall name : string, ~ In name (map filename (valid_files task)) ->
     results (fst run) !! name = results task !! name) /\
  mark_cancelled (set_status "pending" task) = set_status "cancelled" task /\
  mark_cancelled (set_status "processing" task) = set_status "cancelled" task.
Proof.
  cbn zeta. rewrite (drive_status_blind engine cancels no_cancel tid s task).
  split; [reflexivity|].
  unfold drive.
  change (valid_files (set_status "processing" task)) with (valid_files task).
  pose proof (process_items_keeps engine no_cancel tid
                (length (valid_files task)) (valid_files task) 0
                (set_status "processing" task) []) as Hkeep.
  pose proof (process_items_starts_all engine no_cancel tid
                (length (valid_files task)) (valid_files task) 0
                (set_status "processing" task) []) as Hall.
  destruct (process_items engine no_cancel tid _ 0 _ _ _) as [t2 log].
  cbn [fst snd] in *. cbn zeta in Hkeep.
  destruct Hkeep as (Hc & Hf & Hr).
  repeat split; assumption.
Qed.

(** A cancelled batch of two files, with a cancel request before every
    item: both files are started. *)
Lemma C5_cancel_does_not_stop_driver_witness :
  let task := new_task 2 true [entry "A"; entry "B"] [] ["id-A"; "id-B"] in
  continue_on_error task = true /\
  snd (drive engine_fails_on_B (fun _ => true) "batch_1"
         (set_status "cancelled" task)) = ["A"; "B"].
Proof.
  cbn zeta. split; [reflexivity|].
  destruct (C5_cancel_does_not_stop_driver engine_fails_on_B (fun _ => true)
              "batch_1" "cancelled"
              (new_task 2 true [entry "A"; entry "B"] [] ["id-A"; "id-B"]))
    as (_ & Hall & _).
  exact (Hall eq_refl).
Defined.

(** C6 (fails on the code).  On the accepted files [A, B, C], with an
    engine that returns on A and C and raises on B, every item fails
    before the engine is called, because the name [Path] is not bound in
    the module.  With [continue_on_error] set the batch ends with no
    completed file and A, B, C failed; without it the driver stops after A,
    which is the only file recorded, as failed. *)
Theorem C6_every_item_fails_before_the_engine :
  let go := drive engine_fails_on_B no_cancel "batch_1" (abc_task true) in
  let stop := drive engine_fails_on_B no_cancel "batch_1" (abc_task false) in
  outcome (engine_fails_on_B (temp_path (entry "A"))) = Ok "raw" /\
  outcome (engine_fails_on_B (temp_path (entry "C"))) = Ok "raw" /\
  completed_files (fst go) = [] /\
  failed_files (fst go) = ["A"; "B"; "C"] /\
  snd go = ["A"; "B"; "C"] /\
  completed_files (fst stop) = [] /\
  failed_files (fst stop) = ["A"] /\
  snd stop = ["A"] /\
  results (fst stop) !! "A" = Some (ItemFailure (NameError "Path")) /\
  results (fst stop) !! "B" = None /\
  results (fst stop) !! "C" = None.
Proof. vm_compute. repeat split. Qed.

(** C10.  Whenever the driver runs on a registered batch, with the loop
    going through all items or stopping at the first failure, and with
    cancel requests arriving before or between items, it leaves the batch
    with status Completed and overall progress 100, the progress dict being
    the one it worked on; a Cancelled status recorded earlier is
    overwritten. *)
Theorem C10_driver_always_marks_completed
    (fs_ok : string -> bool) (engine : string -> engine_run)
    (cancels : nat -> bool) (tid : string) (w : world) (task : batch_task) :
  batch_tasks w !! tid = Some task ->
  exists task' : batch_task,
    batch_tasks (_process_batch_analysis_task fs_ok engine cancels tid w)
      !! tid = Some task' /\
    status task' = "completed" /\
    overall_progress (task_progress task') = Some 100%Q /\
    current_file (task_progress task') = None /\
    published task' = None.
Proof.
  intros Hw. unfold _process_batch_analysis_task. rewrite Hw.
  unfold drive.
  destruct (process_items engine cancels tid _ 0 _ _ _) as [t2 log].
  destruct (cleanup_all fs_ok _ _ _) as [h' cl].
  cbn [batch_tasks]. rewrite lookup_insert_eq.
  eexists. split; [reflexivity|]. repeat split.
Qed.

(** A batch already marked Cancelled, cancelled again before each item,
    stopping at its first failure: it ends Completed at 100. *)
Lemma C10_driver_always_marks_completed_witness :
  let task := set_status "cancelled" (abc_task false) in
  let w := {| batch_tasks := {[ "batch_1" := task ]};
              handler := {| temp_files := ∅ |};
              cleanups := []; started_log := [] |} in
  let w' := _process_batch_analysis_task removal_ok engine_fails_on_B
              (fun _ => true) "batch_1" w in
  batch_tasks w !! "batch_1" = Some task /\
  status task = "cancelled" /\
  exists task' : batch_task,
    batch_tasks w' !! "batch_1" = Some task' /\
    status task' = "completed" /\
    overall_progress (task_progress task') = Some 100%Q.
Proof.
  cbn zeta.
  assert (Hw : batch_tasks
                 {| batch_tasks :=
                      {[ "batch_1" := set_status "cancelled" (abc_task false) ]};
                    handler := {| temp_files := ∅ |};
                    cleanups := []; started_log := [] |} !! "batch_1"
               = Some (set_status "cancelled" (abc_task false)))
    by (cbn [batch_tasks]; apply lookup_singleton_eq).
  split; [exact Hw|]. split; [reflexivity|].
  destruct (C10_driver_always_marks_completed removal_ok engine_fails_on_B
              (fun _ => true) "batch_1" _ _ Hw)
    as (task' & Hl & Hs & Hp & _).
  exists task'. repeat split; assumption.
Defined.

End BatchFacts.

(* ===================================================================== *)
(** ** Further properties of the progress tracker *)
(* ===================================================================== *)

Module TrackerMore.
Import Py Tracker Spec.

Local Open Scope Q_scope.

Lemma round_half_even_mono (x y : Q) :
  x <= y -> (round_half_even x <= round_half_even y)%Z.
Proof.
  intros Hxy. unfold round_half_even.
  pose proof (Qfloor_resp_le x y Hxy) as Hf.
  pose proof (Qfloor_le x) as Hx1. pose proof (Qlt_floor x) as Hx2.
  pose proof (Qfloor_le y) as Hy1. pose proof (Qlt_floor y) as Hy2.
  rewrite inject_Z_plus in Hx2, Hy2.
  destruct (Z.eq_dec (Qfloor x) (Qfloor y)) as [E|NE].
  - rewrite <- E in *.
    destruct (Qcompare_spec (x - inject_Z (Qfloor x)) (1 # 2));
      destruct (Qcompare_spec (y - inject_Z (Qfloor x)) (1 # 2));
      try (exfalso; lra);
      destruct (Z.even (Qfloor x)); lia.
  - assert (Hlt : (Qfloor x + 1 <= Qfloor y)%Z) by lia.
    destruct (x - inject_Z (Qfloor x) ?= 1 # 2);
      destruct (y - inject_Z (Qfloor y) ?= 1 # 2);
      destruct (Z.even (Qfloor x)); destruct (Z.even (Qfloor y)); lia.
Qed.

Lemma round1_mono (x y : Q) : x <= y -> round1 x <= round1 y.
Proof.
  intros Hxy. unfold round1.
  assert (H : (round_half_even (x * 10) <= round_half_even (y * 10))%Z)
    by (apply round_half_even_mono; lra).
  rewrite Zle_Qle in H.
  apply Qmult_le_compat_r; [exact H | discriminate].
Qed.

(** The accumulated weight grows with the phase-local progress, whatever
    the table, as long as its weights are not negative. *)
Lemma weight_loop_mono (items : list (AnalysisStep * Q))
    (cur : AnalysisStep) (sp sp' : Q) :
  Forall (fun sw => 0 <= snd sw) items ->
  sp <= sp' ->
  forall acc, weight_loop items cur sp acc <= weight_loop items cur sp' acc.
Proof.
  intros Hw Hsp. induction Hw as [|[s w] rest Hw0 _ IH]; intros acc; cbn.
  - apply Qle_refl.
  - cbn in Hw0. destruct (step_eqb s cur).
    + assert (Hd : sp / 100 <= sp' / 100)
        by (apply Qmult_le_compat_r; [exact Hsp | discriminate]).
      assert (w * (sp / 100) <= w * (sp' / 100)).
      { rewrite !(Qmult_comm w). apply Qmult_le_compat_r; assumption. }
      lra.
    + destruct (String.ltb (value s) (value cur)); apply IH.
Qed.

Lemma step_weights_nonneg : Forall (fun sw => 0 <= snd sw) step_weights.
Proof. repeat constructor; discriminate. Qed.

Lemma calculate_mono (s : AnalysisStep) (sp sp' : Q) :
  sp <= sp' -> calculate s sp <= calculate s sp'.
Proof.
  intros H. unfold calculate. apply round1_mono.
  apply Qmult_le_compat_r; [|discriminate].
  apply weight_loop_mono; [apply step_weights_nonneg | exact H].
Qed.

Lemma clamp_0_100_mono (p q : Q) : p <= q -> clamp_0_100 p <= clamp_0_100 q.
Proof.
  intros H. unfold clamp_0_100, pymax, pymin.
  destruct (Qlt_le_dec p 100), (Qlt_le_dec q 100);
    repeat match goal with
           | |- context [Qlt_le_dec ?a ?b] => destruct (Qlt_le_dec a b)
           end; lra.
Qed.

Lemma clamp_0_100_high (p : Q) : 100 <= p -> clamp_0_100 p = 100.
Proof.
  intros H. unfold clamp_0_100, pymax, pymin.
  destruct (Qlt_le_dec p 100); [exfalso; lra|].
  destruct (Qlt_le_dec 0 100) as [_|H']; [reflexivity | exfalso; lra].
Qed.

Lemma clamp_0_100_low (p : Q) : p <= 0 -> clamp_0_100 p = 0.
Proof.
  intros H. unfold clamp_0_100, pymax, pymin.
  destruct (Qlt_le_dec p 100); [|exfalso; lra].
  destruct (Qlt_le_dec 0 p); [exfalso; lra | reflexivity].
Qed.

(** X1.  Within a phase a larger phase-local progress never gives a
    smaller overall progress, for [update_step_progress] as for
    [update_step] into any phase. *)
Theorem X1_progress_monotone_within_phase
    (t : ProgressTracker) (s : AnalysisStep) (p q now : Q) :
  p <= q ->
  overall_progress (update_step_progress t p)
  <= overall_progress (update_step_progress t q) /\
  overall_progress (update_step t s p now)
  <= overall_progress (update_step t s q now).
Proof.
  intros H. split; cbn; unfold _calculate_overall_progress; cbn;
    apply calculate_mono, clamp_0_100_mono, H.
Qed.

(** From 30 to 70 inside the separation phase: 7.5 and 17.5. *)
Lemma X1_progress_monotone_within_phase_witness :
  let t := update_step (init "job" 0) AUDIO_SEPARATION 0 0 in
  30 <= 70 /\
  overall_progress (update_step_progress t 30) == 15 # 2 /\
  overall_progress (update_step_progress t 70) == 35 # 2 /\
  overall_progress (update_step_progress t 30)
  <= overall_progress (update_step_progress t 70).
Proof.
  cbn zeta.
  assert (H : 30 <= 70) by discriminate.
  split; [exact H|]. split; [reflexivity|]. split; [reflexivity|].
  exact (proj1 (X1_progress_monotone_within_phase
                  (update_step (init "job" 0) AUDIO_SEPARATION 0 0)
                  INITIALIZING 30 70 0 H)).
Defined.

(** X2.  The overall progress of a reachable tracker is never negative
    and never above 140; outside [COMPLETED] it is at most 80. *)
Theorem X2_overall_progress_bounds (t : ProgressTracker) :
  reachable t ->
  0 <= overall_progress t /\
  overall_progress t <= 140 /\
  (current_step t <> COMPLETED -> overall_progress t <= 80).
Proof.
  intros Hr.
  destruct (TrackerFacts.reachable_inv t Hr) as (Hov & H0 & H100).
  pose proof (calculate_mono (current_step t) _ _ H0) as Hlo.
  pose proof (calculate_mono (current_step t) _ _ H100) as Hhi.
  rewrite Hov.
  assert (L : 0 <= calculate (current_step t) 0)
    by (destruct (current_step t); vm_compute; discriminate).
  assert (U : calculate (current_step t) 100 <= 140)
    by (destruct (current_step t); vm_compute; discriminate).
  split; [lra|]. split; [lra|].
  intros Hnc.
  assert (U' : calculate (current_step t) 100 <= 80)
    by (destruct (current_step t); try (vm_compute; discriminate);
        contradiction).
  lra.
Qed.

(** Both bounds are reached: 80 at the end of segment analysis, 140 on
    completion. *)
Lemma X2_overall_progress_bounds_witness :
  let t := update_step (init "job" 0) SEGMENT_ANALYSIS 100 0 in
  reachable t /\
  current_step t <> COMPLETED /\
  overall_progress t == 80 /\
  overall_progress (complete t 0) == 140 /\
  overall_progress t <= 80.
Proof.
  cbn zeta.
  assert (Hr : reachable (update_step (init "job" 0) SEGMENT_ANALYSIS 100 0))
    by apply TrackerFacts.reachable_after_update.
  split; [exact Hr|]. split; [discriminate|].
  split; [reflexivity|]. split; [reflexivity|].
  destruct (X2_overall_progress_bounds _ Hr) as (_ & _ & H).
  apply H. discriminate.
Defined.

(** X3.  A phase-local progress of 100 or more counts as 100 and one of 0
    or less as 0: the tracker ends in the very state the boundary value
    gives. *)
Theorem X3_progress_out_of_range_is_clamped
    (t : ProgressTracker) (s : AnalysisStep) (p now : Q) :
  (100 <= p ->
   update_step_progress t p = update_step_progress t 100 /\
   update_step t s p now = update_step t s 100 now) /\
  (p <= 0 ->
   update_step_progress t p = update_step_progress t 0 /\
   update_step t s p now = update_step t s 0 now).
Proof.
  split; intros H.
  - unfold update_step_progress, update_step.
    rewrite (clamp_0_100_high p H), (clamp_0_100_high 100); [split; reflexivity|].
    apply Qle_refl.
  - unfold update_step_progress, update_step.
    rewrite (clamp_0_100_low p H), (clamp_0_100_low 0); [split; reflexivity|].
    apply Qle_refl.
Qed.

(** A progress of 250 and one of -5. *)
Lemma X3_progress_out_of_range_is_clamped_witness :
  let t := update_step (init "job" 0) LOADING_MODEL 0 0 in
  100 <= 250 /\ (-5) <= 0 /\
  update_step_progress t 250 = update_step_progress t 100 /\
  update_step_progress t (-5) = update_step_progress t 0 /\
  overall_progress (update_step_progress t 250) == 17.
Proof.
  cbn zeta.
  assert (H1 : 100 <= 250) by discriminate.
  assert (H2 : (-5) <= 0) by discriminate.
  destruct (X3_progress_out_of_range_is_clamped
              (update_step (init "job" 0) LOADING_MODEL 0 0)
              INITIALIZING 250 0) as [Hhi _].
  destruct (X3_progress_out_of_range_is_clamped
              (update_step (init "job" 0) LOADING_MODEL 0 0)
              INITIALIZING (-5) 0) as [_ Hlo].
  split; [exact H1|]. split; [exact H2|].
  split; [exact (proj1 (Hhi H1))|]. split; [exact (proj1 (Hlo H2))|].
  reflexivity.
Defined.

End TrackerMore.

(* ===================================================================== *)
(** ** The tracker registry and its endpoints *)
(* ===================================================================== *)

Module RegistryFacts.
Import Py Tracker Registry ProgressApi.

Lemma remove_tracker_snd (rid : string) (reg : trackers) :
  snd (remove_tracker rid reg) = delete rid reg.
Proof.
  unfold remove_tracker. destruct (reg !! rid) eqn:E; cbn; [reflexivity|].
  symmetry. apply delete_id. exact E.
Qed.

(** Removing a list of ids one after the other. *)
Lemma remove_all_lookup (ids : list string) :
  forall (reg : trackers) (k : string),
    fold_left (fun r rid => snd (remove_tracker rid r)) ids reg !! k
    = if bool_decide (k ∈ ids) then None else reg !! k.
Proof.
  induction ids as [|a ids IH]; intros reg k; cbn [fold_left].
  - rewrite bool_decide_eq_false_2 by apply not_elem_of_nil. reflexivity.
  - rewrite IH, remove_tracker_snd.
    destruct (bool_decide (k ∈ ids)) eqn:E.
    + apply bool_decide_eq_true in E.
      rewrite bool_decide_eq_true_2 by (apply elem_of_cons; tauto).
      reflexivity.
    + apply bool_decide_eq_false in E.
      destruct (decide (a = k)) as [->|Hne].
      * rewrite bool_decide_eq_true_2 by (apply elem_of_cons; tauto).
        apply lookup_delete_eq.
      * rewrite bool_decide_eq_false_2
          by (rewrite elem_of_cons; intros [->|?]; tauto).
        apply lookup_delete_ne. exact Hne.
Qed.

Lemma remove_all_size (ids : list string) :
  forall reg : trackers,
    NoDup ids ->
    (forall k, k ∈ ids -> is_Some (reg !! k)) ->
    (length ids
     + size (fold_left (fun r rid => snd (remove_tracker rid r)) ids reg)
     = size reg)%nat.
Proof.
  induction ids as [|a ids IH]; intros reg Hnd Hin; cbn [fold_left length].
  - reflexivity.
  - apply NoDup_cons in Hnd. destruct Hnd as [Ha Hnd'].
    rewrite remove_tracker_snd.
    assert (Hsome : is_Some (reg !! a)) by (apply Hin, elem_of_cons; tauto).
    assert (size reg <> 0%nat).
    { apply map_size_non_empty_iff. intros ->.
      destruct Hsome as [x Hx]. rewrite lookup_empty in Hx. discriminate. }
    pose proof (map_size_delete_Some a reg Hsome) as Hsz.
    pose proof (IH (delete a reg) Hnd') as IH'.
    cbn in IH'.
    cut (length ids
         + size (fold_left (fun r rid => snd (remove_tracker rid r)) ids
                   (delete a reg)) = size (delete a reg))%nat; [lia|].
    apply IH'. intros k Hk.
    rewrite lookup_delete_ne; [apply Hin, elem_of_cons; tauto|].
    intros ->. contradiction.
Qed.

(** The ids picked by a test on the entries of a map: each names an entry
    that passes the test, and none is listed twice. *)
Lemma picked_ids_spec {A} (P : A -> bool) (m : gmap string A) (k : string) :
  k ∈ map fst (filter (fun it => P (snd it) = true) (map_to_list m))
  <-> exists x, m !! k = Some x /\ P x = true.
Proof.
  rewrite list_elem_of_In, in_map_iff. split.
  - intros [[k' x] [<- Hin]]. apply list_elem_of_In in Hin.
    apply list_elem_of_filter in Hin. destruct Hin as [HP Hin].
    apply elem_of_map_to_list in Hin. exists x. split; assumption.
  - intros [x [Hk HP]]. exists (k, x). split; [reflexivity|].
    apply list_elem_of_In, list_elem_of_filter. split; [exact HP|].
    apply elem_of_map_to_list. exact Hk.
Qed.

Lemma picked_ids_NoDup {A} (P : A -> bool) (m : gmap string A) :
  NoDup (map fst (filter (fun it => P (snd it) = true) (map_to_list m))).
Proof.
  pose proof (NoDup_fst_map_to_list m) as Hnd.
  assert (Hsub : sublist
                   (fst <$> filter (fun it => P (snd it) = true) (map_to_list m))
                   (fst <$> map_to_list m))
    by (apply fmap_sublist, sublist_filter).
  eapply sublist_NoDup; eassumption.
Qed.

(** X4.  Registering, looking up and clearing a tracker.  A new tracker
    is found under its id and replaces an older one of the same id.
    Clearing a registered id succeeds once: afterwards the progress
    endpoint and a second clearing both answer 404, and no other id is
    affected. *)
Theorem X4_clear_progress_once
    (rid : string) (now now' : Q) (reg : trackers) (t : ProgressTracker) :
  reg !! rid = Some t ->
  let o := clear_progress rid reg in
  get_analysis_progress rid now now' reg = Ok (get_status t now now') /\
  fst o = Ok tt /\
  get_analysis_progress rid now now' (snd o)
  = Raise (HTTPException 404
             (Lit "进度信息不存在，请求ID可能无效或已过期")) /\
  clear_progress rid (snd o)
  = (Raise (HTTPException 404 (Lit ("进度信息不存在: " ++ rid))), snd o) /\
  (forall rid', rid' <> rid ->
     get_tracker rid' (snd o) = get_tracker rid' reg) /\
  get_tracker rid (snd (create rid now reg)) = Some (init rid now).
Proof.
  intros Hreg. cbn zeta.
  unfold clear_progress, get_analysis_progress, remove_tracker, get_tracker,
    create.
  rewrite Hreg. cbn. rewrite lookup_delete_eq. cbn.
  repeat split.
  - intros rid' Hne. apply lookup_delete_ne. congruence.
  - apply lookup_insert_eq.
Qed.

(** Clearing one of three registered trackers. *)
Lemma X4_clear_progress_once_witness :
  let o := clear_progress "edge" MoreSamples.sample_trackers in
  MoreSamples.sample_trackers !! "edge" = Some (init "edge" 3600) /\
  fst o = Ok tt /\
  size (snd o) = 2%nat /\
  fst (clear_progress "edge" (snd o))
  = Raise (HTTPException 404 (Lit "进度信息不存在: edge")).
Proof.
  cbn zeta.
  assert (H : MoreSamples.sample_trackers !! "edge" = Some (init "edge" 3600))
    by (vm_compute; reflexivity).
  destruct (X4_clear_progress_once "edge" 0 0 MoreSamples.sample_trackers _ H)
    as (_ & H1 & _ & H2 & _).
  split; [exact H|]. split; [exact H1|].
  split; [vm_compute; reflexivity|].
  rewrite H2. reflexivity.
Defined.

(** Expiry of trackers, as the cleanup endpoint applies it. *)
Lemma cleanup_expired_spec (max_age_hours : Z) (current_time : Q)
    (reg : trackers) :
  let o := cleanup_expired max_age_hours current_time reg in
  (fst o + size (snd o) = size reg)%nat /\
  (forall rid,
     snd o !! rid
     = match reg !! rid with
       | Some t => if expired max_age_hours current_time t then None
                   else Some t
       | None => None
       end).
Proof.
  cbn zeta. unfold cleanup_expired, expired_ids. cbn [fst snd]. split.
  - apply remove_all_size.
    + apply (picked_ids_NoDup (expired max_age_hours current_time)).
    + intros k Hk.
      apply (picked_ids_spec (expired max_age_hours current_time)) in Hk.
      destruct Hk as [x [Hx _]]. exists x. exact Hx.
  - intros rid. rewrite remove_all_lookup.
    destruct (bool_decide _) eqn:E.
    + apply bool_decide_eq_true in E.
      apply (picked_ids_spec (expired max_age_hours current_time)) in E.
      destruct E as [x [Hx HP]]. rewrite Hx, HP. reflexivity.
    + apply bool_decide_eq_false in E.
      destruct (reg !! rid) as [t|] eqn:Hr; [|reflexivity].
      destruct (expired max_age_hours current_time t) eqn:HP; [|reflexivity].
      exfalso. apply E.
      apply (picked_ids_spec (expired max_age_hours current_time)).
      exists t. split; assumption.
Qed.

(** X5.  The cleanup endpoint refuses a maximal age outside 1..168 hours
    with a 400 and leaves the registry alone.  Inside the range it
    answers the number of trackers removed, which with the number left
    makes the number before; a tracker is removed exactly when its age
    in hours is strictly above the maximal age, and the others stay as
    they are. *)
Theorem X5_cleanup_expired_progress
    (max_age_hours : Z) (current_time : Q) (reg : trackers) :
  let o := cleanup_expired_progress max_age_hours current_time reg in
  (max_age_hours <= 0 \/ 168 < max_age_hours ->
   (exists d, fst o = Raise (HTTPException 400 d)) /\ snd o = reg) /\
  (0 < max_age_hours <= 168 ->
   exists n : nat,
     fst o = Ok n /\
     (n + size (snd o) = size reg)%nat /\
     forall rid,
       snd o !! rid
       = match reg !! rid with
         | Some t =>
             if Qlt_le_dec (inject_Z max_age_hours)
                  ((current_time - start_time t) / 3600)
             then None else Some t
         | None => None
         end).
Proof.
  cbn zeta. unfold cleanup_expired_progress. split.
  - intros Hout.
    destruct (Z.leb_spec max_age_hours 0); [split; [eexists|]; reflexivity|].
    destruct (Z.ltb_spec 168 max_age_hours); [split; [eexists|]; reflexivity|].
    lia.
  - intros [H1 H2].
    destruct (Z.leb_spec max_age_hours 0); [lia|].
    destruct (Z.ltb_spec 168 max_age_hours); [lia|].
    pose proof (cleanup_expired_spec max_age_hours current_time reg) as Hs.
    cbn zeta in Hs.
    destruct (cleanup_expired max_age_hours current_time reg) as [n reg'].
    cbn [fst snd] in *. destruct Hs as [Hsz Hl].
    exists n. split; [reflexivity|]. split; [exact Hsz|].
    intros rid. rewrite Hl. destruct (reg !! rid) as [t|]; [|reflexivity].
    unfold expired. destruct (Qlt_le_dec _ _); reflexivity.
Qed.

(** With a maximal age of one hour at time 7200: the tracker started at 0
    goes, the one aged exactly one hour and the new one stay; a maximal
    age of 0 is refused. *)
Lemma X5_cleanup_expired_progress_witness :
  let o := cleanup_expired_progress 1 7200 MoreSamples.sample_trackers in
  0 < 1 <= 168 /\ (0 <= 0 \/ 168 < 0) /\
  fst o = Ok 1%nat /\
  snd o !! "early" = None /\
  snd o !! "edge" = Some (init "edge" 3600) /\
  snd o !! "late" = Some (init "late" 7200) /\
  snd (cleanup_expired_progress 0 7200 MoreSamples.sample_trackers)
  = MoreSamples.sample_trackers.
Proof.
  cbn zeta.
  assert (Hin : 0 < 1 <= 168) by lia.
  assert (Hout : 0 <= 0 \/ 168 < 0) by (left; lia).
  destruct (X5_cleanup_expired_progress 1 7200 MoreSamples.sample_trackers)
    as [_ Hok].
  destruct (X5_cleanup_expired_progress 0 7200 MoreSamples.sample_trackers)
    as [Hbad _].
  destruct (Hok Hin) as (n & Hn & Hsz & Hl).
  split; [exact Hin|]. split; [exact Hout|].
  split; [vm_compute; reflexivity|].
  split; [rewrite Hl; vm_compute; reflexivity|].
  split; [rewrite Hl; vm_compute; reflexivity|].
  split; [rewrite Hl; vm_compute; reflexivity|].
  exact (proj2 (Hbad Hout)).
Defined.

(** *** The summary *)

Lemma summary_counts (ts : list ProgressTracker) :
  forall (acc : gmap string nat * Q) (k : string),
    default 0%nat (fst (fold_left summary_step ts acc) !! k)
    = (default 0%nat (fst acc !! k) + in_step k ts)%nat.
Proof.
  induction ts as [|t ts IH]; intros acc k; cbn [fold_left].
  - unfold in_step. cbn. lia.
  - rewrite IH. unfold summary_step. cbn [fst].
    unfold in_step. cbn [List.filter].
    destruct (String.eqb_spec (value (current_step t)) k) as [->|Hne].
    + rewrite lookup_insert_eq. cbn. lia.
    + rewrite lookup_insert_ne by exact Hne. cbn. lia.
Qed.

Lemma in_step_total (ts : list ProgressTracker) :
  fold_right (fun s acc => (in_step (value s) ts + acc)%nat) 0%nat members
  = length ts.
Proof.
  induction ts as [|t ts IH]; [reflexivity|].
  cbn [length]. rewrite <- IH. clear IH.
  destruct t as [rid st cur sp ov sst]. unfold in_step.
  destruct cur; cbn; lia.
Qed.

(** X6.  The summary counts every registered tracker once: the total is
    the size of the registry, the count listed for a step is the number
    of trackers in that step, and the counts of the ten steps add up to
    the total.  For an empty registry it is all zeros. *)
Theorem X6_progress_summary_counts (reg : trackers) :
  let s := get_progress_summary reg in
  total_active s = size reg /\
  (forall k : string,
     default 0%nat (by_step s !! k)
     = in_step k (map snd (map_to_list reg))) /\
  fold_right (fun st acc => (default 0%nat (by_step s !! value st) + acc)%nat)
    0%nat members = size reg /\
  get_progress_summary ∅
  = {| total_active := 0; by_step := ∅; average_progress := 0 |}.
Proof.
  cbn zeta.
  assert (Hcount : forall k : string,
            default 0%nat (by_step (get_progress_summary reg) !! k)
            = in_step k (map snd (map_to_list reg))).
  { intros k. unfold get_progress_summary.
    destruct (Nat.eqb_spec (size reg) 0) as [Hz|Hnz].
    - apply map_size_empty_inv in Hz. subst reg.
      rewrite map_to_list_empty. reflexivity.
    - pose proof (summary_counts (map snd (map_to_list reg)) (∅, 0%Q) k) as H.
      destruct (fold_left summary_step _ _) as [counts tot].
      cbn [fst by_step] in *. rewrite H, lookup_empty. reflexivity. }
  split; [|split; [exact Hcount | split; [|reflexivity]]].
  - unfold get_progress_summary.
    destruct (Nat.eqb_spec (size reg) 0) as [Hz|Hnz]; [cbn; lia|].
    destruct (fold_left summary_step _ _). reflexivity.
  - rewrite <- (length_map_to_list reg),
      <- (length_map snd (map_to_list reg)),
      <- (in_step_total (map snd (map_to_list reg))).
    clear -Hcount.
    induction members as [|st l IH]; [reflexivity|].
    cbn [fold_right]. rewrite Hcount, IH. reflexivity.
Qed.

End RegistryFacts.

(* ===================================================================== *)
(** ** Temp storage: release, bulk cleanup, expiry *)
(* ===================================================================== *)

Module TempFilesFacts.
Import Py TempFiles TempFilesOps StorageApi.

Lemma handler_eq (h1 h2 : MemoryFileHandler) :
  temp_files h1 = temp_files h2 -> h1 = h2.
Proof. destruct h1, h2. cbn. intros ->. reflexivity. Qed.

(** What one [cleanup_file] does, seen through lookups and the count. *)
Lemma cleanup_file_lookup (fs_ok : string -> bool) (h : MemoryFileHandler)
    (fid k : string) :
  temp_files (snd (cleanup_file fs_ok h fid)) !! k
  = if bool_decide (k = fid) && fs_ok k then None else temp_files h !! k.
Proof.
  unfold cleanup_file.
  destruct (bool_decide (k = fid)) eqn:E.
  - apply bool_decide_eq_true in E. subst k. cbn [andb].
    destruct (temp_files h !! fid) eqn:Hl; cbn.
    + destruct (fs_ok fid); cbn; [apply lookup_delete_eq | exact Hl].
    + rewrite Hl. destruct (fs_ok fid); reflexivity.
  - apply bool_decide_eq_false in E. cbn [andb].
    destruct (temp_files h !! fid); [|reflexivity].
    destruct (fs_ok fid); cbn; [|reflexivity].
    apply lookup_delete_ne. congruence.
Qed.

Lemma cleanup_file_count (fs_ok : string -> bool) (h : MemoryFileHandler)
    (fid : string) :
  ((if fst (cleanup_file fs_ok h fid) then 1 else 0)
   + get_file_count (snd (cleanup_file fs_ok h fid))
   = get_file_count h)%nat.
Proof.
  unfold cleanup_file, get_file_count.
  destruct (temp_files h !! fid) eqn:Hl; [|reflexivity].
  destruct (fs_ok fid); [|reflexivity]. cbn.
  assert (Hs : is_Some (temp_files h !! fid)) by (rewrite Hl; eauto).
  rewrite (map_size_delete_Some _ _ Hs).
  assert (size (temp_files h) <> 0%nat).
  { apply map_size_non_empty_iff. intros He. rewrite He, lookup_empty in Hl.
    discriminate. }
  lia.
Qed.

Lemma cleanup_each_lookup (fs_ok : string -> bool) (ids : list string) :
  forall (h : MemoryFileHandler) (c : nat) (k : string),
    temp_files (snd (cleanup_each fs_ok ids h c)) !! k
    = if bool_decide (k ∈ ids) && fs_ok k then None else temp_files h !! k.
Proof.
  induction ids as [|a ids IH]; intros h c k; cbn [cleanup_each].
  - rewrite bool_decide_eq_false_2 by apply not_elem_of_nil. reflexivity.
  - pose proof (cleanup_file_lookup fs_ok h a k) as Hone.
    destruct (cleanup_file fs_ok h a) as [b h']. cbn [snd] in Hone.
    rewrite IH, Hone.
    destruct (bool_decide (k ∈ ids)) eqn:E1;
      destruct (bool_decide (k = a)) eqn:E2;
      [ apply bool_decide_eq_true in E1, E2
      | apply bool_decide_eq_true in E1; apply bool_decide_eq_false in E2
      | apply bool_decide_eq_false in E1; apply bool_decide_eq_true in E2
      | apply bool_decide_eq_false in E1, E2 ].
    + rewrite bool_decide_eq_true_2 by (apply elem_of_cons; tauto).
      cbn. destruct (fs_ok k); reflexivity.
    + rewrite bool_decide_eq_true_2 by (apply elem_of_cons; tauto).
      cbn. destruct (fs_ok k); reflexivity.
    + rewrite bool_decide_eq_true_2 by (apply elem_of_cons; tauto).
      cbn. destruct (fs_ok k); reflexivity.
    + rewrite bool_decide_eq_false_2 by (rewrite elem_of_cons; tauto).
      reflexivity.
Qed.

Lemma cleanup_each_count (fs_ok : string -> bool) (ids : list string) :
  forall (h : MemoryFileHandler) (c : nat),
    (fst (cleanup_each fs_ok ids h c)
     + get_file_count (snd (cleanup_each fs_ok ids h c))
     = c + get_file_count h)%nat.
Proof.
  induction ids as [|a ids IH]; intros h c; cbn [cleanup_each].
  - reflexivity.
  - pose proof (cleanup_file_count fs_ok h a) as Hone.
    destruct (cleanup_file fs_ok h a) as [b h']. cbn [fst snd] in Hone.
    rewrite IH. destruct b; lia.
Qed.

(** X7.  Releasing is safe to repeat.  When a release succeeds the handle
    is gone and the count is one less; a second release of the same
    handle answers false and changes nothing.  A release that answers
    false, as for an unknown handle, leaves the handler as it was. *)
Theorem X7_double_release_is_safe
    (fs_ok : string -> bool) (h : MemoryFileHandler) (fid : string) :
  let o1 := cleanup_file fs_ok h fid in
  let o2 := cleanup_file fs_ok (snd o1) fid in
  (fst o1 = true ->
   temp_files (snd o1) !! fid = None /\
   (get_file_count (snd o1) + 1 = get_file_count h)%nat /\
   o2 = (false, snd o1)) /\
  (fst o1 = false -> snd o1 = h) /\
  (temp_files h !! fid = None -> o1 = (false, h)).
Proof.
  cbn zeta. split; [|split].
  - intros Ht.
    pose proof (cleanup_file_count fs_ok h fid) as Hc. rewrite Ht in Hc.
    assert (Hgone : temp_files (snd (cleanup_file fs_ok h fid)) !! fid = None).
    { revert Ht. unfold cleanup_file.
      destruct (temp_files h !! fid); [|discriminate].
      destruct (fs_ok fid); [|discriminate].
      intros _. apply lookup_delete_eq. }
    split; [exact Hgone|]. split; [lia|].
    unfold cleanup_file at 1. rewrite Hgone. reflexivity.
  - unfold cleanup_file. destruct (temp_files h !! fid); [|reflexivity].
    destruct (fs_ok fid); [discriminate | reflexivity].
  - intros Hn. unfold cleanup_file. rewrite Hn. reflexivity.
Qed.

(** Releasing the older of two files twice. *)
Lemma X7_double_release_is_safe_witness :
  let o1 := cleanup_file Samples.removal_ok MoreSamples.sample_store "f-old" in
  let o2 := cleanup_file Samples.removal_ok (snd o1) "f-old" in
  fst o1 = true /\
  get_file_count (snd o1) = 1%nat /\
  o2 = (false, snd o1).
Proof.
  cbn zeta.
  assert (H : fst (cleanup_file Samples.removal_ok MoreSamples.sample_store
                     "f-old") = true) by (vm_compute; reflexivity).
  destruct (X7_double_release_is_safe Samples.removal_ok
              MoreSamples.sample_store "f-old") as (Hfirst & _ & _).
  destruct (Hfirst H) as (_ & Hc & H2).
  assert (H0 : get_file_count MoreSamples.sample_store = 2%nat)
    by (vm_compute; reflexivity).
  rewrite H0 in Hc.
  split; [exact H|]. split; [lia | exact H2].
Defined.

Lemma cleanup_all_spec
    (fs_ok : string -> bool) (h : MemoryFileHandler) :
  let o := cleanup_all fs_ok h in
  (fst o + get_file_count (snd o) = get_file_count h)%nat /\
  (forall k : string,
     temp_files (snd o) !! k = if fs_ok k then None else temp_files h !! k) /\
  ((forall k, fs_ok k = true) ->
   snd o = {| temp_files := ∅ |} /\ fst o = get_file_count h).
Proof.
  cbn zeta. unfold cleanup_all.
  pose proof (cleanup_each_count fs_ok
                (map fst (map_to_list (temp_files h))) h 0) as Hc.
  assert (Hl : forall k : string,
            temp_files (snd (cleanup_each fs_ok
                               (map fst (map_to_list (temp_files h))) h 0))
              !! k
            = if fs_ok k then None else temp_files h !! k).
  { intros k. rewrite cleanup_each_lookup.
    destruct (bool_decide _) eqn:E; [reflexivity|].
    apply bool_decide_eq_false in E. cbn [andb].
    destruct (temp_files h !! k) as [x|] eqn:Hk;
      [|destruct (fs_ok k); reflexivity].
    exfalso. apply E. apply list_elem_of_In, in_map_iff.
    exists (k, x). split; [reflexivity|].
    apply list_elem_of_In, elem_of_map_to_list. exact Hk. }
  split; [lia|]. split; [exact Hl|].
  intros Hall.
  assert (He : snd (cleanup_each fs_ok
                      (map fst (map_to_list (temp_files h))) h 0)
               = {| temp_files := ∅ |}).
  { apply handler_eq. apply map_eq. intros k. rewrite Hl, Hall.
    cbn. rewrite lookup_empty. reflexivity. }
  split; [exact He|].
  rewrite He in Hc. unfold get_file_count in Hc at 1. cbn in Hc.
  rewrite map_size_empty in Hc. lia.
Qed.

(** X8.  [cleanup_all] answers the number of handles it released; with
    the number left this makes the number before.  The handles left are
    exactly those whose removal fails, so when every removal goes through
    the store ends empty and the answer is the old count. *)
Theorem X8_cleanup_all_accounting
    (fs_ok : string -> bool) (h : MemoryFileHandler) :
  let o := cleanup_all fs_ok h in
  (fst o + get_file_count (snd o) = get_file_count h)%nat /\
  (forall k : string,
     temp_files (snd o) !! k = if fs_ok k then None else temp_files h !! k) /\
  ((forall k, fs_ok k = true) ->
   snd o = {| temp_files := ∅ |} /\ fst o = get_file_count h).
Proof. exact (cleanup_all_spec fs_ok h). Qed.

(** With the removal of one of two files failing, one is released and the
    other stays. *)
Lemma X8_cleanup_all_accounting_witness :
  let o := cleanup_all (MoreSamples.stuck_on "f-old") MoreSamples.sample_store in
  fst o = 1%nat /\
  get_file_count (snd o) = 1%nat /\
  temp_files (snd o) !! "f-new" = None /\
  is_Some (temp_files (snd o) !! "f-old") /\
  snd (cleanup_all Samples.removal_ok MoreSamples.sample_store)
  = {| temp_files := ∅ |}.
Proof.
  cbn zeta.
  destruct (X8_cleanup_all_accounting (MoreSamples.stuck_on "f-old")
              MoreSamples.sample_store) as (Hc & Hl & _).
  destruct (X8_cleanup_all_accounting Samples.removal_ok
              MoreSamples.sample_store) as (_ & _ & Hall).
  assert (Hnew : temp_files
                   (snd (cleanup_all (MoreSamples.stuck_on "f-old")
                           MoreSamples.sample_store)) !! "f-new" = None)
    by (rewrite Hl; reflexivity).
  assert (Hold : is_Some
                   (temp_files
                      (snd (cleanup_all (MoreSamples.stuck_on "f-old")
                              MoreSamples.sample_store)) !! "f-old"))
    by (rewrite Hl; vm_compute; eauto).
  assert (H1 : fst (cleanup_all (MoreSamples.stuck_on "f-old")
                      MoreSamples.sample_store) = 1%nat)
    by (vm_compute; reflexivity).
  rewrite H1 in Hc.
  assert (H2 : get_file_count MoreSamples.sample_store = 2%nat)
    by (vm_compute; reflexivity).
  rewrite H2 in Hc.
  split; [exact H1|]. split; [lia|]. split; [exact Hnew|].
  split; [exact Hold|]. apply Hall. reflexivity.
Defined.

(** X9.  The cleanup endpoint answers the number of handles its first
    pass released; with the handles left this makes the number before.
    What is left after the endpoint is exactly what cannot be removed:
    the second pass it runs changes nothing. *)
Theorem X9_cleanup_temp_files_endpoint
    (fs_ok : string -> bool) (current_time : Q) (h : MemoryFileHandler) :
  let o := cleanup_temp_files fs_ok current_time h in
  exists n : nat,
    fst o = Ok n /\
    (n + get_file_count (snd o) = get_file_count h)%nat /\
    snd o = snd (cleanup_all fs_ok h) /\
    forall k : string,
      temp_files (snd o) !! k = if fs_ok k then None else temp_files h !! k.
Proof.
  cbn zeta. unfold cleanup_temp_files.
  destruct (cleanup_all_spec fs_ok h) as (Hc & Hl & _).
  destruct (cleanup_all fs_ok h) as [n h1]. cbn [fst snd] in *.
  assert (Hsame : schedule_cleanup fs_ok current_time h1 = h1).
  { apply handler_eq, map_eq. intros k. unfold schedule_cleanup.
    destruct (cleanup_all_spec fs_ok
                (cleanup_expired_files fs_ok 30 current_time h1))
      as (_ & Hl2 & _).
    rewrite Hl2. unfold cleanup_expired_files.
    rewrite cleanup_each_lookup, Hl.
    destruct (fs_ok k); [reflexivity|].
    rewrite andb_false_r. reflexivity. }
  rewrite Hsame. exists n. repeat split; assumption.
Qed.

(** X10.  The expiry endpoint refuses a maximal age outside 1..1440
    minutes with a 400 and touches nothing.  Inside the range it reports
    the counts before and after and their difference; a handle is gone
    afterwards exactly when it was older than the maximal age and its
    removal went through, every other handle is kept as it was. *)
Theorem X10_cleanup_expired_temp_files
    (fs_ok : string -> bool) (max_age_minutes : Z) (current_time : Q)
    (h : MemoryFileHandler) :
  let o := cleanup_expired_temp_files fs_ok max_age_minutes current_time h in
  (max_age_minutes <= 0 \/ 1440 < max_age_minutes ->
   (exists d, fst o = Raise (HTTPException 400 d)) /\ snd o = h) /\
  (0 < max_age_minutes <= 1440 ->
   (exists r : expired_report,
      fst o = Ok r /\
      before_count r = get_file_count h /\
      after_count r = get_file_count (snd o) /\
      (cleaned_count r + after_count r = before_count r)%nat) /\
   forall k : string,
     temp_files (snd o) !! k
     = match temp_files h !! k with
       | Some info =>
           if too_old max_age_minutes current_time info && fs_ok k
           then None else Some info
       | None => None
       end).
Proof.
  cbn zeta. unfold cleanup_expired_temp_files. split.
  - intros Hout.
    destruct (Z.leb_spec max_age_minutes 0); [split; [eexists|]; reflexivity|].
    destruct (Z.ltb_spec 1440 max_age_minutes);
      [split; [eexists|]; reflexivity|].
    lia.
  - intros [H1 H2].
    destruct (Z.leb_spec max_age_minutes 0); [lia|].
    destruct (Z.ltb_spec 1440 max_age_minutes); [lia|].
    cbn [fst snd]. unfold cleanup_expired_files.
    pose proof (cleanup_each_count fs_ok
                  (expired_files max_age_minutes current_time h) h 0) as Hc.
    split.
    + eexists. split; [reflexivity|]. cbn. repeat split. lia.
    + intros k. rewrite cleanup_each_lookup.
      destruct (bool_decide _) eqn:E.
      * apply bool_decide_eq_true in E.
        apply (RegistryFacts.picked_ids_spec
                 (too_old max_age_minutes current_time)) in E.
        destruct E as [x [Hx HP]]. rewrite Hx, HP. cbn.
        destruct (fs_ok k); reflexivity.
      * apply bool_decide_eq_false in E. cbn [andb].
        destruct (temp_files h !! k) as [info|] eqn:Hk; [|reflexivity].
        destruct (too_old max_age_minutes current_time info) eqn:HP;
          [|reflexivity].
        exfalso. apply E.
        apply (RegistryFacts.picked_ids_spec
                 (too_old max_age_minutes current_time)).
        exists info. split; assumption.
Qed.

(** With a maximal age of 30 minutes at time 3000: the file saved at 0 is
    50 minutes old and goes, the file saved at 3000 stays. *)
Lemma X10_cleanup_expired_temp_files_witness :
  let o := cleanup_expired_temp_files Samples.removal_ok 30 3000
             MoreSamples.sample_store in
  0 < 30 <= 1440 /\ (1441 <= 0 \/ 1440 < 1441) /\
  temp_files (snd o) !! "f-old" = None /\
  is_Some (temp_files (snd o) !! "f-new") /\
  (exists r, fst o = Ok r /\ cleaned_count r = 1%nat) /\
  snd (cleanup_expired_temp_files Samples.removal_ok 1441 3000
         MoreSamples.sample_store) = MoreSamples.sample_store.
Proof.
  cbn zeta.
  assert (Hin : 0 < 30 <= 1440) by lia.
  assert (Hout : 1441 <= 0 \/ 1440 < 1441) by (right; lia).
  destruct (X10_cleanup_expired_temp_files Samples.removal_ok 30 3000
              MoreSamples.sample_store) as [_ Hok].
  destruct (X10_cleanup_expired_temp_files Samples.removal_ok 1441 3000
              MoreSamples.sample_store) as [Hbad _].
  destruct (Hok Hin) as [_ Hl].
  split; [exact Hin|]. split; [exact Hout|].
  split; [rewrite Hl; vm_compute; reflexivity|].
  split; [rewrite Hl; vm_compute; eauto|].
  split; [eexists; split; vm_compute; reflexivity|].
  exact (proj2 (Hbad Hout)).
Defined.

End TempFilesFacts.

(* ===================================================================== *)
(** ** Single-job endpoints: every path, deletion, results *)
(* ===================================================================== *)

Module JobMore.
Import Py TempFiles Service.

Local Arguments truthy : simpl never.

(** X11.  A timeout outside 1..600 is refused with a 400 before anything
    else happens: the file is neither validated nor saved, and no cleanup
    is attempted. *)
Theorem X11_sync_timeout_out_of_range
    (fs_ok : string -> bool) (rid : string) (timeout : Z)
    (validation : bool * string) (save : save_outcome) (run : engine_run)
    (h : MemoryFileHandler) :
  timeout <= 0 \/ 600 < timeout ->
  Sync.analyze_audio_sync fs_ok rid timeout validation save run (Sync.enter h)
  = (Raise (HTTPException 400 (Lit "timeout 必须在 1-600 秒之间")),
     Sync.enter h).
Proof.
  intros Hout.
  assert (Hb : (timeout <=? 0) || (600 <? timeout) = true).
  { apply orb_true_iff. destruct Hout; [left | right]; lia. }
  unfold Sync.analyze_audio_sync, Sync.catch, Sync.mbind, Sync.ret, Sync.raise.
  rewrite Hb. reflexivity.
Qed.

(** The largest timeout refused from below and the smallest from above. *)
Lemma X11_sync_timeout_out_of_range_witness :
  (0 <= 0 \/ 600 < 0) /\ (601 <= 0 \/ 600 < 601) /\
  fst (Sync.analyze_audio_sync Samples.removal_ok "rid" 0 (true, "")
         (Saved "u1" Samples.sample_info) Samples.returns_in_time
         (Sync.enter Samples.empty_handler))
  = Raise (HTTPException 400 (Lit "timeout 必须在 1-600 秒之间")) /\
  fst (Sync.analyze_audio_sync Samples.removal_ok "rid" 601 (true, "")
         (Saved "u1" Samples.sample_info) Samples.returns_in_time
         (Sync.enter Samples.empty_handler))
  = Raise (HTTPException 400 (Lit "timeout 必须在 1-600 秒之间")).
Proof.
  assert (H0 : 0 <= 0 \/ 600 < 0) by (left; lia).
  assert (H1 : 601 <= 0 \/ 600 < 601) by (right; lia).
  split; [exact H0|]. split; [exact H1|].
  split.
  - rewrite (X11_sync_timeout_out_of_range Samples.removal_ok "rid" 0
               (true, "") (Saved "u1" Samples.sample_info)
               Samples.returns_in_time Samples.empty_handler H0).
    reflexivity.
  - rewrite (X11_sync_timeout_out_of_range Samples.removal_ok "rid" 601
               (true, "") (Saved "u1" Samples.sample_info)
               Samples.returns_in_time Samples.empty_handler H1).
    reflexivity.
Defined.

Ltac release_steps Hfresh Hne Hfs :=
  repeat first
    [ rewrite (JobFacts.truthy_nonempty _ Hne)
    | rewrite (JobFacts.cleanup_file_tracked _ _ _ _ Hfresh Hfs)
    | rewrite (JobFacts.cleanup_file_unknown _ {| temp_files := _ |} _ Hfresh)
    | progress cbn ].

(** X12.  The fire-and-wait endpoint lets nothing but an
    [HTTPException] out, for every timeout, every answer of the
    validator, every outcome of saving and every behaviour of the engine.
    Unless saving failed after the entry was recorded, the handler ends as
    it started (the saved file, if any, being fresh, non-empty in id and
    removable).  When saving fails after the entry was recorded, the 500
    of [save_to_temp] is passed on, no cleanup call is made, since the
    endpoint never learnt the file id, and the entry stays in the
    store. *)
Theorem X12_sync_leaks_only_on_late_save_failure
    (fs_ok : string -> bool) (rid : string) (timeout : Z)
    (validation : bool * string) (save : save_outcome) (run : engine_run)
    (h : MemoryFileHandler) :
  (forall fid info, save = Saved fid info ->
     temp_files h !! fid = None /\ fid <> "" /\ fs_ok fid = true) ->
  let o := Sync.analyze_audio_sync fs_ok rid timeout validation save run
             (Sync.enter h) in
  (forall e, fst o = Raise e -> is_HTTPException e = true) /\
  ((forall fid info e, save <> SavedThenFailed fid info e) ->
   Sync.handler (snd o) = h) /\
  (forall fid info e,
     save = SavedThenFailed fid info e ->
     0 < timeout <= 600 -> fst validation = true ->
     fst o = Raise (HTTPException 500 (Wrapped "文件处理失败: " e)) /\
     Sync.cleanups (snd o) = [] /\
     Sync.handler (snd o)
     = {| temp_files := <[fid := info]> (temp_files h) |} /\
     (temp_files h !! fid = None ->
      get_file_count (Sync.handler (snd o)) = S (get_file_count h))).
Proof.
  intros Hsave. cbn zeta.
  unfold Sync.analyze_audio_sync, Sync.catch, Sync.mbind, Sync.ret,
    Sync.raise, Sync.enter, Sync.do_save, Sync.wait_for,
    Sync.cleanup_if_set, Sync.cleanup_local, Sync.do_cleanup.
  split; [|split].
  - destruct ((timeout <=? 0) || (600 <? timeout)); cbn.
    { intros e [= <-]. reflexivity. }
    destruct validation as [[|] msg]; cbn.
    2: { intros e [= <-]. reflexivity. }
    destruct save as [fid info|e0|fid info e0]; cbn;
      try (intros e [= <-]; reflexivity).
    destruct (Hsave fid info eq_refl) as (Hfresh & Hne & Hfs).
    destruct h as [m]. cbn in Hfresh.
    destruct (suspended_at run (inject_Z timeout)); cbn.
    + release_steps Hfresh Hne Hfs. intros e [= <-]. reflexivity.
    + release_steps Hfresh Hne Hfs. intros e [= <-]. reflexivity.
    + unfold analyze_single_file_with_progress, call. cbn.
      destruct (outcome run) as [raw|e1]; cbn.
      { release_steps Hfresh Hne Hfs. discriminate. }
      destruct e1; cbn; release_steps Hfresh Hne Hfs;
        intros e [= <-]; reflexivity.
  - intros Hnot.
    destruct ((timeout <=? 0) || (600 <? timeout)); cbn; [reflexivity|].
    destruct validation as [[|] msg]; cbn; [|reflexivity].
    destruct save as [fid info|e0|fid info e0]; cbn; [|reflexivity|].
    2: { exfalso. exact (Hnot fid info e0 eq_refl). }
    destruct (Hsave fid info eq_refl) as (Hfresh & Hne & Hfs).
    destruct h as [m]. cbn in Hfresh.
    destruct (suspended_at run (inject_Z timeout)); cbn.
    + release_steps Hfresh Hne Hfs. reflexivity.
    + release_steps Hfresh Hne Hfs. reflexivity.
    + unfold analyze_single_file_with_progress, call. cbn.
      destruct (outcome run) as [raw|e1]; cbn.
      { release_steps Hfresh Hne Hfs. reflexivity. }
      destruct e1; cbn; release_steps Hfresh Hne Hfs; reflexivity.
  - intros fid info e -> Hrange Hvalid.
    rewrite (JobFacts.timeout_in_range _ Hrange).
    destruct validation as [v msg]. cbn in Hvalid. subst v. cbn.
    repeat split.
    intros Hfresh. unfold get_file_count. cbn.
    apply map_size_insert_None. exact Hfresh.
Qed.

(** Two requests on an empty store.  In the first the engine raises an
    HTTP error within the deadline: it is passed on and the store ends
    empty.  In the second saving fails at [upload_file.seek(0)], after the
    entry was recorded: the answer is the 500 of [save_to_temp] and the
    store holds the entry, with no cleanup call made. *)
Lemma X12_sync_leaks_only_on_late_save_failure_witness :
  let run := {| duration := 5;
                outcome := Raise (HTTPException 503 (Lit "busy")) |} in
  let o1 := Sync.analyze_audio_sync Samples.removal_ok "rid" 600 (true, "")
              (Saved "u1" Samples.sample_info) run
              (Sync.enter Samples.empty_handler) in
  let o2 := Sync.analyze_audio_sync Samples.removal_ok "rid" 600 (true, "")
              (SavedThenFailed "u1" Samples.sample_info
                 (EngineError "seek failed"))
              Samples.returns_in_time
              (Sync.enter Samples.empty_handler) in
  (forall fid info, Saved "u1" Samples.sample_info = Saved fid info ->
     temp_files Samples.empty_handler !! fid = None /\ fid <> "" /\
     Samples.removal_ok fid = true) /\
  fst o1 = Raise (HTTPException 503 (Lit "busy")) /\
  Sync.handler (snd o1) = Samples.empty_handler /\
  fst o2 = Raise (HTTPException 500
                    (Wrapped "文件处理失败: " (EngineError "seek failed"))) /\
  Sync.cleanups (snd o2) = [] /\
  get_file_count (Sync.handler (snd o2)) = 1%nat.
Proof.
  cbn zeta.
  assert (H1 : forall fid info,
             Saved "u1" Samples.sample_info = Saved fid info ->
             temp_files Samples.empty_handler !! fid = None /\ fid <> "" /\
             Samples.removal_ok fid = true).
  { intros fid info [= <- <-]. repeat split. discriminate. }
  assert (H2 : forall fid info,
             SavedThenFailed "u1" Samples.sample_info
               (EngineError "seek failed") = Saved fid info ->
             temp_files Samples.empty_handler !! fid = None /\ fid <> "" /\
             Samples.removal_ok fid = true)
    by (intros fid info Hd; discriminate Hd).
  destruct (X12_sync_leaks_only_on_late_save_failure Samples.removal_ok "rid"
              600 (true, "") (Saved "u1" Samples.sample_info)
              {| duration := 5;
                 outcome := Raise (HTTPException 503 (Lit "busy")) |}
              Samples.empty_handler H1)
    as (_ & Hkeep & _).
  destruct (X12_sync_leaks_only_on_late_save_failure Samples.removal_ok "rid"
              600 (true, "")
              (SavedThenFailed "u1" Samples.sample_info
                 (EngineError "seek failed"))
              Samples.returns_in_time Samples.empty_handler H2)
    as (_ & _ & Hlate).
  destruct (Hlate "u1" Samples.sample_info (EngineError "seek failed")
              eq_refl ltac:(lia) eq_refl) as (Hr & Hc & _ & Hn).
  split; [exact H1|].
  split; [vm_compute; reflexivity|].
  split; [apply Hkeep; intros fid info e Hd; discriminate Hd|].
  split; [exact Hr|]. split; [exact Hc|].
  rewrite (Hn eq_refl). reflexivity.
Defined.

(** X13.  The plain single-file endpoint.  A rejected file gets a 422
    and no handle.  When the engine returns, or raises anything but an
    [HTTPException], the handle is released once and the handler ends as
    it started; the failure is answered as a 500.  An [HTTPException]
    coming out of the analysis is passed on as it is, and then the handle
    is not released: the saved file stays in the store. *)
Theorem X13_plain_endpoint_release
    (fs_ok : string -> bool) (h : MemoryFileHandler)
    (fid rid msg : string) (info : file_info) (run : engine_run) :
  temp_files h !! fid = None ->
  fid <> "" ->
  fs_ok fid = true ->
  let o := Plain.analyze_audio fs_ok rid (true, msg) (Saved fid info) run
             (Sync.enter h) in
  (forall save,
     Plain.analyze_audio fs_ok rid (false, msg) save run (Sync.enter h)
     = (Raise (HTTPException 422 (Lit msg)), Sync.enter h)) /\
  (forall raw, outcome run = Ok raw ->
     (exists a, fst o = Ok a /\ Plain.scheduled_max_age_minutes a = 30) /\
     Sync.cleanups (snd o) = [(fid, true)] /\
     Sync.handler (snd o) = h) /\
  (forall e, outcome run = Raise e -> is_HTTPException e = false ->
     fst o = Raise (HTTPException 500 (Wrapped "分析过程中发生错误: " e)) /\
     Sync.cleanups (snd o) = [(fid, true)] /\
     Sync.handler (snd o) = h) /\
  (forall e, outcome run = Raise e -> is_HTTPException e = true ->
     fst o = Raise e /\
     Sync.cleanups (snd o) = [] /\
     temp_files (Sync.handler (snd o)) !! fid = Some info /\
     get_file_count (Sync.handler (snd o)) = S (get_file_count h)).
Proof.
  intros Hfresh Hne Hfs. cbn zeta.
  unfold Plain.analyze_audio, Sync.catch, Sync.mbind, Sync.ret,
    Sync.raise, Sync.enter, Sync.do_save,
    Sync.cleanup_if_set, Sync.cleanup_local, Sync.do_cleanup.
  destruct h as [m]. cbn in Hfresh.
  split; [intros save; reflexivity|].
  unfold analyze_single_file, analyze_single_file_with_progress, call. cbn.
  split; [|split].
  - intros raw Hout. rewrite Hout. release_steps Hfresh Hne Hfs.
    repeat split. eexists. split; reflexivity.
  - intros e Hout Hh. rewrite Hout. cbn. rewrite Hh.
    release_steps Hfresh Hne Hfs. repeat split.
  - intros e Hout Hh. rewrite Hout. cbn. rewrite Hh. cbn.
    repeat split.
    + apply lookup_insert_eq.
    + unfold get_file_count. cbn. apply map_size_insert_None. exact Hfresh.
Qed.

(** An analysis that raises an HTTP error leaves the file behind. *)
Lemma X13_plain_endpoint_release_witness :
  let run := {| duration := 5;
                outcome := Raise (HTTPException 503 (Lit "busy")) |} in
  let o := Plain.analyze_audio Samples.removal_ok "rid" (true, "")
             (Saved "u1" Samples.sample_info) run
             (Sync.enter Samples.empty_handler) in
  temp_files Samples.empty_handler !! "u1" = None /\
  "u1" <> "" /\
  fst o = Raise (HTTPException 503 (Lit "busy")) /\
  get_file_count (Sync.handler (snd o)) = 1%nat.
Proof.
  cbn zeta.
  assert (H1 : temp_files Samples.empty_handler !! "u1" = None)
    by reflexivity.
  assert (H2 : "u1" <> "") by discriminate.
  destruct (X13_plain_endpoint_release Samples.removal_ok
              Samples.empty_handler "u1" "rid" "" Samples.sample_info
              {| duration := 5;
                 outcome := Raise (HTTPException 503 (Lit "busy")) |}
              H1 H2 eq_refl) as (_ & _ & _ & Hhttp).
  destruct (Hhttp _ eq_refl eq_refl) as (Hr & _ & _ & Hc).
  repeat split; assumption.
Defined.

(** X14.  Deleting an async job.  A job that is processing cannot be
    deleted (400) and nothing changes.  Any other registered job is
    removed from the registry, once: a second deletion answers 404.
    Deletion touches neither the other jobs nor the temp store, and makes
    no cleanup call. *)
Theorem X14_delete_task
    (tid : string) (w : Async.world) (ti : Async.task_info) :
  Async.async_tasks w !! tid = Some ti ->
  let o := AsyncOps.delete_task tid w in
  (Async.status ti = "processing" ->
   o = (Raise (HTTPException 400
                 (Lit "正在处理的任务无法删除，请等待完成后删除")), w)) /\
  (Async.status ti <> "processing" ->
   fst o = Ok tt /\
   Async.async_tasks (snd o) !! tid = None /\
   (forall tid', tid' <> tid ->
      Async.async_tasks (snd o) !! tid' = Async.async_tasks w !! tid') /\
   Async.handler (snd o) = Async.handler w /\
   Async.cleanups (snd o) = Async.cleanups w /\
   AsyncOps.delete_task tid (snd o)
   = (Raise (HTTPException 404 (Lit ("任务不存在: " ++ tid))), snd o)).
Proof.
  intros Hti. cbn zeta. unfold AsyncOps.delete_task. rewrite Hti.
  split.
  - intros Hs. rewrite Hs. reflexivity.
  - intros Hs.
    destruct (String.eqb_spec (Async.status ti) "processing");
      [contradiction|].
    cbn. rewrite lookup_delete_eq. repeat split.
    intros tid' Hne. apply lookup_delete_ne. congruence.
Qed.

(** A processing job is kept; once failed it can be deleted. *)
Lemma X14_delete_task_witness :
  let w := MoreSamples.async_world MoreSamples.processing_job in
  Async.async_tasks w !! "t1" = Some MoreSamples.processing_job /\
  Async.status MoreSamples.processing_job = "processing" /\
  AsyncOps.delete_task "t1" w
  = (Raise (HTTPException 400
              (Lit "正在处理的任务无法删除，请等待完成后删除")), w).
Proof.
  cbn zeta.
  assert (H : Async.async_tasks
                (MoreSamples.async_world MoreSamples.processing_job) !! "t1"
              = Some MoreSamples.processing_job)
    by (vm_compute; reflexivity).
  destruct (X14_delete_task "t1" _ _ H) as [Hproc _].
  split; [exact H|]. split; [reflexivity|]. exact (Hproc eq_refl).
Defined.

(** X15.  A job deleted while it is still pending keeps its temp file for
    good: the driver, when it runs, finds no record, does nothing and
    makes no cleanup call, so the store holds one handle more than before
    the submission. *)
Theorem X15_deleted_pending_job_keeps_its_file
    (fs_ok : string -> bool) (w : Async.world)
    (fid tid rid msg : string) (info : file_info) (run : engine_run) :
  temp_files (Async.handler w) !! fid = None ->
  let w1 := snd (Async.submit_analysis_task fs_ok tid rid (true, msg)
                   (Saved fid info) w) in
  let w2 := snd (AsyncOps.delete_task tid w1) in
  let w3 := Async._process_async_analysis_task fs_ok tid run w2 in
  Async.status <$> (Async.async_tasks w1 !! tid) = Some "pending" /\
  fst (AsyncOps.delete_task tid w1) = Ok tt /\
  w3 = w2 /\
  Async.cleanups w3 = Async.cleanups w /\
  temp_files (Async.handler w3) !! fid = Some info /\
  get_file_count (Async.handler w3) = S (get_file_count (Async.handler w)).
Proof.
  intros Hfresh. cbn zeta.
  unfold Async.submit_analysis_task. cbn.
  unfold AsyncOps.delete_task. cbn. rewrite lookup_insert_eq. cbn.
  unfold Async._process_async_analysis_task. cbn.
  rewrite lookup_delete_eq.
  repeat split.
  - apply lookup_insert_eq.
  - unfold get_file_count. cbn. apply map_size_insert_None. exact Hfresh.
Qed.

(** A job submitted on an empty store and deleted at once. *)
Lemma X15_deleted_pending_job_keeps_its_file_witness :
  let w := {| Async.async_tasks := ∅;
              Async.handler := Samples.empty_handler;
              Async.cleanups := [] |} in
  let w1 := snd (Async.submit_analysis_task Samples.removal_ok "t1" "r1"
                   (true, "") (Saved "u1" Samples.sample_info) w) in
  let w2 := snd (AsyncOps.delete_task "t1" w1) in
  let w3 := Async._process_async_analysis_task Samples.removal_ok "t1"
              Samples.returns_in_time w2 in
  temp_files (Async.handler w) !! "u1" = None /\
  Async.cleanups w3 = [] /\
  get_file_count (Async.handler w3) = 1%nat.
Proof.
  cbn zeta.
  assert (H : temp_files
                (Async.handler {| Async.async_tasks := ∅;
                                  Async.handler := Samples.empty_handler;
                                  Async.cleanups := [] |}) !! "u1" = None)
    by reflexivity.
  destruct (X15_deleted_pending_job_keeps_its_file Samples.removal_ok _
              "u1" "t1" "r1" "" Samples.sample_info Samples.returns_in_time H)
    as (_ & _ & _ & Hc & _ & Hn).
  repeat split; assumption.
Defined.

(** X16.  The result endpoint answers a result only for a registered job
    whose status is completed and which holds a result, and then hands
    out that very result.  After the driver has run on a registered job
    the endpoint answers 400: the job is failed. *)
Theorem X16_get_task_result_guard (tid : string) (w : Async.world) :
  (forall r, AsyncOps.get_task_result tid w = Ok r ->
     exists ti, Async.async_tasks w !! tid = Some ti /\
                Async.status ti = "completed" /\
                Async.result ti = Some (AsyncOps.res_data r) /\
                AsyncOps.res_request_id r = Async.request_id ti) /\
  (Async.async_tasks w !! tid = None ->
   AsyncOps.get_task_result tid w
   = Raise (HTTPException 404 (Lit ("任务不存在: " ++ tid)))) /\
  (forall fs_ok run ti, Async.async_tasks w !! tid = Some ti ->
     AsyncOps.get_task_result tid
       (Async._process_async_analysis_task fs_ok tid run w)
     = Raise (HTTPException 400
                (Lit ("任务未完成或失败，当前状态: failed。请先调用 /api/analyze/task/"
                      ++ tid ++ "/status 查看状态")))).
Proof.
  split; [|split].
  - intros r. unfold AsyncOps.get_task_result.
    destruct (Async.async_tasks w !! tid) as [ti|]; [|discriminate].
    destruct (String.eqb_spec (Async.status ti) "completed") as [Hs|];
      cbn; [|discriminate].
    destruct (Async.result ti) as [p|] eqn:Hr; [|discriminate].
    intros [= <-]. exists ti. cbn. repeat split; assumption.
  - intros Hn. unfold AsyncOps.get_task_result. rewrite Hn. reflexivity.
  - intros fs_ok run ti Hti.
    unfold AsyncOps.get_task_result, Async._process_async_analysis_task.
    rewrite Hti, JobFacts.cleanup_if_set_tasks. cbn [Async.async_tasks].
    rewrite lookup_insert_eq.
    unfold analyze_single_file_with_progress, call. cbn. reflexivity.
Qed.

(** A job whose engine would return: polling for the result gives 400. *)
Lemma X16_get_task_result_guard_witness :
  let w := {| Async.async_tasks := ∅;
              Async.handler := Samples.empty_handler;
              Async.cleanups := [] |} in
  let w1 := snd (Async.submit_analysis_task Samples.removal_ok "t1" "r1"
                   (true, "") (Saved "u1" Samples.sample_info) w) in
  (exists ti, Async.async_tasks w1 !! "t1" = Some ti) /\
  AsyncOps.get_task_result "t1"
    (Async._process_async_analysis_task Samples.removal_ok "t1"
       Samples.returns_in_time w1)
  = Raise (HTTPException 400
             (Lit "任务未完成或失败，当前状态: failed。请先调用 /api/analyze/task/t1/status 查看状态")).
Proof.
  cbn zeta.
  assert (H : exists ti,
             Async.async_tasks
               (snd (Async.submit_analysis_task Samples.removal_ok "t1" "r1"
                       (true, "") (Saved "u1" Samples.sample_info)
                       {| Async.async_tasks := ∅;
                          Async.handler := Samples.empty_handler;
                          Async.cleanups := [] |})) !! "t1" = Some ti)
    by (eexists; vm_compute; reflexivity).
  split; [exact H|]. destruct H as [ti Hti].
  destruct (X16_get_task_result_guard "t1"
              (snd (Async.submit_analysis_task Samples.removal_ok "t1" "r1"
                      (true, "") (Saved "u1" Samples.sample_info)
                      {| Async.async_tasks := ∅;
                         Async.handler := Samples.empty_handler;
                         Async.cleanups := [] |})))
    as (_ & _ & Hd).
  exact (Hd Samples.removal_ok Samples.returns_in_time ti Hti).
Defined.

(** X17.  A submission either registers the job, pending, as the owner
    of the handle just saved, or answers a 500, registers nothing and
    makes no cleanup call.  A failed submission leaves the store as it
    was, unless saving failed after the entry was recorded: then the entry
    stays in the store, owned by no job. *)
Theorem X17_submit_registers_or_fails_without_cleanup
    (fs_ok : string -> bool) (tid rid : string)
    (validation : bool * string) (save : save_outcome) (w : Async.world) :
  let o := Async.submit_analysis_task fs_ok tid rid validation save w in
  match fst o with
  | Ok t =>
      t = tid /\
      exists fid info ti,
        validation.1 = true /\ save = Saved fid info /\
        Async.async_tasks (snd o) !! tid = Some ti /\
        Async.status ti = "pending" /\
        Async.file_id ti = Some fid /\
        Async.file_path ti = path info /\
        temp_files (Async.handler (snd o)) !! fid = Some info /\
        Async.cleanups (snd o) = Async.cleanups w
  | Raise e =>
      (exists e0, e = HTTPException 500 (Wrapped "创建任务失败: " e0)) /\
      Async.async_tasks (snd o) = Async.async_tasks w /\
      Async.cleanups (snd o) = Async.cleanups w /\
      Async.handler (snd o)
      = match validation.1, save with
        | true, SavedThenFailed fid info _ =>
            {| temp_files := <[fid := info]> (temp_files (Async.handler w)) |}
        | _, _ => Async.handler w
        end
  end.
Proof.
  cbn zeta. unfold Async.submit_analysis_task.
  destruct validation as [[|] msg]; cbn.
  - destruct save as [fid info|e0|fid info e0]; cbn.
    + split; [reflexivity|]. exists fid, info. eexists.
      split; [reflexivity|]. split; [reflexivity|].
      split; [apply lookup_insert_eq|].
      repeat split. apply lookup_insert_eq.
    + split; [eexists; reflexivity|]. repeat split.
    + split; [eexists; reflexivity|]. repeat split.
  - split; [eexists; reflexivity|]. repeat split.
Qed.

End JobMore.

(* ===================================================================== *)
(** ** Batches: cancellation, release, counters, validation *)
(* ===================================================================== *)

Module BatchMore.
Import Py TempFiles Service Batch BatchOps.






(** *** The [finally] clause of the driver *)

Lemma cleanup_all_lookup (fs_ok : string -> bool) (ids : list string) :
  forall (h : MemoryFileHandler) (log : list (string * bool)) (k : string),
    temp_files (fst (cleanup_all fs_ok ids h log)) !! k
    = if bool_decide (k ∈ ids) && fs_ok k then None else temp_files h !! k.
Proof.
  induction ids as [|a ids IH]; intros h log k; cbn [cleanup_all].
  - rewrite bool_decide_eq_false_2 by apply not_elem_of_nil. reflexivity.
  - pose proof (TempFilesFacts.cleanup_file_lookup fs_ok h a k) as Hone.
    destruct (cleanup_file fs_ok h a) as [b h']. cbn [snd] in Hone.
    rewrite IH, Hone.
    destruct (decide (k = a)) as [->|Hne].
    + rewrite (bool_decide_eq_true_2 (a ∈ a :: ids))
        by (apply elem_of_cons; tauto).
      rewrite (bool_decide_eq_true_2 (a = a)) by reflexivity.
      cbn. destruct (bool_decide (a ∈ ids)); cbn;
        destruct (fs_ok a); reflexivity.
    + rewrite (bool_decide_eq_false_2 (k = a)) by exact Hne. cbn [andb].
      destruct (bool_decide (k ∈ ids)) eqn:E.
      * apply bool_decide_eq_true in E.
        rewrite bool_decide_eq_true_2 by (apply elem_of_cons; tauto).
        reflexivity.
      * apply bool_decide_eq_false in E.
        rewrite bool_decide_eq_false_2 by (rewrite elem_of_cons; tauto).
        reflexivity.
Qed.

Lemma cleanup_all_log (fs_ok : string -> bool) (ids : list string) :
  forall (h : MemoryFileHandler) (log : list (string * bool)),
    map fst (snd (cleanup_all fs_ok ids h log)) = (map fst log ++ ids)%list.
Proof.
  induction ids as [|a ids IH]; intros h log; cbn [cleanup_all].
  - cbn. rewrite app_nil_r. reflexivity.
  - destruct (cleanup_file fs_ok h a) as [b h'].
    rewrite IH, map_app. cbn. rewrite <- app_assoc. reflexivity.
Qed.

(** The loop leaves the static part of the record alone. *)
Lemma process_items_static (engine : string -> engine_run)
    (cancels : nat -> bool) (tid : string) (total : nat)
    (items : list file_entry) :
  forall (i : nat) (t : batch_task) (log : list string),
    let t' := fst (process_items engine cancels tid total i items t log) in
    file_ids t' = file_ids t /\ valid_files t' = valid_files t /\
    file_count t' = file_count t /\ invalid_files t' = invalid_files t /\
    priority t' = priority t /\ continue_on_error t' = continue_on_error t.
Proof.
  induction items as [|f rest IH]; intros i t log; cbn [process_items].
  - cbn. repeat split.
  - assert (H0 : let t0 := if cancels i then mark_cancelled t else t in
                 file_ids t0 = file_ids t /\ valid_files t0 = valid_files t /\
                 file_count t0 = file_count t /\
                 invalid_files t0 = invalid_files t /\
                 priority t0 = priority t /\
                 continue_on_error t0 = continue_on_error t).
    { cbn zeta. destruct (cancels i); [|repeat split].
      unfold mark_cancelled. destruct (existsb _ _); repeat split. }
    cbn zeta in H0.
    set (t0 := if cancels i then mark_cancelled t else t) in *.
    destruct (analyze_item engine tid i f) as [p|e].
    + destruct (IH (S i) (record_success f p (begin_item i total f t0))
                  (log ++ [filename f])%list) as (A & B & C & D & E & F).
      cbn zeta. rewrite A, B, C, D, E, F. exact H0.
    + destruct (negb _); [exact H0|].
      destruct (IH (S i) (record_failure f e (begin_item i total f t0))
                  (log ++ [filename f])%list) as (A & B & C & D & E & F).
      cbn zeta. rewrite A, B, C, D, E, F. exact H0.
Qed.

(** X19.  When the driver ends on a registered batch it has asked for the
    release of every file id of the record, once each and in order, and
    of nothing else.  Every such id whose removal goes through is gone
    from the store; ids outside the record are untouched. *)
Theorem X19_driver_releases_all_files
    (fs_ok : string -> bool) (engine : string -> engine_run)
    (cancels : nat -> bool) (tid : string) (w : world) (task : batch_task) :
  batch_tasks w !! tid = Some task ->
  let w' := _process_batch_analysis_task fs_ok engine cancels tid w in
  map fst (cleanups w') = (map fst (cleanups w) ++ file_ids task)%list /\
  (forall fid : string,
     temp_files (handler w') !! fid
     = if bool_decide (fid ∈ file_ids task) && fs_ok fid then None
       else temp_files (handler w) !! fid).
Proof.
  intros Hw. cbn zeta. unfold _process_batch_analysis_task. rewrite Hw.
  assert (Hids : file_ids (fst (drive engine cancels tid task))
                 = file_ids task).
  { unfold drive.
    pose proof (process_items_static engine cancels tid
                  (length (valid_files (set_status "processing" task)))
                  (valid_files (set_status "processing" task)) 0
                  (set_status "processing" task) []) as Hst.
    destruct (process_items _ _ _ _ _ _ _ _) as [t2 log].
    cbn zeta in Hst. cbn [fst] in *. cbn. apply Hst. }
  destruct (drive engine cancels tid task) as [task' log]. cbn [fst] in Hids.
  rewrite Hids.
  pose proof (cleanup_all_log fs_ok (file_ids task) (handler w) (cleanups w))
    as Hlog.
  pose proof (cleanup_all_lookup fs_ok (file_ids task) (handler w)
                (cleanups w)) as Hl.
  destruct (cleanup_all fs_ok (file_ids task) (handler w) (cleanups w))
    as [h' cl].
  cbn [fst snd] in *. split; [exact Hlog | exact Hl].
Qed.

(** A batch of three files in the store: the driver asks for the release
    of the three ids and the store ends empty. *)
Lemma X19_driver_releases_all_files_witness :
  let w := MoreSamples.batch_world (Samples.abc_task true) in
  let w' := _process_batch_analysis_task Samples.removal_ok
              Samples.engine_fails_on_B Samples.no_cancel "batch_1" w in
  batch_tasks w !! "batch_1" = Some (Samples.abc_task true) /\
  get_file_count (handler w) = 3%nat /\
  map fst (cleanups w') = ["id-A"; "id-B"; "id-C"] /\
  temp_files (handler w') !! "id-B" = None.
Proof.
  cbn zeta.
  assert (H : batch_tasks (MoreSamples.batch_world (Samples.abc_task true))
                !! "batch_1" = Some (Samples.abc_task true))
    by (vm_compute; reflexivity).
  destruct (X19_driver_releases_all_files Samples.removal_ok
              Samples.engine_fails_on_B Samples.no_cancel "batch_1" _ _ H)
    as (Hlog & Hl).
  split; [exact H|]. split; [vm_compute; reflexivity|].
  split; [rewrite Hlog; reflexivity|].
  rewrite Hl. vm_compute. reflexivity.
Defined.

(** *** Counters and lists *)

Lemma process_items_accounting (engine : string -> engine_run)
    (cancels : nat -> bool) (tid : string) (total : nat)
    (items : list file_entry) :
  forall (i : nat) (t : batch_task) (log : list string),
    let r := process_items engine cancels tid total i items t log in
    exists started : list string,
      snd r = (log ++ started)%list /\
      (exists rest, map filename items = (started ++ rest)%list) /\
      recorded (fst r) = (recorded t + length started)%nat /\
      (started = [] -> items = [] /\ fst r = t) /\
      (started <> [] -> (counted (fst r) + 1 = recorded (fst r))%nat) /\
      (continue_on_error t = false ->
       (length (failed_files (fst r)) <= length (failed_files t) + 1)%nat).
Proof.
  induction items as [|f rest IH]; intros i t log; cbn [process_items].
  - exists []. cbn. rewrite app_nil_r. repeat split; try lia.
    + exists []. reflexivity.
    + intros H; contradiction.
  - destruct (BatchFacts.interfered_fields (cancels i) t)
      as (Hc & Hf & _ & Hk).
    set (t0 := if cancels i then mark_cancelled t else t) in *.
    assert (Hrec0 : recorded t0 = recorded t)
      by (unfold recorded; rewrite Hc, Hf; reflexivity).
    destruct (analyze_item engine tid i f) as [p|e].
    + destruct (IH (S i) (record_success f p (begin_item i total f t0))
                  (log ++ [filename f])%list)
        as (st & Hlog & [rest' Hpre] & Hrec & Hnil & Hcnt & Hfail).
      cbn zeta in *. exists (filename f :: st).
      split; [rewrite Hlog, <- app_assoc; reflexivity|].
      split; [exists rest'; cbn; rewrite Hpre; reflexivity|].
      split.
      { rewrite Hrec. unfold recorded in *. cbn. rewrite Hc, Hf.
        rewrite length_app. cbn. lia. }
      split; [intros Hd; discriminate Hd|].
      split.
      { intros _. destruct st as [|x st'].
        - rewrite (proj2 (Hnil eq_refl)). unfold counted, recorded. cbn.
          rewrite Hc, Hf, length_app. cbn. lia.
        - apply Hcnt. discriminate. }
      { intros Hcoe. etransitivity; [apply Hfail; cbn; congruence|].
        cbn. rewrite Hf. lia. }
    + cbn [record_failure continue_on_error begin_item]. rewrite Hk.
      destruct (continue_on_error t) eqn:Hcoe; cbn [negb].
      * destruct (IH (S i) (record_failure f e (begin_item i total f t0))
                    (log ++ [filename f])%list)
          as (st & Hlog & [rest' Hpre] & Hrec & Hnil & Hcnt & _).
        cbn zeta in *. exists (filename f :: st).
        split; [rewrite Hlog, <- app_assoc; reflexivity|].
        split; [exists rest'; cbn; rewrite Hpre; reflexivity|].
        split.
        { rewrite Hrec. unfold recorded in *. cbn. rewrite Hc, Hf.
          rewrite length_app. cbn. lia. }
        split; [intros Hd; discriminate Hd|].
        split; [|intros Hd; congruence].
        intros _. destruct st as [|x st'].
        -- rewrite (proj2 (Hnil eq_refl)). unfold counted, recorded. cbn.
           rewrite Hc, Hf, length_app. cbn. lia.
        -- apply Hcnt. discriminate.
      * exists [filename f]. cbn [fst snd].
        split; [reflexivity|].
        split; [exists (map filename rest); reflexivity|].
        split.
        { unfold recorded in *. cbn. rewrite Hc, Hf, length_app. cbn. lia. }
        split; [intros Hd; discriminate Hd|].
        split.
        { intros _. unfold counted, recorded. cbn.
          rewrite Hc, Hf, length_app. cbn. lia. }
        { intros _. cbn. rewrite Hf, length_app. cbn. lia. }
Qed.

(** X20.  Once the driver has ended on a batch with at least one accepted
    file, the status endpoint reports the batch completed at 100 with no
    current file and no estimate, but its two counters have not seen the
    last item: together they are one short of the entries in the two
    lists it reports beside them. *)
Theorem X20_status_counters_lag
    (fs_ok : string -> bool) (engine : string -> engine_run)
    (cancels : nat -> bool) (tid : string) (elapsed_time : Q)
    (w : world) (task : batch_task) :
  batch_tasks w !! tid = Some task ->
  valid_files task <> [] ->
  exists r : status_report,
    get_batch_analysis_status tid elapsed_time
      (_process_batch_analysis_task fs_ok engine cancels tid w) = Ok r /\
    rep_status r = "completed" /\
    rep_overall_progress r = 100%Q /\
    rep_current_file r = None /\
    rep_estimated_remaining r = None /\
    (rep_completed_count r + rep_failed_count r + 1
     = length (rep_completed_files r) + length (rep_failed_files r))%nat.
Proof.
  intros Hw Hne.
  unfold get_batch_analysis_status, _process_batch_analysis_task.
  rewrite Hw. unfold drive.
  change (valid_files (set_status "processing" task)) with (valid_files task).
  pose proof (process_items_accounting engine cancels tid
                (length (valid_files task)) (valid_files task) 0
                (set_status "processing" task) []) as Hacc.
  destruct (process_items _ _ _ _ _ _ _ _) as [t2 log].
  cbn zeta in Hacc. cbn [fst snd] in Hacc.
  destruct Hacc as (st & Hlog & [rest Hpre] & _ & Hnil & Hcnt & _).
  destruct (cleanup_all fs_ok _ _ _) as [h' cl].
  cbn [batch_tasks]. rewrite lookup_insert_eq.
  eexists. split; [reflexivity|]. cbn.
  repeat split.
  assert (Hst : st <> []).
  { intros ->. destruct (Hnil eq_refl) as [He _]. contradiction. }
  apply Hcnt in Hst. unfold counted, recorded in Hst. lia.
Qed.

(** Three files, all recorded as failed: the lists hold three entries,
    the counters show two. *)
Lemma X20_status_counters_lag_witness :
  let w := MoreSamples.batch_world (Samples.abc_task true) in
  batch_tasks w !! "batch_1" = Some (Samples.abc_task true) /\
  Batch.valid_files (Samples.abc_task true) <> [] /\
  exists r : status_report,
    get_batch_analysis_status "batch_1" 90
      (_process_batch_analysis_task Samples.removal_ok
         Samples.engine_fails_on_B Samples.no_cancel "batch_1" w) = Ok r /\
    rep_failed_files r = ["A"; "B"; "C"] /\
    rep_failed_count r = 2%nat /\
    rep_completed_count r = 0%nat.
Proof.
  cbn zeta.
  assert (H : batch_tasks (MoreSamples.batch_world (Samples.abc_task true))
                !! "batch_1" = Some (Samples.abc_task true))
    by (vm_compute; reflexivity).
  assert (Hne : Batch.valid_files (Samples.abc_task true) <> [])
    by discriminate.
  split; [exact H|]. split; [exact Hne|].
  destruct (X20_status_counters_lag Samples.removal_ok
              Samples.engine_fails_on_B Samples.no_cancel "batch_1" 90 _ _
              H Hne) as (r & Hr & _).
  exists r. split; [exact Hr|].
  assert (Hv : get_batch_analysis_status "batch_1" 90
                 (_process_batch_analysis_task Samples.removal_ok
                    Samples.engine_fails_on_B Samples.no_cancel "batch_1"
                    (MoreSamples.batch_world (Samples.abc_task true)))
               = Ok r) by exact Hr.
  vm_compute in Hv. injection Hv as <-. repeat split.
Defined.

(** X21.  The driver starts the accepted files in their order, without
    gaps: the files started are a prefix of the accepted ones.  Each file
    started adds exactly one entry to one of the two lists.  Without
    [continue_on_error] at most one failure is added. *)
Theorem X21_items_started_in_order
    (engine : string -> engine_run) (cancels : nat -> bool)
    (tid : string) (task : batch_task) :
  let run := drive engine cancels tid task in
  (exists rest, map filename (valid_files task) = (snd run ++ rest)%list) /\
  recorded (fst run) = (recorded task + length (snd run))%nat /\
  (length (snd run) <= length (valid_files task))%nat /\
  (continue_on_error task = false ->
   (length (failed_files (fst run)) <= length (failed_files task) + 1)%nat).
Proof.
  cbn zeta. unfold drive.
  change (valid_files (set_status "processing" task)) with (valid_files task).
  pose proof (process_items_accounting engine cancels tid
                (length (valid_files task)) (valid_files task) 0
                (set_status "processing" task) []) as Hacc.
  destruct (process_items _ _ _ _ _ _ _ _) as [t2 log].
  cbn zeta in Hacc. cbn [fst snd] in *.
  destruct Hacc as (st & Hlog & [rest Hpre] & Hrec & _ & _ & Hfail).
  cbn in Hlog. subst log.
  split; [exists rest; exact Hpre|].
  split; [exact Hrec|].
  split.
  - rewrite <- (length_map filename (valid_files task)), Hpre, length_app. lia.
  - exact Hfail.
Qed.

(** Without [continue_on_error] the three-file batch stops after its
    first file. *)
Lemma X21_items_started_in_order_witness :
  let run := drive Samples.engine_fails_on_B Samples.no_cancel "batch_1"
               (Samples.abc_task false) in
  continue_on_error (Samples.abc_task false) = false /\
  snd run = ["A"] /\
  (length (failed_files (fst run)) <= 1)%nat /\
  recorded (fst run) = 1%nat.
Proof.
  cbn zeta.
  destruct (X21_items_started_in_order Samples.engine_fails_on_B
              Samples.no_cancel "batch_1" (Samples.abc_task false))
    as (_ & Hrec & _ & Hfail).
  assert (Hlog : snd (drive Samples.engine_fails_on_B Samples.no_cancel
                        "batch_1" (Samples.abc_task false)) = ["A"])
    by (vm_compute; reflexivity).
  split; [reflexivity|]. split; [exact Hlog|].
  split; [exact (Hfail eq_refl)|].
  rewrite Hrec, Hlog. reflexivity.
Defined.

(** *** The validation loop of the submission *)

Lemma validate_files_inv (all : list upload) :
  forall (files pre : list upload) (validated : list (nat * upload))
         (invalid : list invalid_entry) (total : nat),
    all = (pre ++ files)%list ->
    Forall (accepted all) validated ->
    Forall (turned_down all) invalid ->
    (map fst validated ++ map inv_index invalid)%list ≡ₚ seq 0 (length pre) ->
    let r := validate_files (length pre) files validated invalid total in
    Forall (accepted all) (fst (fst r)) /\
    Forall (turned_down all) (snd (fst r)) /\
    (map fst (fst (fst r)) ++ map inv_index (snd (fst r)))%list
    ≡ₚ seq 0 (length all).
Proof.
  induction files as [|f rest IH];
    intros pre validated invalid total Hall Hv Hi Hp; cbn [validate_files].
  - rewrite app_nil_r in Hall. subst pre. cbn. repeat split; assumption.
  - assert (Hf : all !! length pre = Some f)
      by (rewrite Hall; apply list_lookup_middle; reflexivity).
    assert (Hall' : all = ((pre ++ [f]) ++ rest)%list)
      by (rewrite <- app_assoc; exact Hall).
    assert (Hlen : length (pre ++ [f]) = S (length pre))
      by (rewrite length_app; cbn; lia).
    assert (Hseq : seq 0 (S (length pre)) = (seq 0 (length pre) ++ [length pre])%list)
      by (rewrite seq_S; reflexivity).
    destruct (up_validation f) as [is_valid error_msg] eqn:Hval.
    destruct is_valid; cbn [negb].
    + destruct (up_read f) as [size|ex] eqn:Hread.
      * rewrite <- Hlen. apply IH; [exact Hall' | | exact Hi |].
        -- apply Forall_app. split; [exact Hv|].
           apply Forall_cons. split; [|apply Forall_nil; exact I].
           unfold accepted. cbn. rewrite Hval. cbn.
           repeat split; [exact Hf | eexists; exact Hread].
        -- rewrite Hlen, Hseq, map_app. cbn.
           rewrite <- Hp, <- !app_assoc.
           apply Permutation_app_head. apply Permutation_app_comm.
      * rewrite <- Hlen. apply IH; [exact Hall' | exact Hv | |].
        -- apply Forall_app. split; [exact Hi|].
           apply Forall_cons. split; [|apply Forall_nil; exact I].
           exists f. cbn. repeat split; [exact Hf|].
           right. eexists. exact Hread.
        -- rewrite Hlen, Hseq, map_app. cbn.
           rewrite <- Hp, <- !app_assoc. reflexivity.
    + rewrite <- Hlen. apply IH; [exact Hall' | exact Hv | |].
      * apply Forall_app. split; [exact Hi|].
        apply Forall_cons. split; [|apply Forall_nil; exact I].
        exists f. cbn. repeat split; [exact Hf|].
        left. rewrite Hval. reflexivity.
      * rewrite Hlen, Hseq, map_app. cbn.
        rewrite <- Hp, <- !app_assoc. reflexivity.
Qed.

(** X22.  The validation loop of the batch submission sorts every
    submitted file into exactly one of its two lists: the positions noted
    in the two lists together are the positions 0 .. n-1, each once.  An
    accepted entry carries the position of its own file, which passed the
    validator and could be read; a rejected entry names a file at its
    position that the validator refused or that could not be read. *)
Theorem X22_validation_partitions_the_files (files : list upload) :
  let r := validate_files 0 files [] [] 0 in
  Forall (accepted files) (fst (fst r)) /\
  Forall (turned_down files) (snd (fst r)) /\
  (map fst (fst (fst r)) ++ map inv_index (snd (fst r)))%list
  ≡ₚ seq 0 (length files) /\
  (length (fst (fst r)) + length (snd (fst r)) = length files)%nat.
Proof.
  cbn zeta.
  pose proof (validate_files_inv files files [] [] [] 0 eq_refl
                (Forall_nil_2 _) (Forall_nil_2 _)) as H.
  cbn zeta in H. cbn [length] in H.
  destruct (H (reflexivity _)) as (Hv & Hi & Hp).
  repeat split; try assumption.
  apply Permutation_length in Hp.
  rewrite length_app, !length_map, length_seq in Hp. exact Hp.
Qed.

End BatchMore.

(* ===================================================================== *)
(** ** The batches of the analysis service *)
(* ===================================================================== *)

Module ServiceBatchFacts.
Import Py Service ServiceBatch.

(** [DeviceType] is not bound in the module: no file gets analysed. *)
Lemma analyze_one_raises (engine : string -> engine_run) (tid : string)
    (i : nat) (f : upload_path) :
  analyze_one engine tid i f = Raise (NameError "DeviceType").
Proof. reflexivity. Qed.

Lemma process_files_all_fail (engine : string -> engine_run) (tid : string)
    (total : nat) (files : list upload_path) :
  forall (i : nat) (t : task),
    let t' := process_files engine tid total i files t in
    status t' = status t /\
    completed_files t' = completed_files t /\
    failed_files t' = (failed_files t ++ map name files)%list /\
    results t' = results t /\
    total_files t' = total_files t /\
    file_paths t' = file_paths t.
Proof.
  induction files as [|f rest IH]; intros i t; cbn [process_files].
  - cbn. rewrite app_nil_r. repeat split.
  - rewrite analyze_one_raises.
    match goal with
    | |- context [process_files engine tid total (S i) rest ?t2] =>
        destruct (IH (S i) t2) as (A & B & C & D & E & F)
    end.
    cbn zeta. rewrite A, B, C, D, E, F. cbn.
    rewrite <- app_assoc. repeat split.
Qed.

(** X23.  Whatever the engine would do, the service's own batch driver
    analyses no file: every file of a registered batch ends in
    [failed_files], in order, nothing is added to [completed_files] or to
    the results, and the batch is left completed at 100 with no current
    file. *)
Theorem X23_service_batch_fails_every_file
    (engine : string -> engine_run) (tid : string)
    (reg : gmap string task) (t : task) :
  reg !! tid = Some t ->
  exists t' : task,
    _process_batch_task engine tid reg !! tid = Some t' /\
    status t' = "completed" /\
    progress t' = 100%Q /\
    current_file t' = None /\
    completed_files t' = completed_files t /\
    failed_files t' = (failed_files t ++ map name (file_paths t))%list /\
    results t' = results t.
Proof.
  intros Hreg. unfold _process_batch_task. rewrite Hreg.
  rewrite lookup_insert_eq. eexists. split; [reflexivity|]. cbn.
  match goal with
  | |- context [process_files engine tid ?n 0 ?fs ?t1] =>
      destruct (process_files_all_fail engine tid n fs 0 t1)
        as (A & B & C & D & E & F)
  end.
  cbn zeta in *. rewrite B, C, D. repeat split.
Qed.

(** Two files and an engine that would return on both. *)
Lemma X23_service_batch_fails_every_file_witness :
  let reg : gmap string task := {[ "batch_1" := MoreSamples.service_task ]} in
  reg !! "batch_1" = Some MoreSamples.service_task /\
  exists t' : task,
    _process_batch_task (fun _ => Samples.returns_in_time) "batch_1" reg
      !! "batch_1" = Some t' /\
    status t' = "completed" /\
    completed_files t' = [] /\
    failed_files t' = ["a_1.wav"; "b_2.wav"].
Proof.
  cbn zeta.
  assert (H : ({[ "batch_1" := MoreSamples.service_task ]}
               : gmap string task) !! "batch_1"
              = Some MoreSamples.service_task)
    by apply lookup_singleton_eq.
  split; [exact H|].
  destruct (X23_service_batch_fails_every_file
              (fun _ => Samples.returns_in_time) "batch_1" _ _ H)
    as (t' & Hl & Hs & _ & _ & Hc & Hf & _).
  exists t'. repeat split; assumption.
Defined.

(** X24.  Cancelling a batch of the service succeeds on a pending or
    processing batch and marks it cancelled; a second cancellation
    answers false and changes nothing.  The mark does not hold the driver
    back: run afterwards, it leaves the batch completed. *)
Theorem X24_service_cancel
    (engine : string -> engine_run) (tid : string)
    (reg : gmap string task) (t : task) :
  reg !! tid = Some t ->
  status t = "pending" \/ status t = "processing" ->
  let o1 := cancel_batch_task tid reg in
  fst o1 = true /\
  status <$> (snd o1 !! tid) = Some "cancelled" /\
  cancel_batch_task tid (snd o1) = (false, snd o1) /\
  status <$> (_process_batch_task engine tid (snd o1) !! tid)
  = Some "completed".
Proof.
  intros Hreg Hs. cbn zeta.
  assert (H1 : cancel_batch_task tid reg
               = (true,
                  <[tid := {| status := "cancelled"; progress := progress t;
                              current_file := current_file t;
                              completed_files := completed_files t;
                              failed_files := failed_files t;
                              total_files := total_files t;
                              file_paths := file_paths t;
                              results := results t |}]> reg)).
  { unfold cancel_batch_task. rewrite Hreg.
    destruct Hs as [-> | ->]; reflexivity. }
  rewrite H1. cbn [fst snd].
  split; [reflexivity|].
  split; [rewrite lookup_insert_eq; reflexivity|].
  split.
  - unfold cancel_batch_task. rewrite lookup_insert_eq. reflexivity.
  - unfold _process_batch_task. rewrite lookup_insert_eq.
    rewrite lookup_insert_eq. reflexivity.
Qed.

(** A pending batch of the service, cancelled twice. *)
Lemma X24_service_cancel_witness :
  let reg : gmap string task := {[ "batch_1" := MoreSamples.service_task ]} in
  reg !! "batch_1" = Some MoreSamples.service_task /\
  status MoreSamples.service_task = "pending" /\
  fst (cancel_batch_task "batch_1" reg) = true /\
  fst (cancel_batch_task "batch_1" (snd (cancel_batch_task "batch_1" reg)))
  = false.
Proof.
  cbn zeta.
  assert (H : ({[ "batch_1" := MoreSamples.service_task ]}
               : gmap string task) !! "batch_1"
              = Some MoreSamples.service_task)
    by apply lookup_singleton_eq.
  assert (Hs : status MoreSamples.service_task = "pending"
               \/ status MoreSamples.service_task = "processing")
    by (left; reflexivity).
  destruct (X24_service_cancel (fun _ => Samples.returns_in_time) "batch_1"
              _ _ H Hs) as (H1 & _ & H2 & _).
  split; [exact H|]. split; [reflexivity|]. split; [exact H1|].
  rewrite H2. reflexivity.
Defined.

End ServiceBatchFacts.
